(** * amazonscraper.client: a shallow embedding of [AmazonClient]

    The module [client.py] fetches search-result pages with retries, picks
    a page layout, extracts one record per product container and walks the
    next-page links.  Its code is embedded below function by function and
    under the names it has in the source.

    What the program itself computes is written out as executable
    definitions: the string methods it calls, its regular expressions
    (each one hand-compiled to the matcher Python's backtracking engine
    implements for it), its loops and its exception handlers.  What it
    only calls is an interface: the HTML library (BeautifulSoup objects,
    CSS selection), [urljoin] and the HTTP session.  The general theorems
    hold for every implementation of that interface; the scenarios at
    the end run the client on a table-driven one. *)

From Stdlib Require Import Bool Arith ZArith QArith Lia List String Ascii.
Import ListNotations.
Local Open Scope string_scope.
Local Open Scope list_scope.

(* ================================================================== *)
(** ** Exceptions and results *)

(** The exception classes that can cross the functions of the module.
    [ConnectionError] is the built-in class, the one [_get] raises and
    [_get_page_html] names in its handler; [SSLError] is
    [requests.exceptions.SSLError]; [MissingSchema] is
    [requests.exceptions.MissingSchema]; [OtherError] stands for any
    other class an external call may raise. *)
Inductive exn : Type :=
| SSLError
| ConnectionError
| MissingSchema
| ValueError
| AttributeError
| IndexError
| OtherError (name : string).

Inductive result (A : Type) : Type :=
| Ok (a : A)
| Raise (e : exn).
Arguments Ok {A} a.
Arguments Raise {A} e.

Definition rbind {A B} (r : result A) (k : A -> result B) : result B :=
  match r with
  | Ok a => k a
  | Raise e => Raise e
  end.

Declare Scope py_scope.
Delimit Scope py_scope with py.
Notation "x <- r ;; k" := (rbind r (fun x => k))
  (at level 61, r at next level, right associativity) : py_scope.

(* ================================================================== *)
(** ** Python strings

    A [str] is a [string] whose characters are its code points, not the
    bytes of an encoding of it; the embedding covers the strings whose
    code points are all below 256. *)

Definition chr_eqb (a b : ascii) : bool := Ascii.eqb a b.

(** The decimal digits, which are the class [\d] and the digits of the
    literals [int] and [float] read: among the code points below 256,
    the ten from 48 to 57. *)
Definition is_digit (c : ascii) : bool :=
  let n := nat_of_ascii c in (48 <=? n)%nat && (n <=? 57)%nat.

Definition digit_val (c : ascii) : Z := Z.of_nat (nat_of_ascii c) - 48.

(** The characters [str.strip] removes, those [str.isspace] holds of:
    among the code points below 256 they are 9 to 13, 28 to 32, 133
    (next line) and 160 (the no-break space of [&nbsp;]). *)
Definition is_space (c : ascii) : bool :=
  let n := nat_of_ascii c in
  ((9 <=? n)%nat && (n <=? 13)%nat) || ((28 <=? n)%nat && (n <=? 32)%nat)
  || (n =? 133)%nat || (n =? 160)%nat.

Definition newline : ascii := ascii_of_nat 10.

(** The regular-expression dot: any character but a line feed. *)
Definition re_dot (c : ascii) : bool := negb (chr_eqb c newline).

(** [s.startswith(p)]. *)
Fixpoint startswith (p s : string) : bool :=
  match p, s with
  | EmptyString, _ => true
  | String a p', String b s' => chr_eqb a b && startswith p' s'
  | String _ _, EmptyString => false
  end.

(** [kw in s]. *)
Fixpoint contains (kw s : string) : bool :=
  startswith kw s ||
  match s with
  | EmptyString => false
  | String _ s' => contains kw s'
  end.

(** [s] without the characters of the class [space] at its left end, and
    at its right end. *)
Fixpoint lstrip (space : ascii -> bool) (s : string) : string :=
  match s with
  | String c s' => if space c then lstrip space s' else s
  | EmptyString => EmptyString
  end.

Fixpoint rstrip (space : ascii -> bool) (s : string) : string :=
  match s with
  | EmptyString => EmptyString
  | String c s' =>
      match rstrip space s' with
      | EmptyString => if space c then EmptyString else String c EmptyString
      | r => String c r
      end
  end.

(** [s.strip()]. *)
Definition strip (s : string) : string := rstrip is_space (lstrip is_space s).

(** [s.replace(a, b)] for one-character [a], with [b] a string. *)
Fixpoint replace_chr (a : ascii) (b : string) (s : string) : string :=
  match s with
  | EmptyString => EmptyString
  | String c s' =>
      if chr_eqb c a then b ++ replace_chr a b s'
      else String c (replace_chr a b s')
  end.

(** [s.split(sep)] for a non-empty separator: [skip] counts the characters
    of a separator occurrence still to be passed over, [cur] is the piece
    being read. *)
Fixpoint split_go (sep : string) (skip : nat) (cur s : string) : list string :=
  match s with
  | EmptyString => [cur]
  | String c s' =>
      match skip with
      | S k => split_go sep k cur s'
      | O =>
          if startswith sep s
          then cur :: split_go sep (String.length sep - 1) EmptyString s'
          else split_go sep 0 (cur ++ String c EmptyString) s'
      end
  end.

Definition split (sep s : string) : list string := split_go sep 0 EmptyString s.

(* ------------------------------------------------------------------ *)
(** *** Numbers read from text

    [digitpart] reads Python's [digit (["_"] digit)*] and returns its
    value, the number of digits and the rest of the string. *)
Fixpoint digits_go (acc : Z) (n : nat) (s : string) : Z * nat * string :=
  match s with
  | String c s' =>
      if is_digit c then digits_go (acc * 10 + digit_val c) (S n) s'
      else if chr_eqb c "_" then
        match s' with
        | String d s'' =>
            if is_digit d then digits_go (acc * 10 + digit_val d) (S n) s''
            else (acc, n, s)
        | EmptyString => (acc, n, s)
        end
      else (acc, n, s)
  | EmptyString => (acc, n, s)
  end.

Definition digitpart (s : string) : option (Z * nat * string) :=
  match s with
  | String c s' =>
      if is_digit c then Some (digits_go (digit_val c) 1 s') else None
  | EmptyString => None
  end.

Definition sign (s : string) : Z * string :=
  match s with
  | String "+" s' => (1, s')
  | String "-" s' => (-1, s')
  | _ => (1, s)
  end%Z.

(** The white space [int] allows round a number: that of [str.isspace]
    less the four separators 28 to 31. *)
Definition is_int_space (c : ascii) : bool :=
  let n := nat_of_ascii c in
  ((9 <=? n)%nat && (n <=? 13)%nat) || (n =? 32)%nat
  || (n =? 133)%nat || (n =? 160)%nat.

(** [int(s)] for a string: surrounding white space, an optional sign and
    a digit part; [None] is [ValueError]. *)
Definition py_int (s : string) : option Z :=
  let '(sg, body) := sign (rstrip is_int_space (lstrip is_int_space s)) in
  match digitpart body with
  | Some (v, _, EmptyString) => Some (sg * v)%Z
  | _ => None
  end.

Definition pow10 (n : Z) : Q := inject_Z (10 ^ n).

(** The exponent of a float literal, applied to [m]. *)
Definition exponent (m : Q) (s : string) : option Q :=
  match s with
  | EmptyString => Some m
  | String c s' =>
      if chr_eqb c "e" || chr_eqb c "E" then
        let '(sg, body) := sign s' in
        match digitpart body with
        | Some (e, _, EmptyString) =>
            Some (if (sg <? 0)%Z then m / pow10 e else m * pow10 e)
        | _ => None
        end
      else None
  end.

(** The number a float literal denotes, for the literals the module's
    patterns can capture: they begin with a digit or a comma and carry
    no sign and no white space at either end, so what is left of
    Python's grammar is [digitpart ["." [digitpart]] [exponent]].
    [None] is [ValueError]. *)
Definition float_literal (s : string) : option Q :=
  match digitpart s with
  | None => None
  | Some (ip, _, r) =>
      match r with
      | String "." r' =>
          match digitpart r' with
          | Some (fp, n, r'') =>
              option_map Qred
                (exponent (inject_Z ip + inject_Z fp / pow10 (Z.of_nat n)) r'')
          | None => option_map Qred (exponent (inject_Z ip) r')
          end
      | _ => option_map Qred (exponent (inject_Z ip) r)
      end
  end.

(** *** Doubles *)

(** The integer nearest to [n / d], the even one of the two when it is
    half-way between them. *)
Definition round_div (n d : Z) : Z :=
  let q := (n / d)%Z in
  match (2 * (n mod d) ?= d)%Z with
  | Lt => q
  | Gt => (q + 1)%Z
  | Eq => if Z.even q then q else (q + 1)%Z
  end.

(** [b ^ k <= n / d], for positive [n], [d] and [b]. *)
Definition reaches (b n d k : Z) : bool :=
  if (0 <=? k)%Z then (d * b ^ k <=? n)%Z else (d <=? n * b ^ (- k))%Z.

(** The integer nearest to [(n / d) / b ^ k], ties to even. *)
Definition round_scaled (b n d k : Z) : Z :=
  if (0 <=? k)%Z then round_div n (d * b ^ k) else round_div (n * b ^ (- k)) d.

(** The number [m * b ^ k], in lowest terms. *)
Definition scaled (b m k : Z) : Q :=
  if (0 <=? k)%Z then inject_Z (m * b ^ k)
  else Qred (Qmake m (Z.to_pos (b ^ (- k)))).

(** The exponents [e] with [2 ^ e <= n / d < 2 ^ (e + 1)] and [k] with
    [10 ^ k <= n / d < 10 ^ (k + 1)], for positive [n] and [d]. *)
Definition binary_exponent (n d : Z) : Z :=
  let e := (Z.log2 n - Z.log2 d)%Z in
  if reaches 2 n d e then e else (e - 1)%Z.

Definition decimal_exponent (n d : Z) : Z :=
  let k := ((Z.log2 n - Z.log2 d) * 1233 / 4096)%Z in
  if negb (reaches 10 n d k) then (k - 1)%Z
  else if reaches 10 n d (k + 1) then (k + 1)%Z
  else k.

(** What stands for the infinite double: the least power of two past
    the finite ones. *)
Definition float_inf : Q := inject_Z (2 ^ 1024).

(** The double nearest to a rational that is not negative, ties to the
    even mantissa: a mantissa of 53 bits at the binary exponent of the
    number, or at the least exponent, [-1022], below it; [float_inf]
    from [2 ^ 1024 - 2 ^ 970] on. *)
Definition nearest_double (q : Q) : Q :=
  let n := Qnum q in
  let d := Zpos (Qden q) in
  if (n <=? 0)%Z then 0
  else
    let t := (Z.max (binary_exponent n d) (-1022) - 52)%Z in
    let v := scaled 2 (round_scaled 2 n d t) t in
    if Qle_bool float_inf v then float_inf else v.

(** The two neighbours of the positive number [v] among the decimals of
    [digits] significant digits, the nearer first. *)
Definition decimals_near (v : Q) (digits : Z) : list Q :=
  let n := Qnum v in
  let d := Zpos (Qden v) in
  let k := (decimal_exponent n d - digits + 1)%Z in
  let c := round_scaled 10 n d k in
  let near := scaled 10 c k in
  match Qcompare near v with
  | Lt => [near; scaled 10 (c + 1) k]
  | Gt => [near; scaled 10 (c - 1) k]
  | Eq => [near]
  end.

(** The number [repr] prints for a double: the decimal with the fewest
    significant digits that reads back as the double, and the nearest to
    it among those.  Seventeen digits always do. *)
Definition float_repr (v : Q) : Q :=
  if (Qnum v <=? 0)%Z then 0
  else if Qle_bool float_inf v then float_inf
  else
    match find (fun c => Qeq_bool (nearest_double c) v)
               (flat_map (decimals_near v)
                  [1; 2; 3; 4; 5; 6; 7; 8; 9; 10; 11; 12; 13; 14; 15; 16; 17]%Z)
    with
    | Some c => c
    | None => v
    end.

(** [float(s)]: the double nearest to the number the literal denotes.
    A double is kept as the number [repr] prints for it, so that two
    literals give the same amount exactly when they give the same
    double, and a literal of up to 15 significant digits, within the
    range of the normal doubles, gives the number it denotes. *)
Definition py_float (s : string) : option Q :=
  option_map (fun q => Qred (float_repr (nearest_double q))) (float_literal s).

(* ================================================================== *)
(** ** The regular expressions of the module *)

Definition is_digit_or_comma (c : ascii) : bool := is_digit c || chr_eqb c ",".

(** [.\d\d] after the last character [a] of the run [[\d,]+]. *)
Definition price_tail (a : ascii) (s : string) : option string :=
  match s with
  | String c (String d1 (String d2 _)) =>
      if re_dot c && is_digit d1 && is_digit d2
      then Some (String a (String c (String d1 (String d2 EmptyString))))
      else None
  | _ => None
  end.

(** [[\d,]+.\d\d] matched at the head of [s]: the run is greedy, so a
    longer run is tried before the run is ended at [a]. *)
Fixpoint price_body (s : string) : option string :=
  match s with
  | String a s' =>
      if is_digit_or_comma a then
        match price_body s' with
        | Some m => Some (String a m)
        | None => price_tail a s'
        end
      else None
  | EmptyString => None
  end.

(** [re.search('\$([\d,]+.\d\d)', s)]: group 1 of the leftmost match. *)
Fixpoint search_price (s : string) : option string :=
  match s with
  | String a s' =>
      if chr_eqb a "$" then
        match price_body s' with
        | Some m => Some m
        | None => search_price s'
        end
      else search_price s'
  | EmptyString => None
  end.

(** [re.search(r'(\d.\d) out of 5', s)]: group 1 of the leftmost match. *)
Fixpoint search_rating (s : string) : option string :=
  match s with
  | String a s' =>
      match s' with
      | String b (String c r) =>
          if is_digit a && re_dot b && is_digit c && startswith " out of 5" r
          then Some (String a (String b (String c EmptyString)))
          else search_rating s'
      | _ => None
      end
  | EmptyString => None
  end.

(** The tail of the unit pattern, a greedy dot-star group closed by a
    right parenthesis, matched at the head of [s]: group 1. *)
Fixpoint upto_last_paren (s : string) : option string :=
  match s with
  | EmptyString => None
  | String c s' =>
      if re_dot c then
        match upto_last_paren s' with
        | Some m => Some (String c m)
        | None => if chr_eqb c ")" then Some EmptyString else None
        end
      else None
  end.

(** Item 0 of [re.findall] for the unit pattern (a slash, then the tail
    above); [None] when the list is empty. *)
Fixpoint findall_unit_0 (s : string) : option string :=
  match s with
  | String a s' =>
      if chr_eqb a "/" then
        match upto_last_paren s' with
        | Some m => Some m
        | None => findall_unit_0 s'
        end
      else findall_unit_0 s'
  | EmptyString => None
  end.

Fixpoint drop (n : nat) (s : string) : string :=
  match n, s with
  | S k, String _ s' => drop k s'
  | _, _ => s
  end.

(** [.*?\.jpg] matched at the head of [s]: the number of characters the
    lazy dot-star takes. *)
Fixpoint lazy_jpg (s : string) : option nat :=
  if startswith ".jpg" s then Some O
  else match s with
       | String c s' => if re_dot c then option_map S (lazy_jpg s') else None
       | EmptyString => None
       end.

(** [re.sub(r'\._AC_.*?\.jpg', '.jpg', s)]; [skip] counts the characters
    of the current match still to be passed over. *)
Fixpoint sub_ac_jpg (skip : nat) (s : string) : string :=
  match s with
  | EmptyString => EmptyString
  | String c s' =>
      match skip with
      | S k => sub_ac_jpg k s'
      | O =>
          if startswith "._AC_" s then
            match lazy_jpg (drop 5 s) with
            | Some n => ".jpg" ++ sub_ac_jpg (n + 8) s'
            | None => String c (sub_ac_jpg 0 s')
            end
          else String c (sub_ac_jpg 0 s')
      end
  end.

(* ================================================================== *)
(** ** Constants *)

Definition _BASE_URL : string := "https://www.amazon.com/".

Definition _USER_AGENT_LIST : list string :=
  [ "Mozilla/5.0 (Linux; Android 7.0; SM-A520F Build/NRD90M; wv) AppleWebKit/537.36 (KHTML, like Gecko) Version/4.0 Chrome/65.0.3325.109 Mobile Safari/537.36";
    "Mozilla/5.0 (Macintosh; Intel Mac OS X 10_13_5) AppleWebKit/537.36 (KHTML, like Gecko) Chrome/67.0.3396.79 Safari/537.36" ].

(** One entry of [CSS_SELECTORS]: the selectors of a page layout. *)
Record LayoutSchema : Type := {
  sel_product : string;
  sel_title : string;
  sel_rating : string;
  sel_review_nb : string;
  sel_url : string;
  sel_img : string;
  sel_next_page_url : string
}.

Definition mobile : LayoutSchema := {|
  sel_product := "#resultItems > li";
  sel_title := "a > div > div.sx-table-detail > h5 > span";
  sel_rating := "a > div > div.sx-table-detail > div.a-icon-row.a-size-small > i > span";
  sel_review_nb := "a > div > div.sx-table-detail > div.a-icon-row.a-size-small > span";
  sel_url := "a[href]";
  sel_img := "img[src]";
  sel_next_page_url := "ul.a-pagination > li.a-last > a[href]" |}.

Definition mobile_grid : LayoutSchema := {|
  sel_product := "#grid-atf-content > li > div.s-item-container";
  sel_title := "a > div > h5.sx-title > span";
  sel_rating := "a > div > div.a-icon-row.a-size-mini > i > span";
  sel_review_nb := "a > div > div.a-icon-row.a-size-mini > span";
  sel_url := "a[href]";
  sel_img := "img[src]";
  sel_next_page_url := "ul.a-pagination > li.a-last > a[href]" |}.

Definition desktop : LayoutSchema := {|
  sel_product := "ul > li.s-result-item > div.s-item-container";
  sel_title := "a.s-access-detail-page > h2";
  sel_rating := "i.a-icon-star > span";
  sel_review_nb := "div.a-column.a-span5.a-span-last > div.a-row.a-spacing-mini > a.a-size-small.a-link-normal.a-text-normal";
  sel_url := "div.a-row.a-spacing-small > div.a-row.a-spacing-none > a[href]";
  sel_img := "div.a-column.a-span12.a-text-center > a.a-link-normal.a-text-normal > img[src]";
  sel_next_page_url := "a#pagnNextLink" |}.

Definition desktop_2 : LayoutSchema := {|
  sel_product := "div.s-result-list.sg-row > div.s-result-item";
  sel_title := "div div.sg-row  h5 > span";
  sel_rating := "div div.sg-row .a-spacing-top-mini i span";
  sel_review_nb := "div div.sg-row .a-spacing-top-mini span.a-size-small";
  sel_url := "div div a.a-link-normal";
  sel_img := "img[src]";
  sel_next_page_url := "li.a-last > a[href]" |}.

(** The dictionary, in the order its keys were inserted: the order
    [CSS_SELECTORS.values()] iterates in. *)
Definition CSS_SELECTORS : list (string * LayoutSchema) :=
  [ ("mobile", mobile); ("mobile_grid", mobile_grid);
    ("desktop", desktop); ("desktop_2", desktop_2) ].

Definition CSS_SELECTORS_values : list LayoutSchema := map snd CSS_SELECTORS.

Definition _MAX_TRIAL_REQUESTS : nat := 5.
Definition _WAIT_TIME_BETWEEN_REQUESTS : nat := 1.

(* ================================================================== *)
(** ** Data model *)

(** A number or [float('nan')]. *)
Inductive or_nan (A : Type) : Type :=
| NaN
| Number (a : A).
Arguments NaN {A}.
Arguments Number {A} a.

(** What the closing comprehension of [_get_prices] makes of a set:
    [float('nan')] when it is empty, its element when it has one, and the
    [', '] join of the [str] of its elements otherwise.  The join follows
    the iteration order of a Python set, which the language leaves open:
    [Joined] keeps the elements and not the text. *)
Inductive collapsed (A : Type) : Type :=
| Unknown
| Single (a : A)
| Joined (elements : list A).
Arguments Unknown {A}.
Arguments Single {A} a.
Arguments Joined {A} elements.

(** The dictionary [_extract_page] builds for one product. *)
Record product_dict : Type := {
  title : string;
  rating : or_nan Q;
  review_nb : or_nan Z;
  img : string;
  url : string;
  asin : string;
  prices_per_unit : collapsed Q;
  units : collapsed string;
  prices_main : collapsed Q
}.

(** A text node as [_get_prices] sees it: its text, and the value of
    [parent.parent.attrs.get('data-a-strike')]. *)
Record NavigableString : Type := {
  ns_text : string;
  ns_strike : option string
}.

(** A Python set, kept as the list of its distinct elements. *)
Fixpoint set_add {A} (eqb : A -> A -> bool) (x : A) (s : list A) : list A :=
  match s with
  | [] => [x]
  | y :: s' => if eqb x y then s else y :: set_add eqb x s'
  end.

Definition Q_eqb (x y : Q) : bool := Qeq_bool x y.

Definition collapse {A} (value : list A) : collapsed A :=
  match value with
  | [] => Unknown
  | [a] => Single a
  | _ => Joined value
  end.

(* ================================================================== *)
(** ** The libraries the module calls *)

(** BeautifulSoup and [urllib.parse.urljoin].  A [Tag] is a parsed
    element; the [BeautifulSoup] object of a page is one too.
    [tag_strings t] lists the text nodes below [t] in document order, the
    nodes [find_all(text=...)] filters.  [urljoin] takes the [str] or
    [None] it is given and may raise, as it does on a malformed
    authority. *)
Class HtmlLibrary : Type := {
  Tag : Type;
  BeautifulSoup : string -> Tag;
  tag_select : Tag -> string -> list Tag;
  tag_text : Tag -> string;
  tag_str : Tag -> string;
  tag_get : Tag -> string -> option string;
  tag_strings : Tag -> list NavigableString;
  urljoin : string -> option string -> result string
}.

Section Extraction.
Context {lib : HtmlLibrary}.
Local Open Scope py_scope.

Definition _css_select (soup : Tag) (selector : string) : option string :=
  match tag_select soup selector with
  | [] => None
  | t :: _ => Some (strip (tag_text t))
  end.

Definition _get_high_res_img_url (url : string) : string := sub_ac_jpg 0 url.

Definition n_ratings_selectors : list string :=
  [ "div.a-row.a-size-small span.a-size-base";
    "div div.sg-row .a-spacing-top-mini span.a-size-small";
    "div.a-column.a-span5.a-span-last > div.a-row.a-spacing-mini > a.a-size-small.a-link-normal.a-text-normal" ].

(** The loop of [_get_n_ratings].  [n_ratings.replace] is called on
    whatever [_css_select] returned: on [None] it raises
    [AttributeError], which the handler for [ValueError] lets through. *)
Fixpoint _get_n_ratings_loop (product : Tag) (selectors : list string)
  : result (or_nan Z) :=
  match selectors with
  | [] => Ok NaN
  | selector :: rest =>
      match _css_select product selector with
      | None => Raise AttributeError
      | Some n_ratings =>
          match py_int (replace_chr "," EmptyString n_ratings) with
          | Some n => Ok (Number n)
          | None => _get_n_ratings_loop product rest
          end
      end
  end.

Definition _get_n_ratings (product : Tag) : result (or_nan Z) :=
  _get_n_ratings_loop product n_ratings_selectors.

Definition title_selectors : list string :=
  [ "h5 span"; "a.s-access-detail-page > h2"; "div div.sg-row h5 > span" ].

Fixpoint _get_title_loop (product : Tag) (selectors : list string) : string :=
  match selectors with
  | [] => "Title not found"
  | selector :: rest =>
      match _css_select product selector with
      | Some (String c t) => String c t
      | _ => _get_title_loop product rest
      end
  end.

Definition _get_title (product : Tag) : string :=
  _get_title_loop product title_selectors.

Definition _get_rating (product : Tag) : result (or_nan Q) :=
  match search_rating (tag_str product) with
  | Some group1 =>
      match py_float (replace_chr "," "." group1) with
      | Some x => Ok (Number x)
      | None => Raise ValueError
      end
  | None => Ok NaN
  end.

(** The three sets of [_get_prices], in the order of the keys of
    [prices]. *)
Record price_sets : Type := {
  set_prices_per_unit : list Q;
  set_units : list string;
  set_prices_main : list Q
}.

Definition is_struck (raw_price : NavigableString) : bool :=
  match ns_strike raw_price with
  | Some v => String.eqb v "true"
  | None => false
  end.

(** One turn of the loop of [_get_prices]. *)
Definition _get_prices_step (prices : price_sets) (raw_price : NavigableString)
  : result price_sets :=
  match search_price (ns_text raw_price) with
  | None => Raise AttributeError
  | Some group1 =>
      match py_float group1 with
      | None => Raise ValueError
      | Some price =>
          if is_struck raw_price || String.eqb (ns_text raw_price) "$0.00"
          then Ok prices
          else if startswith "(" (ns_text raw_price)
                  && contains "/" (ns_text raw_price)
          then
            match findall_unit_0 (ns_text raw_price) with
            | None => Raise IndexError
            | Some price_per_unit =>
                Ok {| set_prices_per_unit :=
                        set_add Q_eqb price (set_prices_per_unit prices);
                      set_units :=
                        set_add String.eqb price_per_unit (set_units prices);
                      set_prices_main := set_prices_main prices |}
            end
          else
            Ok {| set_prices_per_unit := set_prices_per_unit prices;
                  set_units := set_units prices;
                  set_prices_main :=
                    set_add Q_eqb price (set_prices_main prices) |}
      end
  end.

Fixpoint _get_prices_loop (prices : price_sets)
  (raw_prices : list NavigableString) : result price_sets :=
  match raw_prices with
  | [] => Ok prices
  | raw_price :: rest =>
      prices' <- _get_prices_step prices raw_price ;;
      _get_prices_loop prices' rest
  end.

(** [product.find_all(text=re.compile(...))]: the text nodes the pattern
    is found in. *)
Definition find_all_prices (product : Tag) : list NavigableString :=
  filter (fun s => match search_price (ns_text s) with
                   | Some _ => true
                   | None => false
                   end)
         (tag_strings product).

Definition empty_price_sets : price_sets :=
  {| set_prices_per_unit := []; set_units := []; set_prices_main := [] |}.

(** The sets as the loop of [_get_prices] leaves them. *)
Definition _get_prices_sets (product : Tag) : result price_sets :=
  _get_prices_loop empty_price_sets (find_all_prices product).

Definition _get_prices (product : Tag)
  : result (collapsed Q * collapsed string * collapsed Q) :=
  prices <- _get_prices_sets product ;;
  Ok (collapse (set_prices_per_unit prices),
      collapse (set_units prices),
      collapse (set_prices_main prices)).

Definition _get_img (product : Tag) : string :=
  match _css_select product "img[src]" with
  | Some (String c u) => _get_high_res_img_url (String c u)
  | _ => EmptyString
  end.

(** [self.base_url] exists once [_update_headers] has run; reading it
    before raises [AttributeError]. *)
Definition read_base_url (base_url : option string) : result string :=
  match base_url with
  | Some b => Ok b
  | None => Raise AttributeError
  end.

Definition _get_url (base_url : option string) (product : Tag) : result string :=
  match _css_select product "a[href]" with
  | Some (String c u) =>
      b <- read_base_url base_url ;;
      urljoin b (Some (String c u))
  | _ => Ok EmptyString
  end.

Definition _get_asin (base_url : option string) (product : Tag) : result string :=
  u <- _get_url base_url product ;;
  Ok (last (split "/" u) EmptyString).

(** The dictionary of one product: the literal of [_extract_page],
    evaluated in the order of its keys, then [update]d with the prices. *)
Definition extract_product (base_url : option string) (product : Tag)
  : result product_dict :=
  let t := _get_title product in
  r <- _get_rating product ;;
  n <- _get_n_ratings product ;;
  let i := _get_img product in
  u <- _get_url base_url product ;;
  a <- _get_asin base_url product ;;
  p <- _get_prices product ;;
  Ok {| title := t; rating := r; review_nb := n; img := i; url := u;
        asin := a;
        prices_per_unit := fst (fst p); units := snd (fst p);
        prices_main := snd p |}.

(** The first loop of [_extract_page]: [products] is overwritten at each
    schema and the loop is left at the first selection that is not
    empty. *)
Fixpoint select_products (soup : Tag) (schemas : list LayoutSchema)
  (products : list Tag) : list Tag :=
  match schemas with
  | [] => products
  | selector :: rest =>
      match tag_select soup (sel_product selector) with
      | [] => select_products soup rest []
      | p :: ps => p :: ps
      end
  end.

(** [_get_next_page_url], which reads [self.base_url] and nothing else of
    the client. *)
Definition _get_next_page_url (base_url : option string) (soup : Tag)
  : result (option string) :=
  match tag_select soup (sel_next_page_url mobile) with
  | [] => Ok None
  | a :: _ =>
      b <- read_base_url base_url ;;
      u <- urljoin b (tag_get a "href") ;;
      Ok (Some u)
  end.

End Extraction.

(* ================================================================== *)
(** ** The client and the network *)

(** The dictionary [self.headers]; its three keys never change. *)
Record Headers : Type := {
  Host : string;
  User_Agent : string;
  Accept : string
}.

(** What the client does to the outside world. *)
Inductive event : Type :=
| EvGet (url : string) (h : Headers)
| EvSleep (seconds : nat).

Record Response : Type := {
  status_code : Z;
  text : string
}.

(** What a call of [session.get] comes to. *)
Inductive get_outcome : Type :=
| Returns (r : Response)
| Throws (e : exn).

(** The network: the outcome of the [k]-th request the session sends,
    counted from 0.  The client is deterministic, so every behaviour of
    the servers, whatever it depends on, is one such sequence. *)
Class Network : Type := {
  network : nat -> get_outcome
}.

(** The attributes of an [AmazonClient], and [io_trace], the requests
    sent through [self.session] and the delays slept so far, oldest
    first. *)
Record AmazonClient : Type := {
  current_user_agent_index : nat;
  headers : Headers;
  base_url : option string;
  product_dict_list : list product_dict;
  html_pages : list string;
  io_trace : list event
}.

Definition is_get (e : event) : bool :=
  match e with
  | EvGet _ _ => true
  | EvSleep _ => false
  end.

(** The number of requests in a trace. *)
Definition n_gets (t : list event) : nat := List.length (filter is_get t).

Definition __init__ : AmazonClient := {|
  current_user_agent_index := 0;
  headers := {| Host := "www.amazon.com";
                User_Agent := nth 0 _USER_AGENT_LIST EmptyString;
                Accept := "text/html,application/xhtml+xml, application/xml;q=0.9,image/webp,image/apng,*/*;q=0.8" |};
  base_url := None;
  product_dict_list := [];
  html_pages := [];
  io_trace := []
|}.

Definition record_event (e : event) (self : AmazonClient) : AmazonClient :=
  {| current_user_agent_index := current_user_agent_index self;
     headers := headers self;
     base_url := base_url self;
     product_dict_list := product_dict_list self;
     html_pages := html_pages self;
     io_trace := io_trace self ++ [e] |}.

(** [time.sleep(seconds)]. *)
Definition sleep (seconds : nat) (self : AmazonClient) : AmazonClient :=
  record_event (EvSleep seconds) self.

Definition _change_user_agent (self : AmazonClient) : AmazonClient :=
  let i := (current_user_agent_index self + 1) mod List.length _USER_AGENT_LIST in
  {| current_user_agent_index := i;
     headers := {| Host := Host (headers self);
                   User_Agent := nth i _USER_AGENT_LIST EmptyString;
                   Accept := Accept (headers self) |};
     base_url := base_url self;
     product_dict_list := product_dict_list self;
     html_pages := html_pages self;
     io_trace := io_trace self |}.

Definition invalid_keywords : list string :=
  [ "Sign in for the best experience";
    "The request could not be satisfied.";
    "Robot Check" ].

Definition _check_page (html_content : string) : bool :=
  negb (existsb (fun keyword => contains keyword html_content) invalid_keywords).

Section Client.
Context {lib : HtmlLibrary} {net : Network}.
Local Open Scope py_scope.

(** [self.session.get(url, headers=self.headers)].  When [url] is [None]
    requests prepares the text ['None'], finds no scheme in it and raises
    [MissingSchema] before anything is sent. *)
Definition session_get (url : option string) (self : AmazonClient)
  : get_outcome * AmazonClient :=
  match url with
  | None => (Throws MissingSchema, self)
  | Some u =>
      (network (n_gets (io_trace self)),
       record_event (EvGet u (headers self)) self)
  end.

Definition _get (url : option string) (self : AmazonClient)
  : result Response * AmazonClient :=
  match session_get url self with
  | (Returns response, self') =>
      if (status_code response =? 200)%Z then (Ok response, self')
      else (Raise ConnectionError, self')
  | (Throws e, self') => (Raise e, self')
  end.

(** The handler [except (requests.exceptions.SSLError, ConnectionError)]. *)
Definition handled (e : exn) : bool :=
  match e with
  | SSLError | ConnectionError => true
  | _ => false
  end.

(** The loop of [_get_page_html], on [_MAX_TRIAL_REQUESTS - trials], the
    number of turns the test [trials < _MAX_TRIAL_REQUESTS] still
    grants. *)
Fixpoint _get_page_html_loop (remaining : nat) (search_url : option string)
  (self : AmazonClient) : result string * AmazonClient :=
  match remaining with
  | O => (Raise ValueError, self)
  | S remaining' =>
      let retry self' :=
        _get_page_html_loop remaining' search_url
          (sleep _WAIT_TIME_BETWEEN_REQUESTS (_change_user_agent self')) in
      match _get search_url self with
      | (Ok res, self') =>
          if _check_page (text res) then (Ok (text res), self')
          else retry self'
      | (Raise e, self') =>
          if handled e then retry self' else (Raise e, self')
      end
  end.

Definition _get_page_html (search_url : option string) (self : AmazonClient)
  : result string * AmazonClient :=
  _get_page_html_loop _MAX_TRIAL_REQUESTS search_url self.

Definition _get_search_url (keywords : string) : result string :=
  urljoin _BASE_URL (Some ("s?k=" ++ keywords)%string).

Definition _update_headers (search_url : string) (self : AmazonClient)
  : result unit * AmazonClient :=
  match nth_error (split "://" search_url) 1 with
  | None => (Raise IndexError, self)
  | Some rest =>
      let domain := hd EmptyString (split "/" rest) in
      (Ok tt,
       {| current_user_agent_index := current_user_agent_index self;
          headers := {| Host := domain;
                        User_Agent := User_Agent (headers self);
                        Accept := Accept (headers self) |};
          base_url := Some ("https://" ++ domain ++ "/")%string;
          product_dict_list := product_dict_list self;
          html_pages := html_pages self;
          io_trace := io_trace self |})
  end.

Definition append_product (d : product_dict) (self : AmazonClient)
  : AmazonClient :=
  {| current_user_agent_index := current_user_agent_index self;
     headers := headers self;
     base_url := base_url self;
     product_dict_list := product_dict_list self ++ [d];
     html_pages := html_pages self;
     io_trace := io_trace self |}.

Definition append_page (page : string) (self : AmazonClient) : AmazonClient :=
  {| current_user_agent_index := current_user_agent_index self;
     headers := headers self;
     base_url := base_url self;
     product_dict_list := product_dict_list self;
     html_pages := html_pages self ++ [page];
     io_trace := io_trace self |}.

Definition len {A} (l : list A) : Z := Z.of_nat (List.length l).

(** The second loop of [_extract_page]. *)
Fixpoint extract_products (products : list Tag) (max_product_nb : Z)
  (self : AmazonClient) : result unit * AmazonClient :=
  match products with
  | [] => (Ok tt, self)
  | product :: rest =>
      if (len (product_dict_list self) >=? max_product_nb)%Z then (Ok tt, self)
      else
        match extract_product (base_url self) product with
        | Ok product_dict =>
            extract_products rest max_product_nb
              (append_product product_dict self)
        | Raise e => (Raise e, self)
        end
  end.

Definition _extract_page (page : string) (max_product_nb : Z)
  (self : AmazonClient) : result (option string) * AmazonClient :=
  let soup := BeautifulSoup page in
  let products := select_products soup CSS_SELECTORS_values [] in
  match extract_products products max_product_nb self with
  | (Ok _, self') => (_get_next_page_url (base_url self') soup, self')
  | (Raise e, self') => (Raise e, self')
  end.

(** The loop of [_get_products].  Nothing bounds the number of its
    turns, so the embedding counts them: [None] says that [fuel] turns
    did not reach the end. *)
Fixpoint _get_products_loop (fuel : nat) (search_url : option string)
  (max_product_nb : Z) (self : AmazonClient)
  : option (result unit * AmazonClient) :=
  if (len (product_dict_list self) <? max_product_nb)%Z then
    match fuel with
    | O => None
    | S fuel' =>
        match _get_page_html search_url self with
        | (Ok page, self1) =>
            match _extract_page page max_product_nb (append_page page self1) with
            | (Ok next, self2) =>
                _get_products_loop fuel' next max_product_nb self2
            | (Raise e, self2) => Some (Raise e, self2)
            end
        | (Raise e, self1) => Some (Raise e, self1)
        end
    end
  else Some (Ok tt, self).

Definition _get_products (fuel : nat) (keywords search_url : string)
  (max_product_nb : Z) (self : AmazonClient)
  : option (result (list product_dict) * AmazonClient) :=
  match (match search_url with
         | EmptyString => _get_search_url keywords
         | _ => Ok search_url
         end) with
  | Raise e => Some (Raise e, self)
  | Ok search_url =>
      match _update_headers search_url self with
      | (Raise e, self0) => Some (Raise e, self0)
      | (Ok _, self0) =>
          match _get_products_loop fuel (Some search_url) max_product_nb self0 with
          | Some (Ok _, self') => Some (Ok (product_dict_list self'), self')
          | Some (Raise e, self') => Some (Raise e, self')
          | None => None
          end
      end
  end.

End Client.

(* ================================================================== *)
(** ** Vocabulary of the statements *)

Definition ok_page (page : string) : get_outcome :=
  Returns {| status_code := 200; text := page |}.

(** An attempt of [_get_page_html] that does not return a page and is
    recovered from: the request raised one of the two handled classes,
    or came back with a status other than 200, or with a block page. *)
Definition attempt_fails (o : get_outcome) : bool :=
  match o with
  | Throws e => handled e
  | Returns r => negb (status_code r =? 200)%Z || negb (_check_page (text r))
  end.

(** The same without the block page: the request raised [SSLError] or
    [ConnectionError], or was answered with a status other than 200. *)
Definition transport_or_status_failure (o : get_outcome) : bool :=
  match o with
  | Throws e => handled e
  | Returns r => negb (status_code r =? 200)%Z
  end.

(** The client after a failed attempt at [u]: the request has been sent,
    the identity rotated once and the delay slept. *)
Definition failed_attempt (u : string) (self : AmazonClient) : AmazonClient :=
  sleep _WAIT_TIME_BETWEEN_REQUESTS
    (_change_user_agent (record_event (EvGet u (headers self)) self)).

(** An event of a fetch of [url]: a request to it, or the delay. *)
Definition fetch_event (url : option string) (e : event) : Prop :=
  match e with
  | EvGet u _ => url = Some u
  | EvSleep seconds => seconds = _WAIT_TIME_BETWEEN_REQUESTS
  end.

(** The outcome of classifying one price fragment, in the words of the
    description of the classifier. *)
Inductive price_class : Type :=
| Skipped
| PerUnit (amount : Q) (unit_label : string)
| Main (amount : Q).

(** The classifier as described: the amount is the number read from the
    currency figure; a fragment flagged as struck through, or whose text
    is exactly the figure [$0.00], is skipped; a fragment that opens with
    a parenthesis and holds a divider is a per-unit price, its unit the
    text from the divider to the closing parenthesis; any other fragment
    is a main price.  [None] where the figure is not a number, or where
    a per-unit fragment has no closing parenthesis after its divider. *)
Definition classify (f : NavigableString) : option price_class :=
  match search_price (ns_text f) with
  | None => None
  | Some figure =>
      match py_float figure with
      | None => None
      | Some amount =>
          if is_struck f || String.eqb (ns_text f) "$0.00" then Some Skipped
          else if startswith "(" (ns_text f) && contains "/" (ns_text f) then
            option_map (PerUnit amount) (findall_unit_0 (ns_text f))
          else Some (Main amount)
      end
  end.

Section Vocabulary.
Context {lib : HtmlLibrary} {net : Network}.

(** The URL [_get_products] starts from: [search_url], or the search URL
    of the keywords when [search_url] is empty. *)
Definition first_url (keywords search_url : string) : result string :=
  match search_url with
  | EmptyString => _get_search_url keywords
  | _ => Ok search_url
  end.

(** The containers [_extract_page] finds on a page. *)
Definition page_products (page : string) : list Tag :=
  select_products (BeautifulSoup page) CSS_SELECTORS_values [].

(** The product selector of the schema [s] finds something in [soup]. *)
Definition matches (soup : Tag) (s : LayoutSchema) : bool :=
  match tag_select soup (sel_product s) with
  | [] => false
  | _ :: _ => true
  end.

(** [d] is the record the container [p] extracts to. *)
Definition extracted (base : option string) (d : product_dict) (p : Tag) : Prop :=
  extract_product base p = Ok d.

(** The containers of a sequence of pages, page after page. *)
Definition containers (pages : list string) : list Tag :=
  flat_map page_products pages.

(** [visited base t0 url evs pages]: from the trace [t0] and the current
    URL [url], the events [evs] fetch the pages [pages], one after the
    other, each page from the next-page link of the page before it.
    The events of one fetch are its failed attempts and then the request
    the page answers; events after the last page belong to a fetch that
    gave no page. *)
Inductive visited (base : option string)
  : list event -> option string -> list event -> list string -> Prop :=
| visited_stop : forall t0 url evs,
    Forall (fetch_event url) evs ->
    visited base t0 url evs []
| visited_page : forall t0 u seg h page next evs pages,
    Forall (fetch_event (Some u)) seg ->
    network (n_gets (t0 ++ seg)) = ok_page page ->
    _check_page page = true ->
    (evs <> [] \/ pages <> [] ->
     _get_next_page_url base (BeautifulSoup page) = Ok next) ->
    visited base (t0 ++ seg ++ [EvGet u h]) next evs pages ->
    visited base t0 (Some u) (seg ++ EvGet u h :: evs) (page :: pages).

End Vocabulary.

(* ================================================================== *)
(** ** A table-driven library and a scripted network

    The concrete pages the development evaluates the client on.  A
    [FixtureTag] is an element given by what the client can ask of it: its
    text, its markup, its attributes, its text nodes and, selector by
    selector, the elements a CSS selection returns. *)

#[local] Set Warnings "-register-all".
Inductive FixtureTag : Type :=
| fixture_tag (ftext fstr : string) (fattrs : list (string * string))
    (fstrings : list NavigableString)
    (fselect : list (string * list FixtureTag)).

Fixpoint assoc {A} (key : string) (table : list (string * A)) : option A :=
  match table with
  | [] => None
  | (k, v) :: rest => if String.eqb key k then Some v else assoc key rest
  end.

Definition fixture_select (t : FixtureTag) (selector : string) : list FixtureTag :=
  match t with
  | fixture_tag _ _ _ _ fselect =>
      match assoc selector fselect with
      | Some l => l
      | None => []
      end
  end.

Definition empty_tag : FixtureTag := fixture_tag EmptyString EmptyString [] [] [].

(** [urljoin] where the fixtures use it: [None] and the empty string give
    the base, an absolute [https] URL replaces it, and a plain relative
    name is put after a base that ends in a slash. *)
Definition fixture_urljoin (base : string) (u : option string) : result string :=
  match u with
  | Some (String c r) =>
      if startswith "https://" (String c r) then Ok (String c r)
      else Ok (base ++ String c r)%string
  | _ => Ok base
  end.

Definition fixture_library (pages : list (string * FixtureTag)) : HtmlLibrary := {|
  Tag := FixtureTag;
  BeautifulSoup := fun page =>
    match assoc page pages with
    | Some t => t
    | None => empty_tag
    end;
  tag_select := fixture_select;
  tag_text := fun t => match t with fixture_tag x _ _ _ _ => x end;
  tag_str := fun t => match t with fixture_tag _ x _ _ _ => x end;
  tag_get := fun t a => match t with fixture_tag _ _ x _ _ => assoc a x end;
  tag_strings := fun t => match t with fixture_tag _ _ _ x _ => x end;
  urljoin := fixture_urljoin
|}.

(** The session answers the [k]-th request with the [k]-th entry of the
    script and refuses the connection once the script is over. *)
Definition scripted_network (script : list get_outcome) : Network := {|
  network := fun k =>
    nth k script (Throws (OtherError "requests.exceptions.ConnectionError"))
|}.

Definition leaf (txt : string) : FixtureTag := fixture_tag txt txt [] [] [].

Definition plain (txt : string) : NavigableString :=
  {| ns_text := txt; ns_strike := None |}.

Definition struck (txt : string) : NavigableString :=
  {| ns_text := txt; ns_strike := Some "true" |}.

(** A product entry with a title, a star rating, a review count and
    three price figures: the current price, the struck original price
    and the price per ounce. *)
Definition widget (name : string) : FixtureTag :=
  fixture_tag
    (name ++ " 4.5 out of 5 stars 1,234 $19.99 $29.99 ($4.00/oz)")
    ("<li><h5><span>" ++ name ++ "</span></h5><i><span>4.5 out of 5 stars</span></i></li>")
    []
    [ plain name; plain "4.5 out of 5 stars"; plain "1,234";
      plain "$19.99"; struck "$29.99"; plain "($4.00/oz)" ]
    [ ("h5 span", [leaf name]);
      ("div.a-row.a-size-small span.a-size-base", [leaf "1,234"]) ].

(** A mobile-layout listing page; [next] is the [href] of its next-page
    link, when it has one. *)
Definition listing (products : list FixtureTag) (next : option string)
  : FixtureTag :=
  fixture_tag EmptyString EmptyString [] []
    (("#resultItems > li", products) ::
     match next with
     | Some href =>
         [ ("ul.a-pagination > li.a-last > a[href]",
            [fixture_tag "Next" "<a>Next</a>" [("href", href)] [] []]) ]
     | None => []
     end).

Definition widgets (names : list string) : list FixtureTag := map widget names.

(** One page of ten products and no next-page link. *)
Definition ten_names : list string :=
  [ "W0"; "W1"; "W2"; "W3"; "W4"; "W5"; "W6"; "W7"; "W8"; "W9" ].

Definition single_page_site : list (string * FixtureTag) :=
  [ ("<html>ten results, last page</html>", listing (widgets ten_names) None) ].

Definition single_page_script : list get_outcome :=
  [ ok_page "<html>ten results, last page</html>" ].

(** Three pages of three, four and two products, each but the last with
    a next-page link. *)
Definition three_page_site : list (string * FixtureTag) :=
  [ ("<html>results 1-3</html>",
     listing (widgets ["A1"; "A2"; "A3"]) (Some "s?k=laptop&page=2"));
    ("<html>results 4-7</html>",
     listing (widgets ["B1"; "B2"; "B3"; "B4"]) (Some "s?k=laptop&page=3"));
    ("<html>results 8-9</html>",
     listing (widgets ["C1"; "C2"]) None) ].

Definition three_page_script : list get_outcome :=
  [ ok_page "<html>results 1-3</html>";
    ok_page "<html>results 4-7</html>";
    ok_page "<html>results 8-9</html>" ].

(** The record every [widget] extracts to, up to its title. *)
Definition widget_record (name : string) : product_dict := {|
  title := name;
  rating := Number (9 # 2);
  review_nb := Number 1234%Z;
  img := EmptyString;
  url := EmptyString;
  asin := EmptyString;
  prices_per_unit := Single 4;
  units := Single "oz";
  prices_main := Single 19.99
|}.

(** A container with no element for the review count. *)
Definition bare_container : FixtureTag :=
  fixture_tag "Gadget" "<li><h5><span>Gadget</span></h5></li>" []
    [ plain "Gadget" ] [ ("h5 span", [leaf "Gadget"]) ].

(** A container whose only price figure is a per-unit price of zero. *)
Definition free_sample : FixtureTag :=
  fixture_tag "Sample ($0.00/oz)" "<li>Sample ($0.00/oz)</li>" []
    [ plain "Sample"; plain "($0.00/oz)" ] [].

(** A container with the three price figures of a product entry and
    nothing else. *)
Definition three_prices : FixtureTag :=
  fixture_tag "$19.99 $29.99 ($4.00/oz)"
    "<li><span>$19.99</span><span data-a-strike='true'><span>$29.99</span></span><span>($4.00/oz)</span></li>"
    []
    [ plain "$19.99"; struck "$29.99"; plain "($4.00/oz)" ] [].

(** The scenarios: a library over each site and the network that serves
    its pages in order. *)
Definition single_page_library : HtmlLibrary := fixture_library single_page_site.
Definition single_page_network : Network := scripted_network single_page_script.
Definition three_page_library : HtmlLibrary := fixture_library three_page_site.
Definition three_page_network : Network := scripted_network three_page_script.

Definition laptop_url : string := "https://www.amazon.com/s?k=laptop".

(** A fresh client once [_update_headers] has seen [laptop_url]. *)
Definition laptop_client : AmazonClient := {|
  current_user_agent_index := 0;
  headers := headers __init__;
  base_url := Some _BASE_URL;
  product_dict_list := [];
  html_pages := [];
  io_trace := []
|}.

(** A page in the desktop layout: no mobile schema finds a container on
    it, the [desktop] schema finds two. *)
Definition desktop_page_site : list (string * FixtureTag) :=
  [ ("<html>desktop results</html>",
     fixture_tag EmptyString EmptyString [] []
       [ ("ul > li.s-result-item > div.s-item-container",
          widgets ["D1"; "D2"]);
         ("div.s-result-list.sg-row > div.s-result-item",
          widgets ["E1"]);
         ("ul.a-pagination > li.a-last > a[href]",
          [fixture_tag "Next" "<a>Next</a>" [("href", "s?k=laptop&page=2")]
             [] []]) ]) ].

Definition desktop_library : HtmlLibrary := fixture_library desktop_page_site.

(** A page without a container for any schema, with a next-page link. *)
Definition linked_page_site : list (string * FixtureTag) :=
  [ ("<html>no results</html>", listing [] (Some "s?k=laptop&page=2")) ].

Definition linked_page_library : HtmlLibrary := fixture_library linked_page_site.

(** The client [_extract_page] leaves on the desktop page. *)
Definition client_after_desktop_page : AmazonClient :=
  Eval vm_compute in
    snd (@_extract_page desktop_library "<html>desktop results</html>" 5
           laptop_client).

(** One page of three containers, the first of them without an element
    for the review count, and no next-page link. *)
Definition bare_first_site : list (string * FixtureTag) :=
  [ ("<html>three results</html>",
     listing [bare_container; widget "W1"; widget "W2"] None) ].

Definition bare_first_library : HtmlLibrary := fixture_library bare_first_site.
Definition bare_first_network : Network :=
  scripted_network [ ok_page "<html>three results</html>" ].

(** Five attempts that all fail, one in each way an attempt can. *)
Definition failing_script : list get_outcome :=
  [ Throws SSLError;
    Returns {| status_code := 503; text := "Service Unavailable" |};
    ok_page "<html><title>Robot Check</title></html>";
    Throws ConnectionError;
    ok_page "<html>Sign in for the best experience</html>" ].

Definition failing_network : Network := scripted_network failing_script.

(** A network that refuses every connection: each request raises
    [requests.exceptions.ConnectionError], which is not the built-in
    class of that name. *)
Definition refusing_network : Network := scripted_network [].

(** A connection refused once, then the page served. *)
Definition refused_once_script : list get_outcome :=
  [ Throws (OtherError "requests.exceptions.ConnectionError");
    ok_page "<html>results 1-3</html>" ].

Definition refused_once_network : Network :=
  scripted_network refused_once_script.

(** The client a session for five records leaves on the three-page
    site. *)
Definition five_records : list product_dict :=
  map widget_record ["A1"; "A2"; "A3"; "B1"; "B2"].

Definition client_after_five : AmazonClient :=
  Eval vm_compute in
    match @_get_products three_page_library three_page_network
            5 "laptop" EmptyString 5 __init__ with
    | Some (_, self') => self'
    | None => __init__
    end.

(** Two attempts that fail, then a valid page. *)
Definition recovering_script : list get_outcome :=
  [ Throws SSLError;
    Returns {| status_code := 503; text := "Service Unavailable" |};
    ok_page "<html>results 1-3</html>" ].

Definition recovering_network : Network := scripted_network recovering_script.

(** One attempt that fails, then a time-out, which is none of the
    handled classes. *)
Definition timeout_script : list get_outcome :=
  [ Returns {| status_code := 503; text := "Service Unavailable" |};
    Throws (OtherError "requests.exceptions.ReadTimeout") ].

Definition timeout_network : Network := scripted_network timeout_script.

(** The identity the client shows agrees with its index: the index is
    within the pool and the [User-Agent] header is the entry it
    designates. *)
Definition identity_consistent (self : AmazonClient) : Prop :=
  (current_user_agent_index self < List.length _USER_AGENT_LIST)%nat
  /\ User_Agent (headers self)
     = nth (current_user_agent_index self) _USER_AGENT_LIST EmptyString.

(** An event as a session produces it: a request under the given [Host]
    and [Accept] and a [User-Agent] of the pool, or the fixed delay. *)
Definition sent_as (host accept : string) (e : event) : Prop :=
  match e with
  | EvGet _ h =>
      Host h = host /\ Accept h = accept
      /\ In (User_Agent h) _USER_AGENT_LIST
  | EvSleep seconds => seconds = _WAIT_TIME_BETWEEN_REQUESTS
  end.

(** The rating pattern occurs in [s]: a digit, any character but a line
    feed and a digit, followed by [ out of 5]. *)
Definition rating_occurs (s : string) : Prop :=
  exists pre a b c post,
    s = (pre ++ String a (String b (String c " out of 5")) ++ post)%string
    /\ is_digit a = true /\ re_dot b = true /\ is_digit c = true.

(** A container whose first title selector finds an element with blank
    text, a no-break space and a space, and whose second finds the
    title between white space. *)
Definition widget_pro : FixtureTag :=
  fixture_tag "Widget Pro" "<div><h5><span></span></h5><a><h2>Widget Pro</h2></a></div>"
    [] [ plain "Widget Pro" ]
    [ ("h5 span", [leaf (String "160"%char " ")]);
      ("a.s-access-detail-page > h2",
       [leaf (String "160"%char " Widget Pro ")]) ].

(** A container whose review count is followed by a no-break space. *)
Definition reviewed_widget : FixtureTag :=
  fixture_tag "1,234" "<li><span class='a-size-base'>1,234&nbsp;</span></li>"
    [] [ plain "1,234" ]
    [ ("div.a-row.a-size-small span.a-size-base",
       [leaf ("1,234" ++ String "160"%char EmptyString)%string]) ].

(** A container whose link text is a path. *)
Definition linked_widget : FixtureTag :=
  fixture_tag "dp/B07XYZ" "<li><a href='/dp/B07XYZ'>dp/B07XYZ</a></li>"
    [] [ plain "dp/B07XYZ" ]
    [ ("a[href]", [leaf "dp/B07XYZ"]) ].

(** Every character of [s] satisfies [P]. *)
Fixpoint all_chars (P : ascii -> bool) (s : string) : bool :=
  match s with
  | EmptyString => true
  | String c s' => P c && all_chars P s'
  end.

(** The characters of the float literals [py_float] reads. *)
Definition float_char (c : ascii) : bool :=
  is_digit c || chr_eqb c "_" || chr_eqb c "." || chr_eqb c "e"
  || chr_eqb c "E" || chr_eqb c "+" || chr_eqb c "-".

(** A container that shows its price twice, as listings do for screen
    readers. *)
Definition twice_priced : FixtureTag :=
  fixture_tag "$5.00 $5.00"
    "<li><span class='a-offscreen'>$5.00</span><span>$5.00</span></li>"
    [] [ plain "$5.00"; plain "$5.00" ] [].

(** A container with two figures of 17 digits, a unit apart, that no
    double tells apart. *)
Definition rounded_prices : FixtureTag :=
  fixture_tag "$12345678901234567.00 $12345678901234568.00"
    "<li><span>$12345678901234567.00</span><span>$12345678901234568.00</span></li>"
    [] [ plain "$12345678901234567.00"; plain "$12345678901234568.00" ] [].

(** A container that shows its price per ounce twice, as listings do
    for screen readers. *)
Definition bulk_pack : FixtureTag :=
  fixture_tag "$19.99 ($4.00/oz) ($4.00/oz)"
    "<li><span>$19.99</span><span class='a-offscreen'>($4.00/oz)</span><span>($4.00/oz)</span></li>"
    [] [ plain "$19.99"; plain "($4.00/oz)"; plain "($4.00/oz)" ] [].

(** A container whose price has a thousands separator. *)
Definition laptop_price : FixtureTag :=
  fixture_tag "$1,299.00" "<li><span>$1,299.00</span></li>"
    [] [ plain "$1,299.00" ] [].

(** A network that gives every request the same answer. *)
Definition constant_network (o : get_outcome) : Network := {|
  network := fun _ => o
|}.

(** A listing page without products whose next-page link leads back to
    a page like it. *)
Definition empty_page_site : list (string * FixtureTag) :=
  [ ("<html>no results</html>", listing [] (Some "s?k=laptop&page=2")) ].

Definition empty_page_library : HtmlLibrary := fixture_library empty_page_site.
Definition empty_page_network : Network :=
  constant_network (ok_page "<html>no results</html>").

(* ================================================================== *)
(** * Properties *)

Local Close Scope Q_scope.

(** ** Strings *)

Lemma chr_eqb_eq (a b : ascii) : chr_eqb a b = true <-> a = b.
Proof. unfold chr_eqb. apply Ascii.eqb_eq. Qed.

Lemma startswith_spec (p s : string) :
  startswith p s = true <-> exists post, s = (p ++ post)%string.
Proof.
  revert s. induction p as [|a p IH]; intros s; simpl.
  - split; [intros _; now exists s | reflexivity].
  - destruct s as [|b s].
    + split; [discriminate | intros [post H]; discriminate].
    + rewrite andb_true_iff, chr_eqb_eq, IH. split.
      * intros [-> [post ->]]. now exists post.
      * intros [post H]. injection H as -> ->. split; [reflexivity | now exists post].
Qed.

Lemma contains_spec (kw s : string) :
  contains kw s = true <-> exists pre post, s = (pre ++ kw ++ post)%string.
Proof.
  split.
  - induction s as [|c s IH].
    + simpl. rewrite orb_false_r. intros H.
      apply startswith_spec in H as [post H]. now exists EmptyString, post.
    + cbn [contains]. rewrite orb_true_iff. intros [H | H].
      * apply startswith_spec in H as [post H]. now exists EmptyString, post.
      * destruct (IH H) as (pre & post & ->). now exists (String c pre), post.
  - intros (pre & post & ->). induction pre as [|c pre IH].
    + simpl. destruct (kw ++ post)%string eqn:E; cbn [contains];
        rewrite orb_true_iff; left; rewrite <- ?E;
        apply startswith_spec; now exists post.
    + cbn [append contains]. rewrite IH. apply orb_true_r.
Qed.

(** ** Numbers *)

(** [float] on literals that show how it rounds: to the nearest double
    ([0.1] is not one), to the even mantissa half-way between two, to
    one double for figures of 17 digits a unit apart, to infinity past
    the largest double and to zero below half the least one. *)
Lemma py_float_rounds_to_double :
  nearest_double 0.1%Q = (3602879701896397 # 36028797018963968)%Q
  /\ py_float "0.1" = Some 0.1%Q
  /\ py_float "19.99" = Some 19.99%Q
  /\ py_float "9007199254740993" = Some 9007199254740992%Q
  /\ py_float "9007199254740995" = Some 9007199254740996%Q
  /\ py_float "12345678901234567.00" = Some 12345678901234568%Q
  /\ py_float "12345678901234568.00" = Some 12345678901234568%Q
  /\ py_float "1.7976931348623158e308"
     = Some (inject_Z (17976931348623157 * 10 ^ 292))
  /\ py_float "1.7976931348623159e308" = Some float_inf
  /\ py_float "3e-324" = Some (Qred (5 / inject_Z (10 ^ 324))%Q)
  /\ py_float "2e-324" = Some 0%Q.
Proof.
  do 10 (split; [vm_compute; reflexivity|]). vm_compute. reflexivity.
Qed.

(** ** The validity check *)

Lemma _check_page_false_iff (html : string) :
  _check_page html = false <->
  exists kw, In kw invalid_keywords /\ contains kw html = true.
Proof.
  unfold _check_page. rewrite negb_false_iff, existsb_exists. reflexivity.
Qed.

(** ** The fetcher *)

Section Fetcher.
Context {lib : HtmlLibrary} {net : Network}.

Lemma n_gets_app (t1 t2 : list event) : n_gets (t1 ++ t2) = n_gets t1 + n_gets t2.
Proof. unfold n_gets. now rewrite filter_app, length_app. Qed.

Lemma _get_Some (u : string) (self : AmazonClient) :
  _get (Some u) self =
  (match network (n_gets (io_trace self)) with
   | Returns r => if (status_code r =? 200)%Z then Ok r else Raise ConnectionError
   | Throws e => Raise e
   end,
   record_event (EvGet u (headers self)) self).
Proof.
  unfold _get, session_get.
  destruct (network (n_gets (io_trace self))) as [r|e]; [|reflexivity].
  now destruct (status_code r =? 200)%Z.
Qed.

(** One turn of the loop on a failed attempt: the turn ends in the next
    turn, taken by the client [failed_attempt] describes. *)
Lemma loop_failed_attempt (remaining : nat) (u : string) (self : AmazonClient) :
  attempt_fails (network (n_gets (io_trace self))) = true ->
  _get_page_html_loop (S remaining) (Some u) self =
  _get_page_html_loop remaining (Some u) (failed_attempt u self).
Proof.
  intros H. cbn [_get_page_html_loop]. rewrite _get_Some.
  unfold attempt_fails in H. unfold failed_attempt.
  destruct (network (n_gets (io_trace self))) as [r|e].
  - destruct (status_code r =? 200)%Z; [|reflexivity].
    simpl in H. apply negb_true_iff in H. now rewrite H.
  - now rewrite H.
Qed.

(** One turn of the loop on a valid page. *)
Lemma loop_valid_page (remaining : nat) (u page : string) (self : AmazonClient) :
  network (n_gets (io_trace self)) = ok_page page ->
  _check_page page = true ->
  _get_page_html_loop (S remaining) (Some u) self =
  (Ok page, record_event (EvGet u (headers self)) self).
Proof.
  intros H V. cbn [_get_page_html_loop]. rewrite _get_Some, H. simpl.
  now rewrite V.
Qed.

Lemma transport_or_status_failure_fails (o : get_outcome) :
  transport_or_status_failure o = true -> attempt_fails o = true.
Proof.
  destruct o as [r|e]; simpl; [|easy]. intros ->. reflexivity.
Qed.

(** A page the fetcher returns has passed the validity check. *)
Lemma returned_page_is_valid (remaining : nat) (url : option string)
  (self self' : AmazonClient) (page : string) :
  _get_page_html_loop remaining url self = (Ok page, self') ->
  _check_page page = true.
Proof.
  revert self. induction remaining as [|n IH]; intros self; cbn [_get_page_html_loop].
  - discriminate.
  - destruct (_get url self) as [[res|e] self1].
    + destruct (_check_page (text res)) eqn:V.
      * intros H. injection H as <- _. exact V.
      * apply IH.
    + destruct (handled e); [apply IH | discriminate].
Qed.

(** An exception of a handled class never leaves the fetcher. *)
Lemma handled_never_propagates (remaining : nat) (url : option string)
  (self self' : AmazonClient) (e : exn) :
  _get_page_html_loop remaining url self = (Raise e, self') ->
  handled e = false.
Proof.
  revert self. induction remaining as [|n IH]; intros self; cbn [_get_page_html_loop].
  - intros H. injection H as <- _. reflexivity.
  - destruct (_get url self) as [[res|e1] self1].
    + destruct (_check_page (text res)); [discriminate | apply IH].
    + destruct (handled e1) eqn:E; [apply IH|].
      intros H. injection H as <- _. exact E.
Qed.

Lemma io_trace_failed_attempt (u : string) (self : AmazonClient) :
  io_trace (failed_attempt u self) =
  io_trace self ++ [EvGet u (headers self); EvSleep _WAIT_TIME_BETWEEN_REQUESTS].
Proof. simpl. now rewrite <- app_assoc. Qed.

Lemma n_gets_failed_attempt (u : string) (self : AmazonClient) :
  n_gets (io_trace (failed_attempt u self)) = S (n_gets (io_trace self)).
Proof.
  rewrite io_trace_failed_attempt, n_gets_app. unfold n_gets. simpl. lia.
Qed.

Lemma index_failed_attempt (u : string) (self : AmazonClient) :
  current_user_agent_index (failed_attempt u self) =
  (current_user_agent_index self + 1) mod 2.
Proof. reflexivity. Qed.

Lemma user_agent_failed_attempt (u : string) (self : AmazonClient) :
  User_Agent (headers (failed_attempt u self)) =
  nth (current_user_agent_index (failed_attempt u self)) _USER_AGENT_LIST
    EmptyString.
Proof. reflexivity. Qed.

Lemma n_gets_iter_failed (u : string) (k : nat) (self : AmazonClient) :
  n_gets (io_trace (Nat.iter k (failed_attempt u) self)) =
  n_gets (io_trace self) + k.
Proof.
  induction k as [|k IH]; [simpl; lia|].
  rewrite Nat.iter_succ, n_gets_failed_attempt, IH. lia.
Qed.

Lemma index_iter_failed (u : string) (k : nat) (self : AmazonClient) :
  current_user_agent_index (Nat.iter (S k) (failed_attempt u) self) =
  (current_user_agent_index self + S k) mod 2.
Proof.
  induction k as [|k IH].
  - reflexivity.
  - rewrite Nat.iter_succ, index_failed_attempt, IH.
    rewrite Nat.Div0.add_mod_idemp_l. f_equal. lia.
Qed.

(** The loop on a run of failed attempts as long as the budget. *)
Lemma loop_all_failed (u : string) (remaining : nat) (self : AmazonClient) :
  (forall k, k < remaining ->
     attempt_fails (network (n_gets (io_trace self) + k)) = true) ->
  _get_page_html_loop remaining (Some u) self =
  (Raise ValueError, Nat.iter remaining (failed_attempt u) self).
Proof.
  revert self. induction remaining as [|n IH]; intros self H.
  - reflexivity.
  - rewrite loop_failed_attempt.
    2:{ specialize (H 0). rewrite Nat.add_0_r in H. apply H. lia. }
    rewrite IH.
    + f_equal. symmetry. apply Nat.iter_succ_r.
    + intros k Hk. rewrite n_gets_failed_attempt.
      replace (S (n_gets (io_trace self)) + k) with (n_gets (io_trace self) + S k) by lia.
      apply H. lia.
Qed.

(** The trace only grows under the fetcher, by events of the fetch; when
    a turn is granted the first of them is the request of that turn. *)
Lemma fetch_extends_trace (remaining : nat) (url : option string)
  (self self' : AmazonClient) (r : result string) :
  _get_page_html_loop remaining url self = (r, self') ->
  exists evs, io_trace self' = io_trace self ++ evs
              /\ Forall (fetch_event url) evs
              /\ (forall u, remaining <> 0 -> url = Some u ->
                  exists evs', evs = EvGet u (headers self) :: evs').
Proof.
  revert self. induction remaining as [|n IH]; intros self; cbn [_get_page_html_loop].
  - intros H. injection H as _ <-. exists []. rewrite app_nil_r.
    repeat split; auto. intros u N. now destruct N.
  - destruct url as [u|].
    + rewrite _get_Some.
      assert (R : forall s1, s1 = failed_attempt u self ->
                 _get_page_html_loop n (Some u) s1 = (r, self') ->
                 exists evs, io_trace self' = io_trace self ++ evs
                   /\ Forall (fetch_event (Some u)) evs
                   /\ (forall u0, S n <> 0 -> Some u = Some u0 ->
                       exists evs', evs = EvGet u0 (headers self) :: evs')).
      { intros s1 -> H. destruct (IH _ H) as (evs & E & F & _).
        exists ([EvGet u (headers self); EvSleep _WAIT_TIME_BETWEEN_REQUESTS] ++ evs).
        rewrite E, io_trace_failed_attempt, <- app_assoc. repeat split.
        - repeat constructor. exact F.
        - intros u0 _ [= <-]. eexists. reflexivity. }
      assert (D : forall r0, (r0, record_event (EvGet u (headers self)) self) = (r, self') ->
                 exists evs, io_trace self' = io_trace self ++ evs
                   /\ Forall (fetch_event (Some u)) evs
                   /\ (forall u0, S n <> 0 -> Some u = Some u0 ->
                       exists evs', evs = EvGet u0 (headers self) :: evs')).
      { intros r0 H. injection H as _ <-. exists [EvGet u (headers self)].
        repeat split; [repeat constructor |].
        intros u0 _ [= <-]. eexists. reflexivity. }
      destruct (network (n_gets (io_trace self))) as [res|e].
      * destruct (status_code res =? 200)%Z.
        -- destruct (_check_page (text res)); [apply D | now apply R].
        -- now apply R.
      * destruct (handled e); [now apply R | apply D].
    + simpl. intros H. injection H as _ <-. exists []. rewrite app_nil_r.
      repeat split; auto. intros u _ [=].
Qed.

(** After a failed attempt that leaves a turn, the request is sent again
    under the rotated identity. *)
Lemma retry_sends_again (remaining : nat) (u : string) (self : AmazonClient) :
  attempt_fails (network (n_gets (io_trace self))) = true ->
  remaining <> 0 ->
  exists r self' evs,
    _get_page_html_loop (S remaining) (Some u) self = (r, self')
    /\ io_trace self' =
       io_trace self ++
       [EvGet u (headers self); EvSleep _WAIT_TIME_BETWEEN_REQUESTS;
        EvGet u (headers (failed_attempt u self))] ++ evs.
Proof.
  intros F N. rewrite (loop_failed_attempt _ _ _ F).
  destruct (_get_page_html_loop remaining (Some u) (failed_attempt u self))
    as [r self'] eqn:E.
  destruct (fetch_extends_trace _ _ _ _ _ E) as (evs & T & _ & G).
  destruct (G u N eq_refl) as (evs' & ->).
  exists r, self', evs'. split; [reflexivity|].
  rewrite T, io_trace_failed_attempt, <- app_assoc. reflexivity.
Qed.

Lemma io_trace_iter_failed (u : string) (k : nat) (self : AmazonClient) :
  io_trace (Nat.iter k (failed_attempt u) self) =
  io_trace self ++
  flat_map (fun j => [EvGet u (headers (Nat.iter j (failed_attempt u) self));
                      EvSleep _WAIT_TIME_BETWEEN_REQUESTS])
           (seq 0 k).
Proof.
  induction k as [|k IH].
  - simpl. now rewrite app_nil_r.
  - rewrite Nat.iter_succ, io_trace_failed_attempt, IH, seq_S, flat_map_app.
    cbn [flat_map]. rewrite app_nil_r, <- !app_assoc. reflexivity.
Qed.

(** C8.  A page whose content contains one of the block-page phrases
    fails [_check_page]; the fetcher never returns it; and the attempt
    that received it, whatever its status code, ends in the retry path:
    the identity is rotated, the delay slept and the loop entered again,
    which, while a turn is left, sends the request once more. *)
Theorem blocked_page_is_retried (html kw : string) :
  In kw invalid_keywords ->
  (exists pre post, html = (pre ++ kw ++ post)%string) ->
  _check_page html = false
  /\ (forall url self page self',
        _get_page_html url self = (Ok page, self') -> page <> html)
  /\ (forall remaining u self code,
        network (n_gets (io_trace self)) =
          Returns {| status_code := code; text := html |} ->
        _get_page_html_loop (S remaining) (Some u) self =
        _get_page_html_loop remaining (Some u) (failed_attempt u self)
        /\ (remaining <> 0 ->
            exists r self' evs,
              _get_page_html_loop (S remaining) (Some u) self = (r, self')
              /\ io_trace self' =
                 io_trace self ++
                 [EvGet u (headers self); EvSleep _WAIT_TIME_BETWEEN_REQUESTS;
                  EvGet u (headers (failed_attempt u self))] ++ evs)).
Proof.
  intros Hin Hsub.
  assert (V : _check_page html = false).
  { apply _check_page_false_iff. exists kw. split; [exact Hin|].
    now apply contains_spec. }
  split; [exact V|]. split.
  - intros url self page self' H ->.
    apply returned_page_is_valid in H. congruence.
  - intros remaining u self code N.
    assert (F : attempt_fails (network (n_gets (io_trace self))) = true).
    { rewrite N. simpl. rewrite V. apply orb_true_r. }
    split; [now apply loop_failed_attempt | now apply retry_sends_again].
Qed.

(** C2, as the code has it.  When each of the five attempts the budget
    grants fails in one of the ways the loop recovers from (the request
    raised [requests.exceptions.SSLError] or the built-in
    [ConnectionError], or was answered with a status other than 200, or
    with a block page), [_get_page_html] raises [ValueError], the
    module's signal that the budget is spent, and does not return.  The
    client it leaves is the one five failed attempts make: each of them
    sent its request, rotated the identity once and slept the delay, so
    after every attempt the index has advanced by one, modulo the size
    of the pool, and the [User-Agent] header is the entry of the pool
    the index designates. *)
Theorem exhausted_budget_raises (u : string) (self : AmazonClient) :
  (forall k, k < _MAX_TRIAL_REQUESTS ->
     attempt_fails (network (n_gets (io_trace self) + k)) = true) ->
  _get_page_html (Some u) self =
    (Raise ValueError, Nat.iter _MAX_TRIAL_REQUESTS (failed_attempt u) self)
  /\ (forall k, k < _MAX_TRIAL_REQUESTS ->
        current_user_agent_index (Nat.iter (S k) (failed_attempt u) self) =
        (current_user_agent_index (Nat.iter k (failed_attempt u) self) + 1)
          mod List.length _USER_AGENT_LIST)
  /\ (forall k, k < _MAX_TRIAL_REQUESTS ->
        User_Agent (headers (Nat.iter (S k) (failed_attempt u) self)) =
        nth (current_user_agent_index (Nat.iter (S k) (failed_attempt u) self))
          _USER_AGENT_LIST EmptyString)
  /\ current_user_agent_index
       (Nat.iter _MAX_TRIAL_REQUESTS (failed_attempt u) self) =
     (current_user_agent_index self + _MAX_TRIAL_REQUESTS)
       mod List.length _USER_AGENT_LIST
  /\ io_trace (Nat.iter _MAX_TRIAL_REQUESTS (failed_attempt u) self) =
     io_trace self ++
     flat_map (fun j => [EvGet u (headers (Nat.iter j (failed_attempt u) self));
                         EvSleep _WAIT_TIME_BETWEEN_REQUESTS])
              (seq 0 _MAX_TRIAL_REQUESTS).
Proof.
  intros H. split; [|split; [|split; [|split]]].
  - unfold _get_page_html. now apply loop_all_failed.
  - intros k _. rewrite Nat.iter_succ. apply index_failed_attempt.
  - intros k _. rewrite Nat.iter_succ. apply user_agent_failed_attempt.
  - apply (index_iter_failed u 4 self).
  - apply io_trace_iter_failed.
Qed.

(** C6, as the code has it.  An attempt whose request raised
    [requests.exceptions.SSLError] or the built-in [ConnectionError], or
    was answered with a status other than 200, is recovered from inside
    [_get_page_html]: the turn ends in the next turn of the loop, taken
    by a client whose index has advanced by one modulo the size of the
    pool, whose [User-Agent] header is the entry of the pool at that
    index, and which has sent the request and then slept the delay; no
    exception of those two classes ever reaches the caller; and while
    the budget leaves a turn the request is sent again, under the
    rotated header. *)
Theorem transient_failure_is_recovered (remaining : nat) (u : string)
  (self : AmazonClient) :
  transport_or_status_failure (network (n_gets (io_trace self))) = true ->
  _get_page_html_loop (S remaining) (Some u) self =
    _get_page_html_loop remaining (Some u) (failed_attempt u self)
  /\ current_user_agent_index (failed_attempt u self) =
     (current_user_agent_index self + 1) mod List.length _USER_AGENT_LIST
  /\ User_Agent (headers (failed_attempt u self)) =
     nth ((current_user_agent_index self + 1) mod List.length _USER_AGENT_LIST)
       _USER_AGENT_LIST EmptyString
  /\ Host (headers (failed_attempt u self)) = Host (headers self)
  /\ Accept (headers (failed_attempt u self)) = Accept (headers self)
  /\ io_trace (failed_attempt u self) =
     io_trace self ++
     [EvGet u (headers self); EvSleep _WAIT_TIME_BETWEEN_REQUESTS]
  /\ (forall e self',
        _get_page_html_loop (S remaining) (Some u) self = (Raise e, self') ->
        e <> SSLError /\ e <> ConnectionError)
  /\ (remaining <> 0 ->
      exists r self' evs,
        _get_page_html_loop (S remaining) (Some u) self = (r, self')
        /\ io_trace self' =
           io_trace self ++
           [EvGet u (headers self); EvSleep _WAIT_TIME_BETWEEN_REQUESTS;
            EvGet u (headers (failed_attempt u self))] ++ evs).
Proof.
  intros T. apply transport_or_status_failure_fails in T.
  split; [now apply loop_failed_attempt|].
  split; [reflexivity|]. split; [reflexivity|].
  split; [reflexivity|]. split; [reflexivity|].
  split; [apply io_trace_failed_attempt|]. split.
  - intros e self' H. apply handled_never_propagates in H.
    split; intros ->; discriminate.
  - now apply retry_sends_again.
Qed.

End Fetcher.

(** ** Layout resolution *)

Section Layout.
Context {lib : HtmlLibrary} {net : Network}.

Lemma select_products_find (soup : Tag) (schemas : list LayoutSchema) :
  select_products soup schemas [] =
  match find (matches soup) schemas with
  | Some s => tag_select soup (sel_product s)
  | None => []
  end.
Proof.
  induction schemas as [|s rest IH]; [reflexivity|].
  cbn [select_products find]. unfold matches at 1.
  destruct (tag_select soup (sel_product s)) eqn:E; [exact IH | now rewrite E].
Qed.

Lemma select_products_first (soup : Tag) (before after : list LayoutSchema)
  (s : LayoutSchema) (acc : list Tag) :
  (forall a, In a before -> tag_select soup (sel_product a) = []) ->
  tag_select soup (sel_product s) <> [] ->
  select_products soup (before ++ s :: after) acc = tag_select soup (sel_product s).
Proof.
  revert acc. induction before as [|a before IH]; intros acc E N.
  - cbn [app select_products]. destruct (tag_select soup (sel_product s)); congruence.
  - cbn [app select_products]. rewrite (E a (or_introl eq_refl)).
    apply IH; [|exact N]. intros b Hb. apply E. now right.
Qed.

Lemma select_products_none (soup : Tag) (schemas : list LayoutSchema) :
  (forall s, In s schemas -> tag_select soup (sel_product s) = []) ->
  select_products soup schemas [] = [].
Proof.
  induction schemas as [|s rest IH]; intros E; [reflexivity|].
  cbn [select_products]. rewrite (E s (or_introl eq_refl)).
  apply IH. intros a Ha. apply E. now right.
Qed.

End Layout.

(** ** The aggregator *)

Section Aggregator.
Context {lib : HtmlLibrary} {net : Network}.

Lemma _get_None (self : AmazonClient) :
  _get None self = (Raise MissingSchema, self).
Proof. reflexivity. Qed.

(** The fetcher leaves the records, the pages and the base URL alone. *)
Lemma fetch_preserves (remaining : nat) (url : option string)
  (self self' : AmazonClient) (r : result string) :
  _get_page_html_loop remaining url self = (r, self') ->
  product_dict_list self' = product_dict_list self
  /\ html_pages self' = html_pages self
  /\ base_url self' = base_url self.
Proof.
  revert self. induction remaining as [|n IH]; intros self; cbn [_get_page_html_loop].
  - intros H. injection H as _ <-. auto.
  - destruct url as [u|].
    + rewrite _get_Some.
      assert (R : _get_page_html_loop n (Some u) (failed_attempt u self) = (r, self') ->
                  product_dict_list self' = product_dict_list self
                  /\ html_pages self' = html_pages self
                  /\ base_url self' = base_url self).
      { intros H. apply IH in H. exact H. }
      assert (D : forall r0, (r0, record_event (EvGet u (headers self)) self) = (r, self') ->
                  product_dict_list self' = product_dict_list self
                  /\ html_pages self' = html_pages self
                  /\ base_url self' = base_url self).
      { intros r0 H. injection H as _ <-. auto. }
      destruct (network (n_gets (io_trace self))) as [res|e].
      * destruct (status_code res =? 200)%Z.
        -- destruct (_check_page (text res)); [apply D | apply R].
        -- apply R.
      * destruct (handled e); [apply R | apply D].
    + rewrite _get_None. simpl. intros H. injection H as _ <-. auto.
Qed.

Lemma response_eta (r : Response) :
  (status_code r =? 200)%Z = true -> Returns r = ok_page (text r).
Proof.
  destruct r as [c t]. simpl. intros H. apply Z.eqb_eq in H. now subst.
Qed.

(** A fetch that returns a page: failed attempts at the URL, then the
    request the page answers. *)
Lemma fetch_ok_shape (remaining : nat) (url : option string)
  (self self' : AmazonClient) (page : string) :
  _get_page_html_loop remaining url self = (Ok page, self') ->
  exists u seg h,
    url = Some u
    /\ io_trace self' = io_trace self ++ seg ++ [EvGet u h]
    /\ Forall (fetch_event (Some u)) seg
    /\ network (n_gets (io_trace self ++ seg)) = ok_page page
    /\ _check_page page = true.
Proof.
  revert self. induction remaining as [|n IH]; intros self; cbn [_get_page_html_loop].
  - discriminate.
  - destruct url as [u|]; [|rewrite _get_None; discriminate].
    rewrite _get_Some.
    assert (R : _get_page_html_loop n (Some u) (failed_attempt u self) = (Ok page, self') ->
                exists u0 seg h,
                  Some u = Some u0
                  /\ io_trace self' = io_trace self ++ seg ++ [EvGet u0 h]
                  /\ Forall (fetch_event (Some u0)) seg
                  /\ network (n_gets (io_trace self ++ seg)) = ok_page page
                  /\ _check_page page = true).
    { intros H. destruct (IH _ H) as (u0 & seg & h & E & T & F & N & V).
      injection E as <-.
      exists u, ([EvGet u (headers self); EvSleep _WAIT_TIME_BETWEEN_REQUESTS] ++ seg), h.
      rewrite io_trace_failed_attempt in T, N. rewrite <- app_assoc in T, N.
      split; [reflexivity|]. split; [|split; [|split; [exact N | exact V]]].
      - rewrite T, <- app_assoc. reflexivity.
      - repeat constructor. exact F. }
    destruct (network (n_gets (io_trace self))) as [res|e] eqn:N.
    + destruct (status_code res =? 200)%Z eqn:C; [|apply R].
      destruct (_check_page (text res)) eqn:V; [|apply R].
      intros H. injection H as <- <-.
      exists u, [], (headers self). rewrite app_nil_r.
      repeat split; auto. rewrite N. now apply response_eta.
    + destruct (handled e); [apply R | discriminate].
Qed.

Lemma len_app {A} (l1 l2 : list A) : len (l1 ++ l2) = (len l1 + len l2)%Z.
Proof. unfold len. rewrite length_app. lia. Qed.

Lemma len_nonneg {A} (l : list A) : (0 <= len l)%Z.
Proof. unfold len. lia. Qed.

(** The second loop of [_extract_page]: it appends, in order, the records
    of a leading part of the containers, stops at the target or at the
    first container whose extraction raises, and touches nothing else. *)
Lemma extract_products_spec (products : list Tag) (max_product_nb : Z)
  (self self' : AmazonClient) (r : result unit) :
  extract_products products max_product_nb self = (r, self') ->
  exists new,
    product_dict_list self' = product_dict_list self ++ new
    /\ (base_url self' = base_url self
        /\ io_trace self' = io_trace self
        /\ html_pages self' = html_pages self)
    /\ Forall2 (extracted (base_url self)) new (firstn (List.length new) products)
    /\ ((max_product_nb <= len (product_dict_list self))%Z -> new = [])
    /\ ((len (product_dict_list self) <= max_product_nb)%Z ->
        (len (product_dict_list self') <= max_product_nb)%Z)
    /\ (r = Ok tt ->
        List.length new = List.length products
        \/ (max_product_nb <= len (product_dict_list self'))%Z)
    /\ (forall e, r = Raise e ->
        exists p, In p products /\ extract_product (base_url self) p = Raise e).
Proof.
  revert self. induction products as [|p rest IH]; intros self; cbn [extract_products].
  - intros H. injection H as <- <-. exists []. rewrite app_nil_r.
    split; [reflexivity|]. split; [auto|]. split; [constructor|].
    split; [reflexivity|]. split; [auto|]. split; [now left | discriminate].
  - destruct (len (product_dict_list self) >=? max_product_nb)%Z eqn:G.
    + intros H. injection H as <- <-. exists []. rewrite app_nil_r.
      split; [reflexivity|]. split; [auto|]. split; [constructor|].
      split; [reflexivity|]. split; [auto|]. split; [|discriminate].
      intros _. right. lia.
    + destruct (extract_product (base_url self) p) as [d|e] eqn:X.
      * intros H. destruct (IH _ H) as (new & L & (B & T & P) & F & Z0 & U & O & E).
        cbn [append_product product_dict_list base_url io_trace html_pages]
          in L, B, T, P, F, Z0, U, E.
        exists (d :: new). rewrite <- app_assoc in L.
        split; [exact L|]. split; [auto|].
        split; [cbn [List.length firstn]; constructor; [exact X | exact F]|].
        split; [intros M; lia|].
        split; [intros M; apply U; rewrite len_app; unfold len at 2; simpl; lia|].
        split.
        -- intros K. destruct (O K) as [O1|O1]; [left; simpl; lia | now right].
        -- intros e K. destruct (E e K) as (q & Hq & Xq).
           exists q. split; [now right | exact Xq].
      * intros H. injection H as <- <-. exists []. rewrite app_nil_r.
        split; [reflexivity|]. split; [auto|]. split; [constructor|].
        split; [reflexivity|]. split; [auto|]. split; [discriminate|].
        intros e0 [= <-]. exists p. split; [now left | exact X].
Qed.

Lemma loop_done (fuel : nat) (url : option string) (max_product_nb : Z)
  (self : AmazonClient) :
  (max_product_nb <= len (product_dict_list self))%Z ->
  _get_products_loop fuel url max_product_nb self = Some (Ok tt, self).
Proof.
  intros H. assert (E : (len (product_dict_list self) <? max_product_nb)%Z = false)
    by (apply Z.ltb_ge; exact H).
  destruct fuel; cbn [_get_products_loop]; now rewrite E.
Qed.

(** What a walk has done when it ends, however it ends: it has fetched
    pages along the next-page links and appended, in order, the records
    of a leading part of their containers. *)
Lemma loop_invariant (fuel : nat) (url : option string) (max_product_nb : Z)
  (self self' : AmazonClient) (r : result unit) :
  _get_products_loop fuel url max_product_nb self = Some (r, self') ->
  exists evs pages new,
    io_trace self' = io_trace self ++ evs
    /\ html_pages self' = html_pages self ++ pages
    /\ product_dict_list self' = product_dict_list self ++ new
    /\ base_url self' = base_url self
    /\ visited (base_url self) (io_trace self) url evs pages
    /\ Forall2 (extracted (base_url self)) new
         (firstn (List.length new) (containers pages))
    /\ ((max_product_nb <= len (product_dict_list self))%Z ->
        evs = [] /\ pages = [] /\ new = [])
    /\ (r = Ok tt -> (max_product_nb <= len (product_dict_list self'))%Z).
Proof.
  revert url self. induction fuel as [|f IH]; intros url self;
    cbn [_get_products_loop];
    destruct (len (product_dict_list self) <? max_product_nb)%Z eqn:G.
  1: discriminate.
  1, 3: intros H; injection H as <- <-; apply Z.ltb_ge in G;
    exists [], [], []; rewrite !app_nil_r;
    repeat (split; [first [reflexivity | now constructor | auto]|]); auto.
  apply Z.ltb_lt in G.
  destruct (_get_page_html url self) as [[page|e] self1] eqn:FE.
  2:{ intros H. injection H as <- <-.
      destruct (fetch_extends_trace _ _ _ _ _ FE) as (evs & T & F & _).
      destruct (fetch_preserves _ _ _ _ _ FE) as (L & P & B).
      exists evs, [], []. rewrite !app_nil_r.
      split; [exact T|]. split; [exact P|]. split; [exact L|]. split; [exact B|].
      split; [now constructor|]. split; [constructor|].
      split; [intros M; lia | discriminate]. }
  destruct (fetch_ok_shape _ _ _ _ _ FE) as (u & seg & h & -> & T & F & N & V).
  destruct (fetch_preserves _ _ _ _ _ FE) as (L & P & B).
  unfold _extract_page. fold (page_products page).
  destruct (extract_products (page_products page) max_product_nb
              (append_page page self1)) as [r1 self2] eqn:X.
  destruct (extract_products_spec _ _ _ _ _ X)
    as (new1 & L1 & (B1 & T1 & P1) & F1 & _ & U1 & O1 & _).
  cbn [append_page product_dict_list base_url io_trace html_pages]
    in L1, B1, T1, P1, F1, U1.
  rewrite L in L1. rewrite B in B1, F1. rewrite T in T1. rewrite P in P1.
  assert (LAST : forall r0 : result unit, r0 <> Ok tt ->
            exists evs pages new,
              io_trace self2 = io_trace self ++ evs
              /\ html_pages self2 = html_pages self ++ pages
              /\ product_dict_list self2 = product_dict_list self ++ new
              /\ base_url self2 = base_url self
              /\ visited (base_url self) (io_trace self) (Some u) evs pages
              /\ Forall2 (extracted (base_url self)) new
                   (firstn (List.length new) (containers pages))
              /\ ((max_product_nb <= len (product_dict_list self))%Z ->
                  evs = [] /\ pages = [] /\ new = [])
              /\ (r0 = Ok tt -> (max_product_nb <= len (product_dict_list self2))%Z)).
  { intros r0 R0. exists (seg ++ [EvGet u h]), [page], new1.
    split; [exact T1|]. split; [exact P1|]. split; [exact L1|]. split; [exact B1|].
    split.
    { apply visited_page with (next := None); auto.
      - intros [K|K]; now destruct K.
      - constructor. constructor. }
    split; [unfold containers; cbn [flat_map]; rewrite app_nil_r; exact F1|].
    split; [intros M; lia | intros K; now destruct R0]. }
  destruct r1 as [[]|e1].
  2:{ intros H. injection H as <- <-. apply LAST. discriminate. }
  rewrite B1.
  destruct (_get_next_page_url (base_url self) (BeautifulSoup page))
    as [next|e2] eqn:NX.
  2:{ intros H. injection H as <- <-. apply LAST. discriminate. }
  intros H. destruct (IH _ _ H) as (evs2 & pages2 & new2 & T2 & P2 & L2 & B2 & W2 & F2 & Z2 & R2).
  rewrite B1 in B2, W2, F2. rewrite T1 in T2, W2. rewrite P1 in P2. rewrite L1 in L2, Z2.
  exists (seg ++ EvGet u h :: evs2), (page :: pages2), (new1 ++ new2).
  split; [rewrite T2, <- !app_assoc; reflexivity|].
  split; [rewrite P2, <- app_assoc; reflexivity|].
  split; [rewrite L2, <- app_assoc; reflexivity|].
  split; [exact B2|].
  split.
  { apply visited_page with (next := next); auto. }
  split.
  { unfold containers. cbn [flat_map]. fold (containers pages2).
    destruct (O1 eq_refl) as [K|K].
    - rewrite length_app, K, firstn_app_2. apply Forall2_app; [|exact F2].
      rewrite K, firstn_all in F1. exact F1.
    - rewrite L1 in K. destruct (Z2 K) as (_ & -> & ->).
      rewrite !app_nil_r. exact F1. }
  split; [intros M; lia | exact R2].
Qed.

Lemma containers_cons (page : string) (pages : list string) :
  containers (page :: pages) = page_products page ++ containers pages.
Proof. reflexivity. Qed.

(** The walk over pages that are all served at the first attempt, carry
    a next-page link up to the last and extract without exception: it
    ends normally at the target, after one request per page. *)
Lemma loop_supplied (max_product_nb : Z) (pages : list string) :
  forall (url : option string) (self : AmazonClient) (fuel : nat),
  (forall i page, nth_error pages i = Some page ->
     network (n_gets (io_trace self) + i) = ok_page page
     /\ _check_page page = true) ->
  (forall i page, nth_error pages i = Some page ->
     exists next,
       _get_next_page_url (base_url self) (BeautifulSoup page) = Ok next
       /\ (S i < List.length pages -> next <> None)) ->
  (forall p, In p (containers pages) ->
     exists d, extract_product (base_url self) p = Ok d) ->
  (pages <> [] -> url <> None) ->
  (len (product_dict_list self) <= max_product_nb)%Z ->
  (max_product_nb <= len (product_dict_list self) + len (containers pages))%Z ->
  (pages <> [] ->
   (len (product_dict_list self) + len (containers (removelast pages))
    < max_product_nb)%Z) ->
  List.length pages <= fuel ->
  exists self',
    _get_products_loop fuel url max_product_nb self = Some (Ok tt, self')
    /\ len (product_dict_list self') = max_product_nb
    /\ n_gets (io_trace self') = n_gets (io_trace self) + List.length pages
    /\ html_pages self' = html_pages self ++ pages.
Proof.
  induction pages as [|page rest IH]; intros url self fuel HN HX HE HU HL HM HR HF.
  - exists self. unfold containers in HM. cbn [flat_map] in HM.
    unfold len at 2 in HM. cbn [List.length] in HM.
    split; [apply loop_done; lia|]. split; [lia|].
    split; [simpl; lia | now rewrite app_nil_r].
  - assert (NE : page :: rest <> []) by discriminate.
    specialize (HR NE). specialize (HU NE).
    pose proof (len_nonneg (containers (removelast (page :: rest)))) as P0.
    destruct fuel as [|f]; [simpl in HF; lia|].
    destruct url as [u|]; [clear HU | now destruct HU].
    destruct (HN 0 page eq_refl) as (N0 & V0). rewrite Nat.add_0_r in N0.
    destruct (HX 0 page eq_refl) as (next & NX & NN).
    cbn [_get_products_loop].
    replace (len (product_dict_list self) <? max_product_nb)%Z with true
      by (symmetry; apply Z.ltb_lt; lia).
    unfold _get_page_html. change _MAX_TRIAL_REQUESTS with 5.
    rewrite (loop_valid_page 4 u page self N0 V0).
    unfold _extract_page. fold (page_products page).
    destruct (extract_products (page_products page) max_product_nb
                (append_page page (record_event (EvGet u (headers self)) self)))
      as [r1 self2] eqn:X.
    destruct (extract_products_spec _ _ _ _ _ X)
      as (new1 & L1 & (B1 & T1 & P1) & F1 & _ & U1 & O1 & E1).
    cbn [append_page record_event product_dict_list base_url io_trace html_pages]
      in L1, B1, T1, P1, F1, U1, E1.
    destruct r1 as [[]|e1].
    2:{ destruct (E1 e1 eq_refl) as (p & Hp & Xp).
        destruct (HE p) as (d & Xd).
        - rewrite containers_cons. apply in_or_app. now left.
        - congruence. }
    rewrite B1, NX.
    assert (LN : List.length new1 <= List.length (page_products page)).
    { apply Forall2_length in F1. rewrite F1, length_firstn. lia. }
    assert (L2 : len (product_dict_list self2) = (len (product_dict_list self) + len new1)%Z).
    { rewrite L1. apply len_app. }
    destruct (IH next self2 f) as (self' & R & LR & GR & PR).
    + intros i pg Hi. rewrite T1, n_gets_app. unfold n_gets at 2. cbn [filter is_get List.length].
      replace (n_gets (io_trace self) + 1 + i) with (n_gets (io_trace self) + S i) by lia.
      apply (HN (S i) pg Hi).
    + intros i pg Hi. rewrite B1. destruct (HX (S i) pg Hi) as (nx & A & C).
      exists nx. split; [exact A|]. intros K. apply C. simpl. lia.
    + intros p Hp. rewrite B1. apply HE. rewrite containers_cons.
      apply in_or_app. now right.
    + intros K. apply NN. destruct rest; [now destruct K | simpl; lia].
    + apply U1. lia.
    + rewrite containers_cons, len_app in HM.
      destruct (O1 eq_refl) as [K|K].
      * unfold len in *. lia.
      * pose proof (len_nonneg (containers rest)). lia.
    + intros K. destruct rest as [|pg2 rest2]; [now destruct K|].
      change (removelast (page :: pg2 :: rest2))
        with (page :: removelast (pg2 :: rest2)) in HR.
      rewrite containers_cons, len_app in HR. unfold len in *. lia.
    + simpl in HF. lia.
    + exists self'. split; [exact R|]. split; [exact LR|]. split.
      * rewrite GR, T1, n_gets_app. unfold n_gets at 2. simpl. lia.
      * rewrite PR, P1, <- app_assoc. reflexivity.
Qed.

Lemma _update_headers_spec (u : string) (self self0 : AmazonClient) (r : result unit) :
  _update_headers u self = (r, self0) ->
  io_trace self0 = io_trace self
  /\ html_pages self0 = html_pages self
  /\ product_dict_list self0 = product_dict_list self
  /\ (forall e, r = Raise e -> self0 = self).
Proof.
  unfold _update_headers. destruct (nth_error (split "://" u) 1).
  - intros H. injection H as <- <-. repeat split. discriminate.
  - intros H. injection H as <- <-. repeat split.
Qed.

Lemma first_url_nonempty (keywords search_url u : string) :
  first_url keywords search_url = Ok u ->
  search_url <> EmptyString -> u = search_url.
Proof.
  destruct search_url; [now intros _ K | intros [= <-] _; reflexivity].
Qed.

(** A call that returns gives back the records the client held, then
    those it added. *)
Lemma get_products_prefix (fuel : nat) (keywords search_url : string)
  (max_product_nb : Z) (self self' : AmazonClient)
  (records : list product_dict) :
  _get_products fuel keywords search_url max_product_nb self
    = Some (Ok records, self') ->
  exists new, records = product_dict_list self ++ new.
Proof.
  unfold _get_products. fold (first_url keywords search_url).
  destruct (first_url keywords search_url) as [u0|e]; [|discriminate].
  destruct (_update_headers u0 self) as [[[]|e] self0] eqn:UH; [|discriminate].
  destruct (_update_headers_spec _ _ _ _ UH) as (_ & _ & L0 & _).
  destruct (_get_products_loop fuel (Some u0) max_product_nb self0)
    as [[[[]|e] self2]|] eqn:LP; try discriminate.
  destruct (loop_invariant _ _ _ _ _ _ LP)
    as (evs & pages & new & _ & _ & L & _).
  intros H. injection H as <- <-. exists new. now rewrite L, L0.
Qed.

(** C10.  Whatever way a call of [_get_products] ends, the records it
    has added to the client are, in order, the records of a leading part
    of the containers of the pages it fetched, taken page after page in
    the order of the fetches and, within a page, in the order of the
    containers; and the pages were fetched along the next-page links,
    each one from the link of the page before it.  When the call returns
    it returns the client's sequence. *)
Theorem records_in_source_order (fuel : nat) (keywords search_url : string)
  (max_product_nb : Z) (self self' : AmazonClient)
  (r : result (list product_dict)) :
  _get_products fuel keywords search_url max_product_nb self = Some (r, self') ->
  exists start evs pages new,
    (search_url <> EmptyString -> start = Some search_url)
    /\ io_trace self' = io_trace self ++ evs
    /\ html_pages self' = html_pages self ++ pages
    /\ product_dict_list self' = product_dict_list self ++ new
    /\ visited (base_url self') (io_trace self) start evs pages
    /\ Forall2 (extracted (base_url self')) new
         (firstn (List.length new) (containers pages))
    /\ (forall records, r = Ok records ->
        records = product_dict_list self ++ new).
Proof.
  assert (TRIV : forall e,
    exists start evs pages new,
      (search_url <> EmptyString -> start = Some search_url)
      /\ io_trace self = io_trace self ++ evs
      /\ html_pages self = html_pages self ++ pages
      /\ product_dict_list self = product_dict_list self ++ new
      /\ visited (base_url self) (io_trace self) start evs pages
      /\ Forall2 (extracted (base_url self)) new
           (firstn (List.length new) (containers pages))
      /\ (forall records, Raise e = Ok records ->
          records = product_dict_list self ++ new)).
  { intros e. exists (Some search_url), [], [], []. rewrite !app_nil_r.
    split; [auto|]. split; [auto|]. split; [auto|]. split; [auto|].
    split; [now constructor|]. split; [constructor | discriminate]. }
  unfold _get_products. fold (first_url keywords search_url).
  destruct (first_url keywords search_url) as [u0|e] eqn:FU.
  2:{ intros H. injection H as <- <-. apply TRIV. }
  destruct (_update_headers u0 self) as [[[]|e] self0] eqn:UH;
    destruct (_update_headers_spec _ _ _ _ UH) as (T0 & P0 & L0 & S0).
  2:{ intros H. injection H as <- <-. rewrite (S0 e eq_refl). apply TRIV. }
  destruct (_get_products_loop fuel (Some u0) max_product_nb self0)
    as [[r0 self2]|] eqn:LP; [|discriminate].
  destruct (loop_invariant _ _ _ _ _ _ LP)
    as (evs & pages & new & T & P & L & B & W & F & _ & _).
  rewrite T0 in T, W. rewrite P0 in P. rewrite L0 in L. rewrite <- B in W, F.
  assert (G : forall r1, (forall records, r1 = Ok records ->
                            records = product_dict_list self2) ->
    exists start evs pages new,
      (search_url <> EmptyString -> start = Some search_url)
      /\ io_trace self2 = io_trace self ++ evs
      /\ html_pages self2 = html_pages self ++ pages
      /\ product_dict_list self2 = product_dict_list self ++ new
      /\ visited (base_url self2) (io_trace self) start evs pages
      /\ Forall2 (extracted (base_url self2)) new
           (firstn (List.length new) (containers pages))
      /\ (forall records, r1 = Ok records ->
          records = product_dict_list self ++ new)).
  { intros r1 R1. exists (Some u0), evs, pages, new.
    split; [intros K; f_equal; now apply (first_url_nonempty keywords)|].
    split; [exact T|]. split; [exact P|]. split; [exact L|].
    split; [exact W|]. split; [exact F|].
    intros records K. rewrite <- L. now apply R1. }
  destruct r0 as [[]|e0]; intros H; injection H as <- <-; apply G.
  - now intros records [= <-].
  - discriminate.
Qed.

(** X19.  A session on a client that holds no record yet, over pages that
    are served, link to one another and extract, and that hold at least
    [max_product_nb] containers, the pages before the last holding fewer:
    [_get_products] returns exactly [max_product_nb] records, those of
    the first [max_product_nb] containers, so that the last page is cut
    where the target is met; and it has sent one request per page and
    none after. *)
Theorem target_reached_stops (pages : list string) (keywords search_url u : string)
  (max_product_nb : Z) (self self0 : AmazonClient) (fuel : nat) :
  first_url keywords search_url = Ok u ->
  _update_headers u self = (Ok tt, self0) ->
  product_dict_list self = [] ->
  (forall i page, nth_error pages i = Some page ->
     network (n_gets (io_trace self) + i) = ok_page page
     /\ _check_page page = true) ->
  (forall i page, nth_error pages i = Some page ->
     exists next,
       _get_next_page_url (base_url self0) (BeautifulSoup page) = Ok next
       /\ (S i < List.length pages -> next <> None)) ->
  (forall p, In p (containers pages) ->
     exists d, extract_product (base_url self0) p = Ok d) ->
  (max_product_nb <= len (containers pages))%Z ->
  (len (containers (removelast pages)) < max_product_nb)%Z ->
  List.length pages <= fuel ->
  exists records self',
    _get_products fuel keywords search_url max_product_nb self
      = Some (Ok records, self')
    /\ len records = max_product_nb
    /\ Forall2 (extracted (base_url self0)) records
         (firstn (Z.to_nat max_product_nb) (containers pages))
    /\ html_pages self' = html_pages self ++ pages
    /\ n_gets (io_trace self') = n_gets (io_trace self) + List.length pages.
Proof.
  intros FU UH L0 HN HX HE HM HR HF.
  destruct (_update_headers_spec _ _ _ _ UH) as (T0 & P0 & L1 & _).
  destruct (loop_supplied max_product_nb pages (Some u) self0 fuel)
    as (self' & R & LR & GR & PR).
  - intros i page Hi. rewrite T0. now apply HN.
  - exact HX.
  - exact HE.
  - discriminate.
  - rewrite L1, L0. unfold len at 1. simpl.
    pose proof (len_nonneg (containers (removelast pages))). lia.
  - rewrite L1, L0. unfold len at 1. simpl. lia.
  - intros _. rewrite L1, L0. unfold len at 1. simpl. lia.
  - exact HF.
  - exists (product_dict_list self'), self'.
    unfold _get_products. fold (first_url keywords search_url).
    rewrite FU, UH, R.
    destruct (loop_invariant _ _ _ _ _ _ R)
      as (evs & pages' & new & _ & P & L & _ & _ & F & _ & _).
    rewrite L1, L0 in L. cbn [app] in L.
    rewrite PR, P0 in P. apply app_inv_head in P. subst pages'.
    split; [reflexivity|]. split; [exact LR|]. split.
    + rewrite L. replace (Z.to_nat max_product_nb) with (List.length new).
      * exact F.
      * rewrite <- LR, L. unfold len. lia.
    + split; [now rewrite PR, P0 | now rewrite GR, T0].
Qed.

(** C9, as the code has it.  The record sequence belongs to the client
    and not to the session: it is empty when the client is made, and a
    call of [_get_products] goes on from the records the client holds.
    They open the sequence the call leaves and returns, and they count
    toward its target: when they are as many as the target already the
    call returns them without sending a request. *)
Theorem records_outlive_the_session (fuel : nat) (keywords search_url : string)
  (max_product_nb : Z) (self self' : AmazonClient)
  (records : list product_dict) :
  _get_products fuel keywords search_url max_product_nb self
    = Some (Ok records, self') ->
  product_dict_list __init__ = []
  /\ (exists new, records = product_dict_list self ++ new)
  /\ ((max_product_nb <= len (product_dict_list self))%Z ->
      records = product_dict_list self /\ io_trace self' = io_trace self).
Proof.
  intros H. split; [reflexivity|]. split.
  - now apply get_products_prefix in H.
  - intros M. revert H. unfold _get_products.
    destruct (match search_url with
              | EmptyString => _get_search_url keywords
              | String _ _ => Ok search_url
              end) as [u0|e]; [|discriminate].
    destruct (_update_headers u0 self) as [[[]|e] self0] eqn:UH; [|discriminate].
    destruct (_update_headers_spec _ _ _ _ UH) as (T0 & P0 & L0 & _).
    rewrite loop_done by (now rewrite L0).
    intros H. injection H as <- <-. now rewrite L0, T0.
Qed.

(** Once the current URL is [None] and the target is not met, the next
    turn of the loop asks the fetcher for [None] and the request raises:
    no amount of fuel makes the loop return. *)
Lemma loop_without_next_link (fuel : nat) (max_product_nb : Z)
  (self : AmazonClient) :
  (len (product_dict_list self) < max_product_nb)%Z ->
  _get_products_loop (S fuel) None max_product_nb self
    = Some (Raise MissingSchema, self).
Proof.
  intros H. cbn [_get_products_loop].
  replace (len (product_dict_list self) <? max_product_nb)%Z with true
    by (symmetry; apply Z.ltb_lt; exact H).
  reflexivity.
Qed.

End Aggregator.

(** ** Layout resolution, page by page *)

Section Resolution.
Context {lib : HtmlLibrary}.

(** C7.  [_extract_page] takes the schemas in the order of
    [CSS_SELECTORS] (mobile, mobile_grid, desktop, desktop_2) and works
    on the containers [cs] of the first schema whose product selector
    finds something, whatever the schemas after it would find, and on no
    container when none does.  The records it appends are, in order,
    those of a leading part of [cs], and of all of [cs] when it returns
    with the target not met.  What it returns is what the next-page link
    resolves to: nothing when the selector of the link finds no element,
    else the [href] of the first element it finds, joined to the base
    URL.  When no schema matches, the client is left as it was and the
    link is resolved all the same. *)
Theorem first_matching_schema_wins (page : string) (max_product_nb : Z)
  (self self' : AmazonClient) (r : result (option string)) :
  _extract_page page max_product_nb self = (r, self') ->
  let soup := BeautifulSoup page in
  let link :=
    match tag_select soup "ul.a-pagination > li.a-last > a[href]" with
    | [] => Ok None
    | a :: _ =>
        match base_url self with
        | None => Raise AttributeError
        | Some b =>
            match urljoin b (tag_get a "href") with
            | Ok u => Ok (Some u)
            | Raise e => Raise e
            end
        end
    end in
  map fst CSS_SELECTORS = ["mobile"; "mobile_grid"; "desktop"; "desktop_2"]
  /\ exists cs new,
       cs = match find (matches soup) CSS_SELECTORS_values with
            | Some s => tag_select soup (sel_product s)
            | None => []
            end
       /\ (forall before s after,
             CSS_SELECTORS_values = before ++ s :: after ->
             (forall a, In a before -> tag_select soup (sel_product a) = []) ->
             tag_select soup (sel_product s) <> [] ->
             cs = tag_select soup (sel_product s))
       /\ ((forall s, In s CSS_SELECTORS_values ->
               tag_select soup (sel_product s) = []) ->
           cs = [])
       /\ product_dict_list self' = product_dict_list self ++ new
       /\ Forall2 (extracted (base_url self)) new
            (firstn (List.length new) cs)
       /\ (forall next, r = Ok next ->
             (List.length new = List.length cs
              \/ (max_product_nb <= len (product_dict_list self'))%Z)
             /\ link = Ok next)
       /\ (forall e, r = Raise e ->
             (exists p, In p cs /\ extract_product (base_url self) p = Raise e)
             \/ link = Raise e)
       /\ (cs = [] -> self' = self /\ r = link).
Proof.
  intros H soup link. split; [reflexivity|].
  unfold _extract_page in H. cbv zeta in H.
  change (BeautifulSoup page) with soup in H.
  destruct (extract_products (select_products soup CSS_SELECTORS_values [])
              max_product_nb self) as [r1 self1] eqn:X.
  destruct (extract_products_spec _ _ _ _ _ X)
    as (new & L & (B & _ & _) & F & _ & _ & O & E).
  assert (LK : _get_next_page_url (base_url self) soup = link).
  { unfold _get_next_page_url, link.
    change (sel_next_page_url mobile)
      with "ul.a-pagination > li.a-last > a[href]".
    destruct (tag_select soup "ul.a-pagination > li.a-last > a[href]");
      [reflexivity|].
    destruct (base_url self); reflexivity. }
  exists (select_products soup CSS_SELECTORS_values []), new.
  split; [apply select_products_find|].
  split; [intros before s after E1 Bf N; rewrite E1;
          now apply select_products_first|].
  split; [apply select_products_none|].
  destruct r1 as [[]|e1].
  - rewrite B, LK in H. injection H as <- <-.
    split; [exact L|]. split; [exact F|].
    split; [intros next K; split; [now apply O | exact K]|].
    split; [intros e K; now right|].
    intros C. rewrite C in X. cbn [extract_products] in X.
    injection X as <-. split; reflexivity.
  - injection H as <- <-.
    split; [exact L|]. split; [exact F|].
    split; [intros next K; discriminate K|].
    split; [intros e K; injection K as <-; left; now apply E|].
    intros C. rewrite C in X. cbn [extract_products] in X. discriminate X.
Qed.

End Resolution.

(** ** Field extraction *)

Section Fields.
Context {lib : HtmlLibrary}.

(** C5.  The claim that the numeric fields never raise does not hold of
    the code: when the first review-count selector finds no element,
    [_css_select] returns [None], [_get_n_ratings] calls [replace] on it
    and raises [AttributeError], which its handler for [ValueError] does
    not catch; the record of the container is never built. *)
Theorem missing_review_count_raises (product : Tag) :
  tag_select product "div.a-row.a-size-small span.a-size-base" = [] ->
  _get_n_ratings product = Raise AttributeError
  /\ (forall base,
        extract_product base product = Raise AttributeError
        \/ extract_product base product = Raise ValueError).
Proof.
  intros H.
  assert (N : _get_n_ratings product = Raise AttributeError).
  { unfold _get_n_ratings, n_ratings_selectors. cbn [_get_n_ratings_loop].
    unfold _css_select. now rewrite H. }
  split; [exact N|]. intros base. unfold extract_product.
  unfold _get_rating.
  destruct (search_rating (tag_str product)) as [g|]; cbn [rbind].
  - destruct (py_float (replace_chr "," "." g)); cbn [rbind].
    + rewrite N. now left.
    + now right.
  - rewrite N. now left.
Qed.

(** The rating pattern takes any character between its two digits, and
    [float] then refuses what is not a number. *)
Lemma rating_pattern_can_raise (product : Tag) :
  tag_str product = "Showing 1-5 out of 50 results" ->
  _get_rating product = Raise ValueError.
Proof. intros H. unfold _get_rating. now rewrite H. Qed.

(** When every review-count selector finds an element and none of the
    texts is an integer, the field is [float('nan')]. *)
Lemma review_count_unknown (product : Tag) :
  (forall selector, In selector n_ratings_selectors ->
     exists t, _css_select product selector = Some t
               /\ py_int (replace_chr "," EmptyString t) = None) ->
  _get_n_ratings product = Ok NaN.
Proof.
  unfold _get_n_ratings. induction n_ratings_selectors as [|sel rest IH]; intros H.
  - reflexivity.
  - cbn [_get_n_ratings_loop].
    destruct (H sel (or_introl eq_refl)) as (t & -> & ->).
    apply IH. intros s Hs. apply H. now right.
Qed.

End Fields.

(** ** Price classification *)

Definition canonical (q : Q) : Prop := Qred q = q.

Lemma py_float_canonical (s : string) (q : Q) :
  py_float s = Some q -> canonical q.
Proof.
  unfold py_float, canonical.
  destruct (float_literal s) as [x|]; simpl; [|discriminate].
  intros [= <-]. apply Qred_complete, Qred_correct.
Qed.

Lemma Q_eqb_canonical (x y : Q) :
  canonical x -> canonical y -> (Q_eqb x y = true <-> x = y).
Proof.
  unfold canonical, Q_eqb. intros Hx Hy. rewrite Qeq_bool_iff. split.
  - intros E. rewrite <- Hx, <- Hy. now apply Qred_complete.
  - intros ->. reflexivity.
Qed.

Lemma set_add_In {A} (P : A -> Prop) (eqb : A -> A -> bool) :
  (forall a b, P a -> P b -> (eqb a b = true <-> a = b)) ->
  forall (x : A) (s : list A), P x -> Forall P s ->
  Forall P (set_add eqb x s)
  /\ forall z, In z (set_add eqb x s) <-> z = x \/ In z s.
Proof.
  intros E x s Px. induction s as [|y s IH]; intros F.
  - split; [now repeat constructor|]. intros z. simpl. intuition.
  - inversion F as [|? ? Py Fs]; subst. cbn [set_add].
    destruct (eqb x y) eqn:B.
    + apply E in B; auto. subst y. split; [exact F|].
      intros z. simpl. intuition.
    + destruct (IH Fs) as (F' & I'). split; [now constructor|].
      intros z. simpl. rewrite I'. intuition.
Qed.

Section Prices.
Context {lib : HtmlLibrary}.

(** A turn of the loop of [_get_prices] does what [classify] says. *)
Lemma step_classify (prices : price_sets) (f : NavigableString) :
  match classify f with
  | None => exists e, _get_prices_step prices f = Raise e
  | Some Skipped => _get_prices_step prices f = Ok prices
  | Some (PerUnit q u) =>
      canonical q
      /\ _get_prices_step prices f =
         Ok {| set_prices_per_unit := set_add Q_eqb q (set_prices_per_unit prices);
               set_units := set_add String.eqb u (set_units prices);
               set_prices_main := set_prices_main prices |}
  | Some (Main q) =>
      canonical q
      /\ _get_prices_step prices f =
         Ok {| set_prices_per_unit := set_prices_per_unit prices;
               set_units := set_units prices;
               set_prices_main := set_add Q_eqb q (set_prices_main prices) |}
  end.
Proof.
  unfold classify, _get_prices_step.
  destruct (search_price (ns_text f)) as [g|]; [|now eexists].
  destruct (py_float g) as [q|] eqn:Fq; [|now eexists].
  apply py_float_canonical in Fq.
  destruct (is_struck f || String.eqb (ns_text f) "$0.00"); [reflexivity|].
  destruct (startswith "(" (ns_text f) && contains "/" (ns_text f)).
  - destruct (findall_unit_0 (ns_text f)) as [u|]; simpl; [now split | now eexists].
  - now split.
Qed.

Definition sets_canonical (prices : price_sets) : Prop :=
  Forall canonical (set_prices_per_unit prices)
  /\ Forall canonical (set_prices_main prices).

Lemma prices_loop_spec (fs : list NavigableString) :
  forall prices0 prices,
  sets_canonical prices0 ->
  _get_prices_loop prices0 fs = Ok prices ->
  sets_canonical prices
  /\ (forall q, In q (set_prices_main prices) <->
        In q (set_prices_main prices0)
        \/ exists f, In f fs /\ classify f = Some (Main q))
  /\ (forall q, In q (set_prices_per_unit prices) <->
        In q (set_prices_per_unit prices0)
        \/ exists f u, In f fs /\ classify f = Some (PerUnit q u))
  /\ (forall u, In u (set_units prices) <->
        In u (set_units prices0)
        \/ exists f q, In f fs /\ classify f = Some (PerUnit q u)).
Proof.
  induction fs as [|f fs IH]; intros prices0 prices C0; cbn [_get_prices_loop].
  - intros [= <-]. split; [exact C0|].
    repeat split; try (intros K; now left);
      intros [K|K]; auto; destruct K as (? & ? & [] & _) || destruct K as (? & [] & _).
  - pose proof (step_classify prices0 f) as S.
    destruct (classify f) as [[|q u|q]|] eqn:CF.
    + rewrite S. cbn [rbind]. intros H.
      destruct (IH _ _ C0 H) as (C & M & P & U). split; [exact C|].
      split; [|split].
      * intros q. rewrite M. split; intros [K|(g & Hg & Cg)]; auto.
        -- right. exists g. split; [now right | exact Cg].
        -- destruct Hg as [<-|Hg]; [congruence|]. right. now exists g.
      * intros q. rewrite P. split; intros [K|(g & u & Hg & Cg)]; auto.
        -- right. exists g, u. split; [now right | exact Cg].
        -- destruct Hg as [<-|Hg]; [congruence|]. right. now exists g, u.
      * intros u. rewrite U. split; intros [K|(g & q & Hg & Cg)]; auto.
        -- right. exists g, q. split; [now right | exact Cg].
        -- destruct Hg as [<-|Hg]; [congruence|]. right. now exists g, q.
    + destruct S as (Cq & S). rewrite S. cbn [rbind]. intros H.
      destruct C0 as (CP & CM).
      destruct (set_add_In canonical Q_eqb Q_eqb_canonical q _ Cq CP) as (CP' & IP).
      destruct (set_add_In (fun _ => True) String.eqb
                  (fun a b _ _ => String.eqb_eq a b) u (set_units prices0) I)
        as (_ & IU).
      { apply Forall_forall. auto. }
      assert (C1 : sets_canonical
                (match _get_prices_step prices0 f with Ok x => x | Raise _ => prices0 end))
        by (rewrite S; split; assumption).
      rewrite S in C1.
      destruct (IH _ prices C1 H) as (C & M & P & U).
      cbn [set_prices_main set_prices_per_unit set_units] in M, P, U.
      split; [exact C|]. split; [|split].
      * intros z. rewrite M. split; intros [K|(g & Hg & Cg)]; auto.
        -- right. exists g. split; [now right | exact Cg].
        -- destruct Hg as [<-|Hg]; [congruence|]. right. now exists g.
      * intros z. rewrite P, IP. split.
        -- intros [[->|K]|(g & v & Hg & Cg)]; auto.
           ++ right. exists f, u. split; [now left | exact CF].
           ++ right. exists g, v. split; [now right | exact Cg].
        -- intros [K|(g & v & Hg & Cg)]; auto.
           destruct Hg as [<-|Hg].
           ++ left. left. congruence.
           ++ right. now exists g, v.
      * intros z. rewrite U, IU. split.
        -- intros [[->|K]|(g & v & Hg & Cg)]; auto.
           ++ right. exists f, q. split; [now left | exact CF].
           ++ right. exists g, v. split; [now right | exact Cg].
        -- intros [K|(g & v & Hg & Cg)]; auto.
           destruct Hg as [<-|Hg].
           ++ left. left. congruence.
           ++ right. now exists g, v.
    + destruct S as (Cq & S). rewrite S. cbn [rbind]. intros H.
      destruct C0 as (CP & CM).
      destruct (set_add_In canonical Q_eqb Q_eqb_canonical q _ Cq CM) as (CM' & IM).
      assert (C1 : sets_canonical
                (match _get_prices_step prices0 f with Ok x => x | Raise _ => prices0 end))
        by (rewrite S; split; assumption).
      rewrite S in C1.
      destruct (IH _ prices C1 H) as (C & M & P & U).
      cbn [set_prices_main set_prices_per_unit set_units] in M, P, U.
      split; [exact C|]. split; [|split].
      * intros z. rewrite M, IM. split.
        -- intros [[->|K]|(g & Hg & Cg)]; auto.
           ++ right. exists f. split; [now left | exact CF].
           ++ right. exists g. split; [now right | exact Cg].
        -- intros [K|(g & Hg & Cg)]; auto.
           destruct Hg as [<-|Hg].
           ++ left. left. congruence.
           ++ right. now exists g.
      * intros z. rewrite P. split; intros [K|(g & v & Hg & Cg)]; auto.
        -- right. exists g, v. split; [now right | exact Cg].
        -- destruct Hg as [<-|Hg]; [congruence|]. right. now exists g, v.
      * intros z. rewrite U. split; intros [K|(g & v & Hg & Cg)]; auto.
        -- right. exists g, v. split; [now right | exact Cg].
        -- destruct Hg as [<-|Hg]; [congruence|]. right. now exists g, v.
    + destruct S as (e & S). rewrite S. discriminate.
Qed.

Lemma prices_loop_total (fs : list NavigableString) :
  forall prices0,
  (forall f, In f fs -> classify f <> None) ->
  exists prices, _get_prices_loop prices0 fs = Ok prices.
Proof.
  induction fs as [|f fs IH]; intros prices0 H; cbn [_get_prices_loop].
  - now eexists.
  - pose proof (step_classify prices0 f) as S.
    destruct (classify f) as [[|q u|q]|] eqn:CF.
    + rewrite S. cbn [rbind]. apply IH. intros g Hg. apply H. now right.
    + destruct S as (_ & ->). cbn [rbind]. apply IH. intros g Hg. apply H. now right.
    + destruct S as (_ & ->). cbn [rbind]. apply IH. intros g Hg. apply H. now right.
    + destruct (H f (or_introl eq_refl) CF).
Qed.

(** C4, as the code has it.  The fragments of a container are its text
    nodes that hold a currency figure.  When the figure of each reads as
    a number, and each per-unit fragment closes its parenthesis, the
    classifier returns, and what it returns is this partition: a
    fragment flagged as struck through, or whose text is exactly the
    figure [$0.00], is skipped; a fragment that opens with a parenthesis
    and holds a divider gives its amount to the per-unit prices and the
    text between the divider and the closing parenthesis to the units;
    every other fragment gives its amount to the main prices.  Each set
    is then collapsed.  In particular the fragments [$19.99], [$29.99]
    struck through and [($4.00/oz)] yield the main price 19.99, the
    per-unit price 4.00 and the unit [oz]. *)
Theorem prices_are_classified (product : Tag) :
  (forall f, In f (find_all_prices product) <->
     In f (tag_strings product) /\ search_price (ns_text f) <> None)
  /\ ((forall f, In f (find_all_prices product) -> classify f <> None) ->
      exists prices, _get_prices_sets product = Ok prices)
  /\ (forall prices, _get_prices_sets product = Ok prices ->
        (forall q, In q (set_prices_main prices) <->
           exists f, In f (find_all_prices product)
                     /\ classify f = Some (Main q))
        /\ (forall q, In q (set_prices_per_unit prices) <->
             exists f u, In f (find_all_prices product)
                         /\ classify f = Some (PerUnit q u))
        /\ (forall u, In u (set_units prices) <->
             exists f q, In f (find_all_prices product)
                         /\ classify f = Some (PerUnit q u))
        /\ _get_prices product =
           Ok (collapse (set_prices_per_unit prices),
               collapse (set_units prices),
               collapse (set_prices_main prices)))
  /\ (tag_strings product =
        [plain "$19.99"; struck "$29.99"; plain "($4.00/oz)"] ->
      _get_prices product = Ok (Single 4%Q, Single "oz", Single 19.99%Q)).
Proof.
  split; [|split; [|split]].
  - intros f. unfold find_all_prices. rewrite filter_In.
    destruct (search_price (ns_text f)); intuition congruence.
  - intros H. now apply prices_loop_total.
  - intros prices H.
    assert (C0 : sets_canonical empty_price_sets) by (split; constructor).
    destruct (prices_loop_spec _ _ _ C0 H) as (_ & M & P & U).
    cbn [empty_price_sets set_prices_main set_prices_per_unit set_units In]
      in M, P, U.
    split; [|split; [|split]].
    + intros q. rewrite M. intuition.
    + intros q. rewrite P. intuition.
    + intros u. rewrite U. intuition.
    + unfold _get_prices. now rewrite H.
  - intros H. unfold _get_prices, _get_prices_sets, find_all_prices.
    rewrite H. vm_compute. reflexivity.
Qed.

End Prices.

(* ================================================================== *)
(** * The client on the scenarios *)

(** C1.  The claim that a page without a next-page link ends the
    collection normally does not hold of the code.  [_extract_page]
    returns [None] for such a page, the loop of [_get_products] tests
    the count only, and while the count is below the target it fetches
    again, with [None] for a URL: the request raises [MissingSchema],
    which no handler catches.  On one page of ten products and a target
    of 1000 the call raises after the ten records and one request,
    whatever the fuel; with too little fuel to get there it does not
    return either. *)
Theorem no_next_link_raises :
  (forall lib net fuel max_product_nb self,
      (len (product_dict_list self) <? max_product_nb)%Z = true ->
      @_get_products_loop lib net (S fuel) None max_product_nb self
        = Some (Raise MissingSchema, self))
  /\ (forall fuel, exists self',
        @_get_products single_page_library single_page_network
          (S (S fuel)) "laptop" EmptyString 1000 __init__
          = Some (Raise MissingSchema, self')
        /\ product_dict_list self' = map widget_record ten_names
        /\ html_pages self' = ["<html>ten results, last page</html>"]
        /\ n_gets (io_trace self') = 1)
  /\ (forall fuel records self',
        @_get_products single_page_library single_page_network
          fuel "laptop" EmptyString 1000 __init__
          <> Some (Ok records, self')).
Proof.
  split; [|split].
  - intros lib net fuel max_product_nb self H.
    apply loop_without_next_link. now apply Z.ltb_lt.
  - intros fuel. eexists. split; [vm_compute; reflexivity|].
    repeat split; vm_compute; reflexivity.
  - intros [|[|fuel]] records self'; vm_compute; discriminate.
Qed.

(** C3.  The claim that a session whose pages supply the target returns
    that many records does not hold of the code.  A container whose
    extraction raises ends [_extract_page], and with it the session, on
    the spot: no record of the containers after it is made and nothing
    is returned.  On one page of three containers, the first of them
    without an element for the review count and the two after it
    complete, a session for two records raises [AttributeError] after
    one request and with no record, whatever the fuel. *)
Theorem unextractable_container_ends_session :
  (forall lib page max_product_nb self p rest e,
      @page_products lib page = p :: rest ->
      (len (product_dict_list self) <? max_product_nb)%Z = true ->
      @extract_product lib (base_url self) p = Raise e ->
      @_extract_page lib page max_product_nb self = (Raise e, self))
  /\ @page_products bare_first_library "<html>three results</html>"
     = [bare_container; widget "W1"; widget "W2"]
  /\ @extract_product bare_first_library (Some _BASE_URL) bare_container
     = Raise AttributeError
  /\ @extract_product bare_first_library (Some _BASE_URL) (widget "W1")
     = Ok (widget_record "W1")
  /\ @extract_product bare_first_library (Some _BASE_URL) (widget "W2")
     = Ok (widget_record "W2")
  /\ (forall fuel, exists self',
        @_get_products bare_first_library bare_first_network
          (S fuel) "laptop" EmptyString 2 __init__
          = Some (Raise AttributeError, self')
        /\ product_dict_list self' = []
        /\ html_pages self' = ["<html>three results</html>"]
        /\ n_gets (io_trace self') = 1)
  /\ (forall fuel records self',
        @_get_products bare_first_library bare_first_network
          fuel "laptop" EmptyString 2 __init__
          <> Some (Ok records, self')).
Proof.
  split.
  { intros lib page max_product_nb self p rest e P G X.
    unfold _extract_page. fold (@page_products lib page). rewrite P.
    cbn [extract_products]. rewrite Z.geb_leb.
    apply Z.ltb_lt in G.
    replace (max_product_nb <=? len (product_dict_list self))%Z with false
      by (symmetry; apply Z.leb_gt; exact G).
    now rewrite X. }
  split; [reflexivity|]. split; [vm_compute; reflexivity|].
  split; [vm_compute; reflexivity|]. split; [vm_compute; reflexivity|].
  split.
  - intros fuel. eexists. split; [vm_compute; reflexivity|].
    repeat split; vm_compute; reflexivity.
  - intros [|fuel] records self'; vm_compute; discriminate.
Qed.

(** C9, counterexample.  On the three-page site a first session for two
    records returns the first two products.  A second session on the
    same client, for other keywords and two records again, does not
    start from an empty sequence: it finds the client's two records,
    takes the target for met and returns them, the products of the first
    session, without a request and without a page. *)
Lemma second_session_starts_from_first_records :
  exists self1 self2,
    @_get_products three_page_library three_page_network
      5 "laptop" EmptyString 2 __init__
      = Some (Ok (map widget_record ["A1"; "A2"]), self1)
    /\ @_get_products three_page_library three_page_network
         5 "phone" EmptyString 2 self1
       = Some (Ok (map widget_record ["A1"; "A2"]), self2)
    /\ io_trace self2 = io_trace self1
    /\ html_pages self2 = html_pages self1.
Proof.
  eexists. eexists. split; [vm_compute; reflexivity|].
  split; [vm_compute; reflexivity|]. split; reflexivity.
Qed.

(** C4, counterexample.  The fragment [($0.00/oz)] holds the figure
    [0.00], whose value is exactly zero, and is not skipped: its text is
    not the text [$0.00], so the classifier files the amount 0 under the
    per-unit prices and [oz] under the units. *)
Lemma zero_valued_fragment_is_kept :
  search_price "($0.00/oz)" = Some "0.00"
  /\ py_float "0.00" = Some 0%Q
  /\ @tag_strings single_page_library free_sample
     = [plain "Sample"; plain "($0.00/oz)"]
  /\ @_get_prices single_page_library free_sample
     = Ok (Single 0%Q, Single "oz", Unknown).
Proof. repeat split; vm_compute; reflexivity. Qed.

(** C2, counterexample.  Every attempt the budget grants would raise a
    transport error, the refused connection as requests reports it.  The
    handler names the built-in [ConnectionError], which that class does
    not derive from: the first exception leaves [_get_page_html] as it
    is, after one request, with the identity where it was and no delay
    slept; [ValueError] is not raised. *)
Lemma refused_connections_are_not_retried :
  (forall k, @network refusing_network k
             = Throws (OtherError "requests.exceptions.ConnectionError"))
  /\ @_get_page_html refusing_network (Some laptop_url) __init__
     = (Raise (OtherError "requests.exceptions.ConnectionError"),
        record_event (EvGet laptop_url (headers __init__)) __init__)
  /\ @_get_page_html refusing_network (Some laptop_url) __init__
     <> (Raise ValueError,
         Nat.iter _MAX_TRIAL_REQUESTS (failed_attempt laptop_url) __init__)
  /\ current_user_agent_index
       (snd (@_get_page_html refusing_network (Some laptop_url) __init__)) = 0
  /\ io_trace
       (snd (@_get_page_html refusing_network (Some laptop_url) __init__))
     = [EvGet laptop_url (headers __init__)].
Proof.
  split; [intros [|k]; reflexivity|].
  split; [vm_compute; reflexivity|].
  split; [vm_compute; discriminate|].
  split; vm_compute; reflexivity.
Qed.

(** C6, counterexample.  The first attempt fails with a transport error,
    the refused connection as requests reports it, and four turns of the
    budget are left; the second request would be answered with a valid
    page.  The fetcher does not recover: the exception reaches the
    caller after the one request, the identity has not been rotated, no
    delay has been slept and nothing is sent again. *)
Lemma refused_connection_reaches_the_caller :
  @network refused_once_network 0
  = Throws (OtherError "requests.exceptions.ConnectionError")
  /\ @network refused_once_network 1 = ok_page "<html>results 1-3</html>"
  /\ _check_page "<html>results 1-3</html>" = true
  /\ @_get_page_html_loop refused_once_network 5 (Some laptop_url) __init__
     = (Raise (OtherError "requests.exceptions.ConnectionError"),
        record_event (EvGet laptop_url (headers __init__)) __init__)
  /\ @_get_page_html_loop refused_once_network 5 (Some laptop_url) __init__
     <> @_get_page_html_loop refused_once_network 4 (Some laptop_url)
          (failed_attempt laptop_url __init__)
  /\ current_user_agent_index
       (record_event (EvGet laptop_url (headers __init__)) __init__) = 0
  /\ io_trace (record_event (EvGet laptop_url (headers __init__)) __init__)
     = [EvGet laptop_url (headers __init__)].
Proof.
  split; [reflexivity|]. split; [reflexivity|]. split; [reflexivity|].
  split; [vm_compute; reflexivity|].
  split; [vm_compute; discriminate|].
  split; reflexivity.
Qed.

(* ================================================================== *)
(** * Instances of the conditional theorems *)

Lemma blocked_page_is_retried_witness :
  In "Robot Check" invalid_keywords
  /\ (exists pre post,
        "<html><title>Robot Check</title></html>"
        = (pre ++ "Robot Check" ++ post)%string)
  /\ _check_page "<html><title>Robot Check</title></html>" = false
  /\ (forall url self page self',
        @_get_page_html failing_network url self = (Ok page, self') ->
        page <> "<html><title>Robot Check</title></html>")
  /\ (forall remaining u self code,
        @network failing_network (n_gets (io_trace self)) =
          Returns {| status_code := code;
                     text := "<html><title>Robot Check</title></html>" |} ->
        @_get_page_html_loop failing_network (S remaining) (Some u) self =
        @_get_page_html_loop failing_network remaining (Some u)
          (failed_attempt u self)
        /\ (remaining <> 0 ->
            exists r self' evs,
              @_get_page_html_loop failing_network (S remaining) (Some u) self
                = (r, self')
              /\ io_trace self' =
                 io_trace self ++
                 [EvGet u (headers self); EvSleep _WAIT_TIME_BETWEEN_REQUESTS;
                  EvGet u (headers (failed_attempt u self))] ++ evs)).
Proof.
  assert (H1 : In "Robot Check" invalid_keywords)
    by (right; right; left; reflexivity).
  assert (H2 : exists pre post,
             "<html><title>Robot Check</title></html>"
             = (pre ++ "Robot Check" ++ post)%string)
    by (exists "<html><title>", "</title></html>"; reflexivity).
  split; [exact H1|]. split; [exact H2|].
  exact (@blocked_page_is_retried failing_network _ _ H1 H2).
Defined.

Lemma exhausted_budget_raises_witness :
  (forall k, k < _MAX_TRIAL_REQUESTS ->
     attempt_fails (@network failing_network (n_gets (io_trace __init__) + k))
     = true)
  /\ @_get_page_html failing_network (Some laptop_url) __init__ =
       (Raise ValueError,
        Nat.iter _MAX_TRIAL_REQUESTS (failed_attempt laptop_url) __init__)
  /\ current_user_agent_index
       (Nat.iter _MAX_TRIAL_REQUESTS (failed_attempt laptop_url) __init__) = 1
  /\ User_Agent
       (headers
          (Nat.iter _MAX_TRIAL_REQUESTS (failed_attempt laptop_url) __init__))
     = nth 1 _USER_AGENT_LIST EmptyString
  /\ map (fun self => current_user_agent_index self)
       (map (fun k => Nat.iter k (failed_attempt laptop_url) __init__)
          (seq 0 6))
     = [0; 1; 0; 1; 0; 1]
  /\ n_gets (io_trace
       (Nat.iter _MAX_TRIAL_REQUESTS (failed_attempt laptop_url) __init__)) = 5.
Proof.
  assert (H : forall k, k < _MAX_TRIAL_REQUESTS ->
            attempt_fails
              (@network failing_network (n_gets (io_trace __init__) + k))
            = true).
  { intros k Hk. do 5 (destruct k as [|k]; [reflexivity|]).
    unfold _MAX_TRIAL_REQUESTS in Hk. lia. }
  split; [exact H|].
  destruct (@exhausted_budget_raises failing_network laptop_url __init__ H)
    as (R & _ & U & I & _).
  split; [exact R|]. split; [exact I|].
  split; [exact (U 4 (le_n 5))|]. split; reflexivity.
Defined.

Lemma transient_failure_is_recovered_witness :
  transport_or_status_failure
    (@network failing_network (n_gets (io_trace __init__))) = true
  /\ @_get_page_html_loop failing_network 5 (Some laptop_url) __init__ =
     @_get_page_html_loop failing_network 4 (Some laptop_url)
       (failed_attempt laptop_url __init__)
  /\ current_user_agent_index (failed_attempt laptop_url __init__) = 1
  /\ User_Agent (headers (failed_attempt laptop_url __init__)) =
     nth 1 _USER_AGENT_LIST EmptyString
  /\ Host (headers (failed_attempt laptop_url __init__)) = "www.amazon.com"
  /\ Accept (headers (failed_attempt laptop_url __init__))
     = Accept (headers __init__)
  /\ io_trace (failed_attempt laptop_url __init__) =
     [EvGet laptop_url (headers __init__);
      EvSleep _WAIT_TIME_BETWEEN_REQUESTS]
  /\ (forall e self',
        @_get_page_html_loop failing_network 5 (Some laptop_url) __init__
          = (Raise e, self') ->
        e <> SSLError /\ e <> ConnectionError)
  /\ (4 <> 0 ->
      exists r self' evs,
        @_get_page_html_loop failing_network 5 (Some laptop_url) __init__
          = (r, self')
        /\ io_trace self' =
           io_trace __init__ ++
           [EvGet laptop_url (headers __init__);
            EvSleep _WAIT_TIME_BETWEEN_REQUESTS;
            EvGet laptop_url (headers (failed_attempt laptop_url __init__))]
           ++ evs).
Proof.
  split; [reflexivity|].
  exact (@transient_failure_is_recovered failing_network 4 laptop_url __init__
           eq_refl).
Defined.

Lemma missing_review_count_raises_witness :
  @tag_select single_page_library bare_container
    "div.a-row.a-size-small span.a-size-base" = []
  /\ @_get_n_ratings single_page_library bare_container = Raise AttributeError
  /\ (forall base,
        @extract_product single_page_library base bare_container
          = Raise AttributeError
        \/ @extract_product single_page_library base bare_container
          = Raise ValueError).
Proof.
  split; [reflexivity|].
  exact (@missing_review_count_raises single_page_library bare_container eq_refl).
Defined.

Lemma target_reached_stops_witness :
  @first_url three_page_library "laptop" EmptyString = Ok laptop_url
  /\ _update_headers laptop_url __init__ = (Ok tt, laptop_client)
  /\ product_dict_list __init__ = []
  /\ (forall i page,
        nth_error ["<html>results 1-3</html>"; "<html>results 4-7</html>"] i
          = Some page ->
        @network three_page_network (n_gets (io_trace __init__) + i)
          = ok_page page
        /\ _check_page page = true)
  /\ (forall i page,
        nth_error ["<html>results 1-3</html>"; "<html>results 4-7</html>"] i
          = Some page ->
        exists next,
          @_get_next_page_url three_page_library (base_url laptop_client)
            (@BeautifulSoup three_page_library page) = Ok next
          /\ (S i < 2 -> next <> None))
  /\ (forall p,
        In p (@containers three_page_library
                ["<html>results 1-3</html>"; "<html>results 4-7</html>"]) ->
        exists d,
          @extract_product three_page_library (base_url laptop_client) p = Ok d)
  /\ (5 <= len (@containers three_page_library
                  ["<html>results 1-3</html>"; "<html>results 4-7</html>"]))%Z
  /\ (len (@containers three_page_library
             (removelast
                ["<html>results 1-3</html>"; "<html>results 4-7</html>"]))
      < 5)%Z
  /\ 2 <= 2
  /\ exists records self',
       @_get_products three_page_library three_page_network
         2 "laptop" EmptyString 5 __init__ = Some (Ok records, self')
       /\ len records = 5%Z
       /\ Forall2 (@extracted three_page_library (base_url laptop_client))
            records
            (firstn (Z.to_nat 5)
               (@containers three_page_library
                  ["<html>results 1-3</html>"; "<html>results 4-7</html>"]))
       /\ html_pages self' =
          html_pages __init__
          ++ ["<html>results 1-3</html>"; "<html>results 4-7</html>"]
       /\ n_gets (io_trace self') = n_gets (io_trace __init__) + 2.
Proof.
  assert (HN : forall i page,
             nth_error ["<html>results 1-3</html>"; "<html>results 4-7</html>"] i
               = Some page ->
             @network three_page_network (n_gets (io_trace __init__) + i)
               = ok_page page
             /\ _check_page page = true).
  { intros [|[|[|i]]] page; simpl; intros H; try discriminate H;
      injection H as <-; split; reflexivity. }
  assert (HX : forall i page,
             nth_error ["<html>results 1-3</html>"; "<html>results 4-7</html>"] i
               = Some page ->
             exists next,
               @_get_next_page_url three_page_library (base_url laptop_client)
                 (@BeautifulSoup three_page_library page) = Ok next
               /\ (S i < 2 -> next <> None)).
  { intros [|[|[|i]]] page; simpl; intros H; try discriminate H;
      injection H as <-; eexists; (split; [vm_compute; reflexivity|]).
    - intros _. discriminate.
    - intros K. lia. }
  assert (HE : forall p,
             In p (@containers three_page_library
                     ["<html>results 1-3</html>"; "<html>results 4-7</html>"]) ->
             exists d,
               @extract_product three_page_library (base_url laptop_client) p
                 = Ok d).
  { intros p H. vm_compute in H.
    repeat (destruct H as [<-|H]; [eexists; vm_compute; reflexivity|]).
    destruct H. }
  assert (HM : (5 <= len (@containers three_page_library
                  ["<html>results 1-3</html>"; "<html>results 4-7</html>"]))%Z)
    by (vm_compute; discriminate).
  assert (HR : (len (@containers three_page_library
                  (removelast
                     ["<html>results 1-3</html>"; "<html>results 4-7</html>"]))
                < 5)%Z)
    by (vm_compute; reflexivity).
  split; [reflexivity|]. split; [reflexivity|]. split; [reflexivity|].
  split; [exact HN|]. split; [exact HX|]. split; [exact HE|].
  split; [exact HM|]. split; [exact HR|]. split; [apply le_n|].
  exact (@target_reached_stops three_page_library three_page_network
           ["<html>results 1-3</html>"; "<html>results 4-7</html>"]
           "laptop" EmptyString laptop_url 5 __init__ laptop_client 2
           eq_refl eq_refl eq_refl HN HX HE HM HR (le_n 2)).
Defined.

Lemma records_in_source_order_witness :
  @_get_products three_page_library three_page_network
    5 "laptop" EmptyString 5 __init__
    = Some (Ok five_records, client_after_five)
  /\ exists start evs pages new,
       (EmptyString <> EmptyString -> start = Some EmptyString)
       /\ io_trace client_after_five = io_trace __init__ ++ evs
       /\ html_pages client_after_five = html_pages __init__ ++ pages
       /\ product_dict_list client_after_five
          = product_dict_list __init__ ++ new
       /\ @visited three_page_library three_page_network
            (base_url client_after_five) (io_trace __init__) start evs pages
       /\ Forall2 (@extracted three_page_library (base_url client_after_five))
            new
            (firstn (List.length new) (@containers three_page_library pages))
       /\ (forall records, Ok five_records = Ok records ->
           records = product_dict_list __init__ ++ new).
Proof.
  assert (H : @_get_products three_page_library three_page_network
                5 "laptop" EmptyString 5 __init__
              = Some (Ok five_records, client_after_five))
    by (vm_compute; reflexivity).
  split; [exact H|].
  exact (@records_in_source_order three_page_library three_page_network
           5 "laptop" EmptyString 5 __init__ client_after_five
           (Ok five_records) H).
Defined.

Lemma records_outlive_the_session_witness :
  @_get_products three_page_library three_page_network
    5 "phone" EmptyString 5 client_after_five
    = Some (Ok five_records, client_after_five)
  /\ product_dict_list __init__ = []
  /\ (exists new, five_records = product_dict_list client_after_five ++ new)
  /\ ((5 <= len (product_dict_list client_after_five))%Z ->
      five_records = product_dict_list client_after_five
      /\ io_trace client_after_five = io_trace client_after_five).
Proof.
  assert (H : @_get_products three_page_library three_page_network
                5 "phone" EmptyString 5 client_after_five
              = Some (Ok five_records, client_after_five))
    by (vm_compute; reflexivity).
  split; [exact H|].
  exact (@records_outlive_the_session three_page_library three_page_network
           5 "phone" EmptyString 5 client_after_five client_after_five
           five_records H).
Defined.

(** On a page that the [desktop] schema matches and the two mobile
    schemas do not, [_extract_page] makes the records of the containers
    of [desktop], although [desktop_2], which comes after it, would
    match too, and returns the URL of the next-page link; on a page no
    schema matches it leaves the client as it was and returns the URL of
    the link. *)
Lemma first_matching_schema_wins_witness :
  @_extract_page desktop_library "<html>desktop results</html>" 5 laptop_client
  = (Ok (Some "https://www.amazon.com/s?k=laptop&page=2"),
     client_after_desktop_page)
  /\ product_dict_list client_after_desktop_page
     = map widget_record ["D1"; "D2"]
  /\ @tag_select desktop_library
       (@BeautifulSoup desktop_library "<html>desktop results</html>")
       (sel_product desktop_2) = widgets ["E1"]
  /\ (exists cs new,
        cs = widgets ["D1"; "D2"]
        /\ product_dict_list client_after_desktop_page
           = product_dict_list laptop_client ++ new
        /\ Forall2 (@extracted desktop_library (base_url laptop_client)) new
             (firstn (List.length new) cs)
        /\ (List.length new = List.length cs
            \/ (5 <= len (product_dict_list client_after_desktop_page))%Z))
  /\ @_extract_page linked_page_library "<html>no results</html>" 5
       laptop_client
     = (Ok (Some "https://www.amazon.com/s?k=laptop&page=2"), laptop_client).
Proof.
  assert (H : @_extract_page desktop_library "<html>desktop results</html>" 5
                laptop_client
              = (Ok (Some "https://www.amazon.com/s?k=laptop&page=2"),
                 client_after_desktop_page))
    by (vm_compute; reflexivity).
  split; [exact H|]. split; [vm_compute; reflexivity|].
  split; [reflexivity|]. split; [|vm_compute; reflexivity].
  pose proof (@first_matching_schema_wins desktop_library _ _ _ _ _ H) as W.
  cbv zeta in W.
  destruct W as (_ & cs & new & _ & First & _ & L & F & OK & _).
  exists cs, new.
  assert (E : cs = widgets ["D1"; "D2"]).
  { apply (First [mobile; mobile_grid] desktop [desktop_2] eq_refl).
    - intros a [<-|[<-|[]]]; reflexivity.
    - discriminate. }
  split; [exact E|]. split; [exact L|]. split; [exact F|].
  exact (proj1 (OK _ eq_refl)).
Defined.

Lemma prices_are_classified_witness :
  @tag_strings single_page_library three_prices
    = [plain "$19.99"; struck "$29.99"; plain "($4.00/oz)"]
  /\ map classify (@find_all_prices single_page_library three_prices)
     = [Some (Main 19.99%Q); Some Skipped; Some (PerUnit 4%Q "oz")]
  /\ @_get_prices single_page_library three_prices
     = Ok (Single 4%Q, Single "oz", Single 19.99%Q).
Proof.
  split; [reflexivity|]. split; [vm_compute; reflexivity|].
  exact (proj2 (proj2 (proj2 (@prices_are_classified single_page_library
                                three_prices))) eq_refl).
Defined.

(* ================================================================== *)
(** * Further properties of the fetcher *)

(** X1.  [_check_page] accepts a page exactly when none of the three
    block phrases occurs in it, as a substring and letter for letter. *)
Theorem check_page_accepts_iff (html : string) :
  _check_page html = true <->
  forall kw, In kw invalid_keywords ->
    ~ exists pre post, html = (pre ++ kw ++ post)%string.
Proof.
  split.
  - intros V kw Hin Hsub.
    assert (F : _check_page html = false).
    { apply _check_page_false_iff. exists kw. split; [exact Hin|].
      now apply contains_spec. }
    congruence.
  - intros H. destruct (_check_page html) eqn:V; [reflexivity|].
    apply _check_page_false_iff in V. destruct V as (kw & Hin & C).
    apply contains_spec in C. now destruct (H kw Hin).
Qed.

Section FetcherOutcomes.
Context {net : Network}.

Lemma loop_after_failures (u : string) (k n : nat) (self : AmazonClient) :
  (forall j, j < k ->
     attempt_fails (network (n_gets (io_trace self) + j)) = true) ->
  _get_page_html_loop (k + n) (Some u) self =
  _get_page_html_loop n (Some u) (Nat.iter k (failed_attempt u) self).
Proof.
  revert self. induction k as [|k IH]; intros self H; [reflexivity|].
  cbn [Nat.add]. rewrite loop_failed_attempt.
  2:{ specialize (H 0). rewrite Nat.add_0_r in H. apply H. lia. }
  rewrite IH.
  - now rewrite Nat.iter_succ_r.
  - intros j Hj. rewrite n_gets_failed_attempt.
    replace (S (n_gets (io_trace self)) + j)
      with (n_gets (io_trace self) + S j) by lia.
    apply H. lia.
Qed.

(** One turn of the loop on an attempt that is not a failure: a valid
    page is returned, an exception of another class is let through. *)
Lemma loop_final_attempt (remaining : nat) (u : string) (self : AmazonClient) :
  attempt_fails (network (n_gets (io_trace self))) = false ->
  _get_page_html_loop (S remaining) (Some u) self =
  (match network (n_gets (io_trace self)) with
   | Returns response => Ok (text response)
   | Throws e => Raise e
   end,
   record_event (EvGet u (headers self)) self).
Proof.
  intros H. cbn [_get_page_html_loop]. rewrite _get_Some.
  unfold attempt_fails in H.
  destruct (network (n_gets (io_trace self))) as [res|e].
  - apply orb_false_iff in H as (S & V).
    apply negb_false_iff in S, V. now rewrite S, V.
  - now rewrite H.
Qed.

(** X2.  Every outcome of [_get_page_html] has one of two shapes.
    Either all five attempts failed and it raises [ValueError] on the
    client five failed attempts leave; or some [k] attempts, fewer than
    five, failed, the next one did not, and the fetch ends on that
    request, with no rotation and no delay after it: it returns the text
    received, or lets through the exception the request raised, which is
    then of neither handled class. *)
Theorem fetch_outcomes (u : string) (self self' : AmazonClient)
  (r : result string) :
  _get_page_html (Some u) self = (r, self') ->
  exists k,
    k <= _MAX_TRIAL_REQUESTS
    /\ (forall j, j < k ->
          attempt_fails (network (n_gets (io_trace self) + j)) = true)
    /\ ((k = _MAX_TRIAL_REQUESTS /\ r = Raise ValueError
         /\ self' = Nat.iter k (failed_attempt u) self)
        \/ (k < _MAX_TRIAL_REQUESTS
            /\ attempt_fails (network (n_gets (io_trace self) + k)) = false
            /\ self' =
               record_event
                 (EvGet u (headers (Nat.iter k (failed_attempt u) self)))
                 (Nat.iter k (failed_attempt u) self)
            /\ r = match network (n_gets (io_trace self) + k) with
                   | Returns response => Ok (text response)
                   | Throws e => Raise e
                   end)).
Proof.
  unfold _get_page_html. revert self self' r.
  generalize _MAX_TRIAL_REQUESTS as n.
  induction n as [|n IH]; intros self self' r H.
  - cbn in H. injection H as <- <-. exists 0. split; [lia|].
    split; [intros j Hj; lia|]. left. auto.
  - destruct (attempt_fails (network (n_gets (io_trace self)))) eqn:F.
    + rewrite (loop_failed_attempt _ _ _ F) in H.
      destruct (IH _ _ _ H) as (k & Hk & Hf & Hr).
      rewrite n_gets_failed_attempt in Hf, Hr.
      exists (S k). split; [lia|]. split.
      * intros [|j] Hj; [now rewrite Nat.add_0_r|].
        replace (n_gets (io_trace self) + S j)
          with (S (n_gets (io_trace self)) + j) by lia.
        apply Hf. lia.
      * rewrite Nat.iter_succ_r.
        replace (n_gets (io_trace self) + S k)
          with (S (n_gets (io_trace self)) + k) by lia.
        destruct Hr as [(-> & -> & ->)|(Hlt & Hnf & -> & ->)].
        -- left. auto.
        -- right. split; [lia|]. auto.
    + rewrite (loop_final_attempt _ _ _ F) in H. injection H as <- <-.
      exists 0. split; [lia|]. split; [intros j Hj; lia|].
      right. rewrite Nat.add_0_r. split; [lia|]. auto.
Qed.


(** X3.  When the first [k] attempts fail, with [k] below the budget,
    and the next request is answered with a valid page, [_get_page_html]
    returns that page after [k + 1] requests, [k] rotations of the
    identity and [k] delays: each failed attempt advances the index by
    one, modulo the size of the pool, and sets the [User-Agent] header
    to the entry of the pool at the new index, so that the client
    returned has the index [k] steps further round the pool and every
    request was sent under the header the rotations before it left. *)
Theorem retry_until_valid_page (u page : string) (k : nat)
  (self : AmazonClient) :
  k < _MAX_TRIAL_REQUESTS ->
  (forall j, j < k ->
     attempt_fails (network (n_gets (io_trace self) + j)) = true) ->
  network (n_gets (io_trace self) + k) = ok_page page ->
  _check_page page = true ->
  _get_page_html (Some u) self =
    (Ok page,
     record_event (EvGet u (headers (Nat.iter k (failed_attempt u) self)))
       (Nat.iter k (failed_attempt u) self))
  /\ n_gets (io_trace
       (record_event (EvGet u (headers (Nat.iter k (failed_attempt u) self)))
          (Nat.iter k (failed_attempt u) self)))
     = n_gets (io_trace self) + k + 1
  /\ io_trace (Nat.iter k (failed_attempt u) self) =
     io_trace self ++
     flat_map (fun j => [EvGet u (headers (Nat.iter j (failed_attempt u) self));
                         EvSleep _WAIT_TIME_BETWEEN_REQUESTS])
              (seq 0 k)
  /\ (forall j, j < k ->
        current_user_agent_index (Nat.iter (S j) (failed_attempt u) self) =
        (current_user_agent_index (Nat.iter j (failed_attempt u) self) + 1)
          mod List.length _USER_AGENT_LIST
        /\ User_Agent (headers (Nat.iter (S j) (failed_attempt u) self)) =
           nth (current_user_agent_index
                  (Nat.iter (S j) (failed_attempt u) self))
             _USER_AGENT_LIST EmptyString)
  /\ (k <> 0 ->
      current_user_agent_index (Nat.iter k (failed_attempt u) self) =
      (current_user_agent_index self + k) mod List.length _USER_AGENT_LIST
      /\ User_Agent (headers (Nat.iter k (failed_attempt u) self)) =
         nth ((current_user_agent_index self + k)
                mod List.length _USER_AGENT_LIST)
           _USER_AGENT_LIST EmptyString).
Proof.
  intros Hk Hf Hn Hv. split; [|split; [|split; [|split]]].
  - unfold _get_page_html.
    replace _MAX_TRIAL_REQUESTS with (k + S (_MAX_TRIAL_REQUESTS - S k)) by lia.
    rewrite (loop_after_failures u k _ self Hf).
    apply loop_valid_page; [|exact Hv].
    now rewrite n_gets_iter_failed.
  - cbn [record_event io_trace]. rewrite n_gets_app, n_gets_iter_failed.
    unfold n_gets at 2. simpl. lia.
  - apply io_trace_iter_failed.
  - intros j _. rewrite Nat.iter_succ.
    split; [apply index_failed_attempt | apply user_agent_failed_attempt].
  - intros N. destruct k as [|k]; [now destruct N|].
    pose proof (index_iter_failed u k self) as I.
    split; [exact I|].
    rewrite Nat.iter_succ, user_agent_failed_attempt, <- Nat.iter_succ.
    now rewrite I.
Qed.

(** X4.  An exception of a class other than [SSLError] and
    [ConnectionError] (a time-out, a refused connection as requests
    reports it) is not retried: after the failed attempts before it, the
    fetch ends on that request and the exception reaches the caller. *)
Theorem unhandled_exception_propagates (u : string) (k : nat) (e : exn)
  (self : AmazonClient) :
  k < _MAX_TRIAL_REQUESTS ->
  (forall j, j < k ->
     attempt_fails (network (n_gets (io_trace self) + j)) = true) ->
  network (n_gets (io_trace self) + k) = Throws e ->
  e <> SSLError -> e <> ConnectionError ->
  _get_page_html (Some u) self =
    (Raise e,
     record_event (EvGet u (headers (Nat.iter k (failed_attempt u) self)))
       (Nat.iter k (failed_attempt u) self)).
Proof.
  intros Hk Hf Hn H1 H2. unfold _get_page_html.
  replace _MAX_TRIAL_REQUESTS with (k + S (_MAX_TRIAL_REQUESTS - S k)) by lia.
  rewrite (loop_after_failures u k _ self Hf).
  rewrite loop_final_attempt; rewrite n_gets_iter_failed, Hn.
  - reflexivity.
  - destruct e; simpl; congruence.
Qed.

End FetcherOutcomes.

Lemma fetch_outcomes_witness :
  @_get_page_html recovering_network (Some laptop_url) __init__ =
    (Ok "<html>results 1-3</html>",
     record_event
       (EvGet laptop_url
          (headers (Nat.iter 2 (failed_attempt laptop_url) __init__)))
       (Nat.iter 2 (failed_attempt laptop_url) __init__))
  /\ exists k,
       k <= _MAX_TRIAL_REQUESTS
       /\ (forall j, j < k ->
             attempt_fails
               (@network recovering_network (n_gets (io_trace __init__) + j))
             = true)
       /\ k < _MAX_TRIAL_REQUESTS.
Proof.
  assert (H : @_get_page_html recovering_network (Some laptop_url) __init__ =
              (Ok "<html>results 1-3</html>",
               record_event
                 (EvGet laptop_url
                    (headers (Nat.iter 2 (failed_attempt laptop_url) __init__)))
                 (Nat.iter 2 (failed_attempt laptop_url) __init__)))
    by (vm_compute; reflexivity).
  split; [exact H|].
  destruct (@fetch_outcomes recovering_network laptop_url __init__ _ _ H)
    as (k & Hk & Hf & [(_ & R & _)|(Hlt & _)]).
  - discriminate R.
  - exists k. auto.
Defined.

Lemma retry_until_valid_page_witness :
  2 < _MAX_TRIAL_REQUESTS
  /\ (forall j, j < 2 ->
        attempt_fails
          (@network recovering_network (n_gets (io_trace __init__) + j))
        = true)
  /\ @network recovering_network (n_gets (io_trace __init__) + 2)
     = ok_page "<html>results 1-3</html>"
  /\ _check_page "<html>results 1-3</html>" = true
  /\ @_get_page_html recovering_network (Some laptop_url) __init__ =
       (Ok "<html>results 1-3</html>",
        record_event
          (EvGet laptop_url
             (headers (Nat.iter 2 (failed_attempt laptop_url) __init__)))
          (Nat.iter 2 (failed_attempt laptop_url) __init__))
  /\ current_user_agent_index
       (Nat.iter 1 (failed_attempt laptop_url) __init__) = 1
  /\ User_Agent (headers (Nat.iter 1 (failed_attempt laptop_url) __init__))
     = nth 1 _USER_AGENT_LIST EmptyString
  /\ current_user_agent_index
       (Nat.iter 2 (failed_attempt laptop_url) __init__) = 0
  /\ User_Agent (headers (Nat.iter 2 (failed_attempt laptop_url) __init__))
     = nth 0 _USER_AGENT_LIST EmptyString.
Proof.
  assert (H0 : 2 < _MAX_TRIAL_REQUESTS) by (unfold _MAX_TRIAL_REQUESTS; lia).
  assert (H1 : forall j, j < 2 ->
             attempt_fails
               (@network recovering_network (n_gets (io_trace __init__) + j))
             = true).
  { intros j Hj. do 2 (destruct j as [|j]; [reflexivity|]). lia. }
  split; [exact H0|]. split; [exact H1|].
  split; [reflexivity|]. split; [reflexivity|].
  destruct (@retry_until_valid_page recovering_network laptop_url
              "<html>results 1-3</html>" 2 __init__
              H0 H1 eq_refl eq_refl) as (R & _ & _ & S & L).
  split; [exact R|].
  split; [exact (proj1 (S 0 (Nat.lt_0_succ 1)))|].
  split; [exact (proj2 (S 0 (Nat.lt_0_succ 1)))|].
  assert (N : 2 <> 0) by discriminate.
  split; [exact (proj1 (L N)) | exact (proj2 (L N))].
Defined.

Lemma unhandled_exception_propagates_witness :
  1 < _MAX_TRIAL_REQUESTS
  /\ (forall j, j < 1 ->
        attempt_fails
          (@network timeout_network (n_gets (io_trace __init__) + j))
        = true)
  /\ @network timeout_network (n_gets (io_trace __init__) + 1)
     = Throws (OtherError "requests.exceptions.ReadTimeout")
  /\ @_get_page_html timeout_network (Some laptop_url) __init__ =
       (Raise (OtherError "requests.exceptions.ReadTimeout"),
        record_event
          (EvGet laptop_url
             (headers (Nat.iter 1 (failed_attempt laptop_url) __init__)))
          (Nat.iter 1 (failed_attempt laptop_url) __init__)).
Proof.
  assert (H0 : 1 < _MAX_TRIAL_REQUESTS) by (unfold _MAX_TRIAL_REQUESTS; lia).
  assert (H1 : forall j, j < 1 ->
             attempt_fails
               (@network timeout_network (n_gets (io_trace __init__) + j))
             = true).
  { intros j Hj. destruct j as [|j]; [reflexivity | lia]. }
  split; [exact H0|]. split; [exact H1|]. split; [reflexivity|].
  apply (@unhandled_exception_propagates timeout_network laptop_url 1
           (OtherError "requests.exceptions.ReadTimeout") __init__
           H0 H1 eq_refl); discriminate.
Defined.

(* ================================================================== *)
(** * The identity and the headers *)

Lemma consistent_in_pool (self : AmazonClient) :
  identity_consistent self -> In (User_Agent (headers self)) _USER_AGENT_LIST.
Proof. intros (B & ->). now apply nth_In. Qed.

Lemma _change_user_agent_consistent (self : AmazonClient) :
  identity_consistent (_change_user_agent self).
Proof.
  split; cbn [_change_user_agent current_user_agent_index headers User_Agent].
  - apply Nat.mod_upper_bound. discriminate.
  - reflexivity.
Qed.

(** X5.  A rotation always leaves the client with an index inside the
    pool and the [User-Agent] of that index; on a client whose identity
    is consistent it changes the [User-Agent], and a second rotation
    brings index and headers back: the pool has two entries. *)
Theorem rotation_has_period_two (self : AmazonClient) :
  identity_consistent self ->
  identity_consistent (_change_user_agent self)
  /\ User_Agent (headers (_change_user_agent self))
     <> User_Agent (headers self)
  /\ current_user_agent_index (_change_user_agent (_change_user_agent self))
     = current_user_agent_index self
  /\ headers (_change_user_agent (_change_user_agent self)) = headers self.
Proof.
  intros (B & U). split; [apply _change_user_agent_consistent|].
  destruct self as [i [h ua a] b l p t].
  cbn [current_user_agent_index headers User_Agent] in B, U.
  cbn [_change_user_agent current_user_agent_index headers User_Agent
       Host Accept].
  change (List.length _USER_AGENT_LIST) with 2 in *.
  destruct i as [|[|i]]; [| |lia]; subst ua; repeat split; discriminate.
Qed.

Section Sent.
Context {lib : HtmlLibrary} {net : Network}.

Lemma fetch_sends (remaining : nat) (url : option string) :
  forall (self self' : AmazonClient) (r : result string),
  _get_page_html_loop remaining url self = (r, self') ->
  identity_consistent self ->
  exists evs,
    io_trace self' = io_trace self ++ evs
    /\ Forall (sent_as (Host (headers self)) (Accept (headers self))) evs
    /\ Host (headers self') = Host (headers self)
    /\ Accept (headers self') = Accept (headers self)
    /\ identity_consistent self'.
Proof.
  induction remaining as [|n IH]; intros self self' r H C;
    cbn [_get_page_html_loop] in H.
  - injection H as _ <-. exists []. rewrite app_nil_r. repeat split; auto; apply C.
  - destruct url as [u|].
    + rewrite _get_Some in H.
      assert (R : _get_page_html_loop n (Some u) (failed_attempt u self) = (r, self') ->
                  exists evs,
                    io_trace self' = io_trace self ++ evs
                    /\ Forall (sent_as (Host (headers self)) (Accept (headers self))) evs
                    /\ Host (headers self') = Host (headers self)
                    /\ Accept (headers self') = Accept (headers self)
                    /\ identity_consistent self').
      { intros K. destruct (IH _ _ _ K) as (evs & T & F & Hh & Ha & C').
        - apply (_change_user_agent_consistent
                   (record_event (EvGet u (headers self)) self)).
        - exists ([EvGet u (headers self); EvSleep _WAIT_TIME_BETWEEN_REQUESTS] ++ evs).
          rewrite T, io_trace_failed_attempt, <- app_assoc.
          split; [reflexivity|]. split; [|auto].
          constructor; [|constructor; [reflexivity | exact F]].
          repeat split. now apply consistent_in_pool. }
      assert (D : forall r0, (r0, record_event (EvGet u (headers self)) self) = (r, self') ->
                  exists evs,
                    io_trace self' = io_trace self ++ evs
                    /\ Forall (sent_as (Host (headers self)) (Accept (headers self))) evs
                    /\ Host (headers self') = Host (headers self)
                    /\ Accept (headers self') = Accept (headers self)
                    /\ identity_consistent self').
      { intros r0 K. injection K as _ <-. exists [EvGet u (headers self)].
        split; [reflexivity|]. split; [|auto].
        constructor; [|constructor].
        repeat split. now apply consistent_in_pool. }
      revert H. destruct (network (n_gets (io_trace self))) as [res|e].
      * destruct (status_code res =? 200)%Z.
        -- destruct (_check_page (text res)); [apply D | apply R].
        -- apply R.
      * destruct (handled e); [apply R | apply D].
    + cbn in H. injection H as _ <-. exists []. rewrite app_nil_r.
      repeat split; auto; apply C.
Qed.

Lemma extract_products_headers (products : list Tag) (max_product_nb : Z) :
  forall (self self' : AmazonClient) (r : result unit),
  extract_products products max_product_nb self = (r, self') ->
  headers self' = headers self
  /\ current_user_agent_index self' = current_user_agent_index self.
Proof.
  induction products as [|p rest IH]; intros self self' r;
    cbn [extract_products].
  - intros H. injection H as _ <-. auto.
  - destruct (len (product_dict_list self) >=? max_product_nb)%Z.
    + intros H. injection H as _ <-. auto.
    + destruct (extract_product (base_url self) p) as [d|e].
      * intros H. apply IH in H. exact H.
      * intros H. injection H as _ <-. auto.
Qed.

Lemma loop_sends (fuel : nat) :
  forall (url : option string) (max_product_nb : Z)
         (self self' : AmazonClient) (r : result unit),
  _get_products_loop fuel url max_product_nb self = Some (r, self') ->
  identity_consistent self ->
  exists evs,
    io_trace self' = io_trace self ++ evs
    /\ Forall (sent_as (Host (headers self)) (Accept (headers self))) evs
    /\ Host (headers self') = Host (headers self)
    /\ Accept (headers self') = Accept (headers self)
    /\ identity_consistent self'.
Proof.
  induction fuel as [|f IH]; intros url max_product_nb self self' r;
    cbn [_get_products_loop];
    destruct (len (product_dict_list self) <? max_product_nb)%Z.
  1: discriminate.
  1, 3: intros H C; injection H as _ <-; exists []; rewrite app_nil_r;
    repeat split; auto; apply C.
  destruct (_get_page_html url self) as [[page|e] self1] eqn:FE; intros H C;
    destruct (fetch_sends _ _ _ _ _ FE C) as (evs1 & T1 & F1 & H1 & A1 & C1).
  2:{ injection H as _ <-. exists evs1. auto. }
  unfold _extract_page in H.
  destruct (extract_products
              (select_products (BeautifulSoup page) CSS_SELECTORS_values [])
              max_product_nb (append_page page self1)) as [r1 self2] eqn:X.
  destruct (extract_products_headers _ _ _ _ _ X) as (HH & HI).
  destruct (extract_products_spec _ _ _ _ _ X) as (new & _ & (_ & T2 & _) & _).
  cbn [append_page headers current_user_agent_index io_trace] in HH, HI, T2.
  assert (C2 : identity_consistent self2).
  { unfold identity_consistent. rewrite HH, HI. exact C1. }
  assert (LAST : exists evs,
             io_trace self2 = io_trace self ++ evs
             /\ Forall (sent_as (Host (headers self)) (Accept (headers self))) evs
             /\ Host (headers self2) = Host (headers self)
             /\ Accept (headers self2) = Accept (headers self)
             /\ identity_consistent self2).
  { exists evs1. rewrite T2, HH. auto. }
  destruct r1 as [[]|e1]; [|injection H as _ <-; exact LAST].
  destruct (_get_next_page_url (base_url self2) (BeautifulSoup page))
    as [next|e2]; [|injection H as _ <-; exact LAST].
  destruct (IH _ _ _ _ _ H C2) as (evs2 & T3 & F3 & H3 & A3 & C3).
  rewrite HH, H1, A1 in *.
  exists (evs1 ++ evs2). rewrite T3, T2, T1, <- app_assoc.
  split; [reflexivity|]. split; [|auto].
  apply Forall_app. auto.
Qed.

(** X6.  Every request a call of [_get_products] sends carries the
    [Host] that [_update_headers] took from the first URL (it is never
    set again, wherever the next-page links lead), the [Accept] of the
    client and a [User-Agent] of the pool; every delay is the fixed one;
    and the call leaves the identity consistent. *)
Theorem session_requests (fuel : nat) (keywords search_url : string)
  (max_product_nb : Z) (self self' : AmazonClient)
  (r : result (list product_dict)) :
  identity_consistent self ->
  _get_products fuel keywords search_url max_product_nb self = Some (r, self') ->
  exists evs,
    io_trace self' = io_trace self ++ evs
    /\ Forall (sent_as (Host (headers self')) (Accept (headers self))) evs
    /\ Accept (headers self') = Accept (headers self)
    /\ identity_consistent self'.
Proof.
  intros C. unfold _get_products.
  assert (TRIV : exists evs,
             io_trace self = io_trace self ++ evs
             /\ Forall (sent_as (Host (headers self)) (Accept (headers self))) evs
             /\ Accept (headers self) = Accept (headers self)
             /\ identity_consistent self).
  { exists []. rewrite app_nil_r. auto. }
  destruct (match search_url with
            | EmptyString => _get_search_url keywords
            | String _ _ => Ok search_url
            end) as [u0|e].
  2:{ intros H. injection H as _ <-. exact TRIV. }
  unfold _update_headers.
  destruct (nth_error (split "://" u0) 1) as [rest|].
  2:{ intros H. injection H as _ <-. exact TRIV. }
  match goal with
  | |- context [_get_products_loop fuel (Some u0) max_product_nb ?s] =>
      set (self0 := s)
  end.
  assert (C0 : identity_consistent self0) by exact C.
  destruct (_get_products_loop fuel (Some u0) max_product_nb self0)
    as [[r0 self2]|] eqn:LP; [|discriminate].
  destruct (loop_sends _ _ _ _ _ _ LP C0) as (evs & T & F & Hh & Ha & C2).
  assert (G : exists evs,
             io_trace self2 = io_trace self ++ evs
             /\ Forall (sent_as (Host (headers self2)) (Accept (headers self))) evs
             /\ Accept (headers self2) = Accept (headers self)
             /\ identity_consistent self2).
  { exists evs. rewrite Hh. auto. }
  destruct r0 as [[]|e0]; intros H; injection H as _ <-; exact G.
Qed.

End Sent.

Lemma rotation_has_period_two_witness :
  identity_consistent __init__
  /\ identity_consistent (_change_user_agent __init__)
  /\ User_Agent (headers (_change_user_agent __init__))
     <> User_Agent (headers __init__)
  /\ current_user_agent_index (_change_user_agent (_change_user_agent __init__))
     = current_user_agent_index __init__
  /\ headers (_change_user_agent (_change_user_agent __init__))
     = headers __init__.
Proof.
  assert (C : identity_consistent __init__)
    by (split; [apply Nat.lt_0_succ | reflexivity]).
  split; [exact C|]. exact (rotation_has_period_two __init__ C).
Defined.

Lemma session_requests_witness :
  identity_consistent __init__
  /\ @_get_products three_page_library three_page_network
       5 "laptop" EmptyString 5 __init__
     = Some (Ok five_records, client_after_five)
  /\ exists evs,
       io_trace client_after_five = io_trace __init__ ++ evs
       /\ Forall (sent_as (Host (headers client_after_five))
                    (Accept (headers __init__))) evs
       /\ Accept (headers client_after_five) = Accept (headers __init__)
       /\ identity_consistent client_after_five.
Proof.
  assert (C : identity_consistent __init__)
    by (split; [apply Nat.lt_0_succ | reflexivity]).
  assert (H : @_get_products three_page_library three_page_network
                5 "laptop" EmptyString 5 __init__
              = Some (Ok five_records, client_after_five))
    by (vm_compute; reflexivity).
  split; [exact C|]. split; [exact H|].
  exact (@session_requests three_page_library three_page_network
           5 "laptop" EmptyString 5 __init__ client_after_five
           (Ok five_records) C H).
Defined.

(* ================================================================== *)
(** * Further properties of the aggregator *)

Section Bounds.
Context {lib : HtmlLibrary} {net : Network}.

Lemma loop_bound (fuel : nat) :
  forall (url : option string) (max_product_nb : Z)
         (self self' : AmazonClient) (r : result unit),
  _get_products_loop fuel url max_product_nb self = Some (r, self') ->
  (len (product_dict_list self) <= max_product_nb)%Z ->
  (len (product_dict_list self') <= max_product_nb)%Z.
Proof.
  induction fuel as [|f IH]; intros url max_product_nb self self' r;
    cbn [_get_products_loop];
    destruct (len (product_dict_list self) <? max_product_nb)%Z.
  1: discriminate.
  1, 3: intros H B; injection H as _ <-; exact B.
  destruct (_get_page_html url self) as [[page|e] self1] eqn:FE; intros H B;
    destruct (fetch_preserves _ _ _ _ _ FE) as (L1 & _ & _).
  2:{ injection H as _ <-. now rewrite L1. }
  unfold _extract_page in H.
  destruct (extract_products
              (select_products (BeautifulSoup page) CSS_SELECTORS_values [])
              max_product_nb (append_page page self1)) as [r1 self2] eqn:X.
  destruct (extract_products_spec _ _ _ _ _ X) as (new & _ & _ & _ & _ & U & _).
  cbn [append_page product_dict_list] in U. rewrite L1 in U. specialize (U B).
  destruct r1 as [[]|e1]; [|injection H as _ <-; exact U].
  destruct (_get_next_page_url (base_url self2) (BeautifulSoup page))
    as [next|e2]; [|injection H as _ <-; exact U].
  now apply (IH _ _ _ _ _ H).
Qed.

(** X7.  A call of [_get_products] on a client that holds no more
    records than the target never takes the client beyond the target,
    however it ends; and when it returns, it returns exactly
    [max_product_nb] records: the loop has no other normal exit, so a
    shorter result is never returned. *)
Theorem returns_exactly_target (fuel : nat) (keywords search_url : string)
  (max_product_nb : Z) (self self' : AmazonClient)
  (r : result (list product_dict)) :
  (len (product_dict_list self) <= max_product_nb)%Z ->
  _get_products fuel keywords search_url max_product_nb self = Some (r, self') ->
  (len (product_dict_list self') <= max_product_nb)%Z
  /\ (forall records, r = Ok records -> len records = max_product_nb).
Proof.
  intros B. unfold _get_products.
  destruct (match search_url with
            | EmptyString => _get_search_url keywords
            | String _ _ => Ok search_url
            end) as [u0|e].
  2:{ intros H. injection H as <- <-. split; [exact B | discriminate]. }
  destruct (_update_headers u0 self) as [[[]|e] self0] eqn:UH;
    destruct (_update_headers_spec _ _ _ _ UH) as (_ & _ & L0 & S0).
  2:{ intros H. injection H as <- <-. rewrite (S0 e eq_refl).
      split; [exact B | discriminate]. }
  destruct (_get_products_loop fuel (Some u0) max_product_nb self0)
    as [[r0 self2]|] eqn:LP; [|discriminate].
  rewrite <- L0 in B. pose proof (loop_bound _ _ _ _ _ _ LP B) as U.
  destruct (loop_invariant _ _ _ _ _ _ LP) as (_ & _ & _ & _ & _ & _ & _ & _ & _ & _ & M).
  destruct r0 as [[]|e0]; intros H; injection H as <- <-;
    (split; [exact U|]).
  - intros records [= <-]. specialize (M eq_refl). lia.
  - discriminate.
Qed.

Lemma visited_valid (base : option string) (t0 : list event)
  (url : option string) (evs : list event) (pages : list string) :
  visited base t0 url evs pages ->
  Forall (fun page => _check_page page = true) pages
  /\ List.length pages <= n_gets evs.
Proof.
  induction 1 as [t0 url evs F | t0 u seg h page next evs pages F N V X W IH].
  - split; [constructor | simpl; lia].
  - destruct IH as (FV & LN). split; [now constructor|].
    rewrite n_gets_app. unfold n_gets at 2. cbn [filter is_get List.length].
    fold (n_gets evs). simpl. lia.
Qed.

(** X8.  Every page a call of [_get_products] stores in [html_pages]
    (and parses) has passed [_check_page]: a block page is never stored
    nor extracted from.  Each stored page answers a request of its own,
    so the call has sent at least as many requests as it stored
    pages. *)
Theorem stored_pages_are_valid (fuel : nat) (keywords search_url : string)
  (max_product_nb : Z) (self self' : AmazonClient)
  (r : result (list product_dict)) :
  _get_products fuel keywords search_url max_product_nb self = Some (r, self') ->
  exists pages,
    html_pages self' = html_pages self ++ pages
    /\ Forall (fun page => _check_page page = true) pages
    /\ n_gets (io_trace self) + List.length pages <= n_gets (io_trace self').
Proof.
  assert (TRIV : exists pages,
             html_pages self = html_pages self ++ pages
             /\ Forall (fun page => _check_page page = true) pages
             /\ n_gets (io_trace self) + List.length pages
                <= n_gets (io_trace self)).
  { exists []. rewrite app_nil_r. split; [auto|]. split; [constructor|].
    simpl. lia. }
  unfold _get_products.
  destruct (match search_url with
            | EmptyString => _get_search_url keywords
            | String _ _ => Ok search_url
            end) as [u0|e].
  2:{ intros H. injection H as _ <-. exact TRIV. }
  destruct (_update_headers u0 self) as [[[]|e] self0] eqn:UH;
    destruct (_update_headers_spec _ _ _ _ UH) as (T0 & P0 & _ & S0).
  2:{ intros H. injection H as _ <-. rewrite (S0 e eq_refl). exact TRIV. }
  destruct (_get_products_loop fuel (Some u0) max_product_nb self0)
    as [[r0 self2]|] eqn:LP; [|discriminate].
  destruct (loop_invariant _ _ _ _ _ _ LP)
    as (evs & pages & new & T & P & _ & _ & W & _).
  destruct (visited_valid _ _ _ _ _ W) as (FV & LN).
  assert (G : exists pages,
             html_pages self2 = html_pages self ++ pages
             /\ Forall (fun page => _check_page page = true) pages
             /\ n_gets (io_trace self) + List.length pages
                <= n_gets (io_trace self2)).
  { exists pages. rewrite P, P0, T, T0, n_gets_app.
    split; [reflexivity|]. split; [exact FV | lia]. }
  destruct r0 as [[]|e0]; intros H; injection H as _ <-; exact G.
Qed.

End Bounds.

Lemma returns_exactly_target_witness :
  (len (product_dict_list __init__) <= 5)%Z
  /\ @_get_products three_page_library three_page_network
       5 "laptop" EmptyString 5 __init__
     = Some (Ok five_records, client_after_five)
  /\ (len (product_dict_list client_after_five) <= 5)%Z
  /\ (forall records, Ok five_records = Ok records -> len records = 5%Z).
Proof.
  assert (B : (len (product_dict_list __init__) <= 5)%Z)
    by (vm_compute; discriminate).
  assert (H : @_get_products three_page_library three_page_network
                5 "laptop" EmptyString 5 __init__
              = Some (Ok five_records, client_after_five))
    by (vm_compute; reflexivity).
  split; [exact B|]. split; [exact H|].
  exact (@returns_exactly_target three_page_library three_page_network
           5 "laptop" EmptyString 5 __init__ client_after_five
           (Ok five_records) B H).
Defined.

Lemma stored_pages_are_valid_witness :
  @_get_products three_page_library three_page_network
    5 "laptop" EmptyString 5 __init__
  = Some (Ok five_records, client_after_five)
  /\ exists pages,
       html_pages client_after_five = html_pages __init__ ++ pages
       /\ Forall (fun page => _check_page page = true) pages
       /\ n_gets (io_trace __init__) + List.length pages
          <= n_gets (io_trace client_after_five).
Proof.
  assert (H : @_get_products three_page_library three_page_network
                5 "laptop" EmptyString 5 __init__
              = Some (Ok five_records, client_after_five))
    by (vm_compute; reflexivity).
  split; [exact H|].
  exact (@stored_pages_are_valid three_page_library three_page_network
           5 "laptop" EmptyString 5 __init__ client_after_five
           (Ok five_records) H).
Defined.

(* ================================================================== *)
(** * Splitting: the host of a URL and the identifier of a product *)

Lemma append_nil_r (s : string) : (s ++ EmptyString)%string = s.
Proof. induction s as [|c s IH]; simpl; [reflexivity | now rewrite IH]. Qed.

Lemma append_assoc (a b c : string) :
  ((a ++ b) ++ c)%string = (a ++ (b ++ c))%string.
Proof. induction a as [|x a IH]; simpl; [reflexivity | now rewrite IH]. Qed.

Lemma contains_cons_false (kw : string) (c : ascii) (s : string) :
  contains kw (String c s) = false ->
  startswith kw (String c s) = false /\ contains kw s = false.
Proof. cbn [contains]. now intros H%orb_false_iff. Qed.

Lemma split_go_nonempty (sep : string) (s : string) :
  forall skip cur, split_go sep skip cur s <> [].
Proof.
  induction s as [|c s IH]; intros skip cur; cbn [split_go]; [discriminate|].
  destruct skip; [|apply IH].
  destruct (startswith sep (String c s)); [discriminate | apply IH].
Qed.

(** A string the separator does not occur in is its own single piece. *)
Lemma split_go_absent (sep : string) (s : string) :
  forall cur, contains sep s = false ->
  split_go sep 0 cur s = [(cur ++ s)%string].
Proof.
  induction s as [|c s IH]; intros cur H; cbn [split_go].
  - now rewrite append_nil_r.
  - apply contains_cons_false in H as (S & C). rewrite S, (IH _ C).
    now rewrite append_assoc.
Qed.

(** A string the separator occurs in has two pieces at least. *)
Lemma split_go_present (c0 : ascii) (sep' : string) (s : string) :
  forall cur, contains (String c0 sep') s = true ->
  exists a b rest, split_go (String c0 sep') 0 cur s = a :: b :: rest.
Proof.
  induction s as [|c s IH]; intros cur H.
  - discriminate H.
  - cbn [contains] in H. cbn [split_go].
    destruct (startswith (String c0 sep') (String c s)) eqn:S.
    + destruct (split_go (String c0 sep') (String.length (String c0 sep') - 1)
                  EmptyString s) as [|b rest] eqn:E.
      * now apply split_go_nonempty in E.
      * now exists cur, b, rest.
    + simpl in H. apply IH. exact H.
Qed.

(** Characters that cannot open the separator go to the current piece. *)
Lemma split_go_skip_prefix (c0 : ascii) (sep' : string) (p : string) :
  forall cur s, contains (String c0 EmptyString) p = false ->
  split_go (String c0 sep') 0 cur (p ++ s)
  = split_go (String c0 sep') 0 (cur ++ p) s.
Proof.
  induction p as [|x p IH]; intros cur s H.
  - now rewrite append_nil_r.
  - apply contains_cons_false in H as (S & C).
    cbn [append split_go]. cbn [startswith] in S |- *.
    rewrite andb_true_r in S. rewrite S. cbn [andb].
    rewrite (IH _ _ C). now rewrite append_assoc.
Qed.

(** The first piece begins with the piece being read. *)
Lemma split_go_head (sep : string) (s : string) :
  forall cur, exists x rest,
    split_go sep 0 cur s = (cur ++ x)%string :: rest.
Proof.
  induction s as [|c s IH]; intros cur; cbn [split_go].
  - exists EmptyString, []. now rewrite append_nil_r.
  - destruct (startswith sep (String c s)).
    + exists EmptyString. eexists. now rewrite append_nil_r.
    + destruct (IH (cur ++ String c EmptyString)%string) as (x & rest & ->).
      exists (String c x), rest. now rewrite append_assoc.
Qed.

Section UpdateHeaders.
Context {lib : HtmlLibrary} {net : Network}.

(** X9.  [_update_headers] raises [IndexError] exactly on a URL in which
    [://] does not occur, and then leaves the client as it was; on any
    other URL it returns. *)
Theorem update_headers_needs_scheme (search_url : string) (self : AmazonClient) :
  ((~ exists pre post, search_url = (pre ++ "://" ++ post)%string) <->
   _update_headers search_url self = (Raise IndexError, self))
  /\ ((exists pre post, search_url = (pre ++ "://" ++ post)%string) <->
      exists self0, _update_headers search_url self = (Ok tt, self0)).
Proof.
  unfold _update_headers, split.
  destruct (contains "://" search_url) eqn:C.
  - assert (E : exists pre post, search_url = (pre ++ "://" ++ post)%string)
      by now apply contains_spec.
    destruct (split_go_present _ _ _ EmptyString C) as (a & b & rest & ->).
    cbn [nth_error]. split; split.
    + intros N. now destruct N.
    + discriminate.
    + intros _. eexists. reflexivity.
    + intros _. exact E.
  - assert (N : ~ exists pre post, search_url = (pre ++ "://" ++ post)%string).
    { intros E. apply contains_spec in E. congruence. }
    rewrite (split_go_absent _ _ _ C). cbn [nth_error]. split; split.
    + reflexivity.
    + intros _. exact N.
    + intros E. now destruct N.
    + intros (self0 & H). discriminate H.
Qed.

(** X10.  On a URL made of a scheme, [://], a host and then nothing or a
    path that begins with a slash, where neither the scheme nor the host
    holds a colon and the host holds no slash, [_update_headers] sets
    the [Host] header to the host and [base_url] to [https://] followed
    by the host and a slash, whatever the scheme, and changes nothing
    else. *)
Theorem update_headers_sets_host (scheme host tail : string)
  (self : AmazonClient) :
  contains ":" scheme = false ->
  contains ":" host = false ->
  contains "/" host = false ->
  tail = EmptyString \/ startswith "/" tail = true ->
  _update_headers (scheme ++ "://" ++ host ++ tail) self =
  (Ok tt,
   {| current_user_agent_index := current_user_agent_index self;
      headers := {| Host := host;
                    User_Agent := User_Agent (headers self);
                    Accept := Accept (headers self) |};
      base_url := Some ("https://" ++ host ++ "/")%string;
      product_dict_list := product_dict_list self;
      html_pages := html_pages self;
      io_trace := io_trace self |}).
Proof.
  intros Hs Hc Hh Ht. unfold _update_headers, split.
  rewrite (split_go_skip_prefix ":" "//" scheme EmptyString _ Hs).
  cbn [append split_go startswith chr_eqb Ascii.eqb Bool.eqb andb
       String.length Nat.sub nth_error].
  rewrite (split_go_skip_prefix ":" "//" host EmptyString tail Hc).
  cbn [append].
  assert (P : exists y rest,
            split_go "://" 0 host tail = (host ++ y)%string :: rest
            /\ (y = EmptyString \/ startswith "/" y = true)).
  { destruct Ht as [->|Ht].
    - exists EmptyString, []. cbn [split_go]. rewrite append_nil_r. auto.
    - destruct (split_go_head "://" tail host) as (y & rest & E).
      exists y, rest. split; [exact E|].
      destruct tail as [|c tail]; [discriminate Ht|].
      cbn [startswith] in Ht. apply andb_true_iff in Ht as (Hc0 & _).
      apply chr_eqb_eq in Hc0. subst c.
      cbn [split_go startswith chr_eqb Ascii.eqb Bool.eqb andb] in E.
      destruct (split_go_head "://" tail (host ++ "/")%string) as (z & rest' & E').
      rewrite E' in E. injection E as E _.
      rewrite append_assoc in E.
      assert (Y : y = ("/" ++ z)%string).
      { clear -E. induction host as [|x host IH]; simpl in E; [now subst|].
        injection E as E. now apply IH. }
      subst y. now right. }
  destruct P as (y & rest & -> & Hy). cbn [nth_error].
  rewrite (split_go_skip_prefix "/" EmptyString host EmptyString y Hh).
  cbn [append].
  assert (D : hd EmptyString (split_go "/" 0 host y) = host).
  { destruct Hy as [->|Hy]; [reflexivity|].
    destruct y as [|c y]; [discriminate Hy|].
    cbn [split_go]. now rewrite Hy. }
  now rewrite D.
Qed.

End UpdateHeaders.

Lemma update_headers_sets_host_witness :
  contains ":" "https" = false
  /\ contains ":" "www.amazon.com" = false
  /\ contains "/" "www.amazon.com" = false
  /\ ("/s?k=laptop" = EmptyString \/ startswith "/" "/s?k=laptop" = true)
  /\ _update_headers laptop_url __init__ = (Ok tt, laptop_client).
Proof.
  split; [reflexivity|]. split; [reflexivity|]. split; [reflexivity|].
  split; [right; reflexivity|].
  exact (update_headers_sets_host "https" "www.amazon.com" "/s?k=laptop"
           __init__ eq_refl eq_refl eq_refl (or_intror eq_refl)).
Defined.

(* ================================================================== *)
(** * Further properties of field extraction *)

Section MoreFields.
Context {lib : HtmlLibrary}.

Lemma _get_title_loop_fallback (product : Tag) (before after : list string)
  (selector t : string) :
  (forall s, In s before ->
     _css_select product s = None \/ _css_select product s = Some EmptyString) ->
  _css_select product selector = Some t -> t <> EmptyString ->
  _get_title_loop product (before ++ selector :: after) = t.
Proof.
  intros B S N. induction before as [|s before IH]; cbn [app _get_title_loop].
  - rewrite S. destruct t; [now destruct N | reflexivity].
  - destruct (B s (or_introl eq_refl)) as [-> | ->];
      apply IH; intros s' Hs'; apply B; now right.
Qed.

Lemma _get_title_loop_nonempty (product : Tag) (selectors : list string) :
  _get_title_loop product selectors <> EmptyString.
Proof.
  induction selectors as [|s rest IH]; cbn [_get_title_loop]; [discriminate|].
  destruct (_css_select product s) as [[|c t]|]; try exact IH. discriminate.
Qed.

(** X11.  [_get_title] returns the stripped text of the first element of
    the first title selector, in the order of the list, for which that
    text is not empty: selectors that find nothing or an element with
    blank text are passed over.  When every selector is passed over the
    title is ['Title not found']; it is never the empty string. *)
Theorem title_falls_back (product : Tag) :
  (forall before selector after t,
      title_selectors = before ++ selector :: after ->
      (forall s, In s before ->
         _css_select product s = None
         \/ _css_select product s = Some EmptyString) ->
      _css_select product selector = Some t -> t <> EmptyString ->
      _get_title product = t)
  /\ ((forall s, In s title_selectors ->
         _css_select product s = None
         \/ _css_select product s = Some EmptyString) ->
      _get_title product = "Title not found")
  /\ _get_title product <> EmptyString.
Proof.
  split; [|split].
  - intros before selector after t E B S N. unfold _get_title. rewrite E.
    now apply _get_title_loop_fallback.
  - unfold _get_title. induction title_selectors as [|s rest IH]; intros H.
    + reflexivity.
    + cbn [_get_title_loop].
      destruct (H s (or_introl eq_refl)) as [-> | ->];
        apply IH; intros s' Hs'; apply H; now right.
  - apply _get_title_loop_nonempty.
Qed.

Lemma startswith_append (p post : string) : startswith p (p ++ post) = true.
Proof. apply startswith_spec. now exists post. Qed.

Lemma search_rating_sound (s g : string) :
  search_rating s = Some g ->
  exists pre a b c post,
    s = (pre ++ String a (String b (String c " out of 5")) ++ post)%string
    /\ g = String a (String b (String c EmptyString))
    /\ is_digit a = true /\ re_dot b = true /\ is_digit c = true.
Proof.
  induction s as [|a s IH]; cbn [search_rating]; [discriminate|].
  destruct s as [|b [|c r]]; try discriminate.
  destruct (is_digit a && re_dot b && is_digit c && startswith " out of 5" r)
    eqn:K.
  - intros [= <-]. apply andb_true_iff in K as (K & S).
    apply andb_true_iff in K as (K & C). apply andb_true_iff in K as (A & B).
    apply startswith_spec in S as (post & ->).
    exists EmptyString, a, b, c, post. auto.
  - intros H. destruct (IH H) as (pre & a' & b' & c' & post & E & G & D).
    exists (String a pre), a', b', c', post. cbn [append]. rewrite E. auto.
Qed.

Lemma search_rating_complete (s : string) :
  rating_occurs s -> exists g, search_rating s = Some g.
Proof.
  intros (pre & a & b & c & post & -> & A & B & C).
  induction pre as [|x pre IH].
  - pose proof (startswith_append " out of 5" post) as S.
    cbn [append] in S |- *. cbn [search_rating].
    rewrite A, B, C, S. now eexists.
  - destruct IH as (g & IH).
    remember (pre ++ String a (String b (String c " out of 5")) ++ post)%string
      as s' eqn:E.
    change (String x pre ++ String a (String b (String c " out of 5")) ++ post)%string
      with (String x (pre ++ String a (String b (String c " out of 5")) ++ post))%string.
    rewrite <- E. cbn [search_rating].
    destruct s' as [|y [|z r]].
    + discriminate IH.
    + destruct pre as [|p0 [|p1 pre]]; discriminate E.
    + destruct (is_digit x && re_dot y && is_digit z && startswith " out of 5" r);
        [now eexists | now exists g].
Qed.

(** X12.  [_get_rating] gives [float('nan')] exactly when the rating
    pattern occurs nowhere in the markup of the container; and a number
    it returns is read from three characters of the markup that the
    words [ out of 5] follow, with a comma between the digits taken for
    a decimal point. *)
Theorem rating_unknown_iff (product : Tag) :
  (_get_rating product = Ok NaN <-> ~ rating_occurs (tag_str product))
  /\ (forall x, _get_rating product = Ok (Number x) ->
        exists pre a b c post,
          tag_str product
          = (pre ++ String a (String b (String c " out of 5")) ++ post)%string
          /\ is_digit a = true /\ is_digit c = true
          /\ py_float (replace_chr "," "."
                         (String a (String b (String c EmptyString))))
             = Some x).
Proof.
  unfold _get_rating. split.
  - destruct (search_rating (tag_str product)) as [g|] eqn:S.
    + split.
      * destruct (py_float (replace_chr "," "." g)); discriminate.
      * intros N. destruct N.
        destruct (search_rating_sound _ _ S) as (pre & a & b & c & post & E & _ & D).
        now exists pre, a, b, c, post.
    + split; [|reflexivity]. intros _ O.
      destruct (search_rating_complete _ O) as (g & G). congruence.
  - intros x. destruct (search_rating (tag_str product)) as [g|] eqn:S;
      [|discriminate].
    destruct (search_rating_sound _ _ S)
      as (pre & a & b & c & post & E & -> & A & _ & C).
    destruct (py_float _) as [y|] eqn:F; [|discriminate].
    intros [= <-]. now exists pre, a, b, c, post.
Qed.

Lemma _get_n_ratings_loop_nan (product : Tag) (selectors : list string) :
  _get_n_ratings_loop product selectors = Ok NaN <->
  forall selector, In selector selectors ->
    exists t, _css_select product selector = Some t
              /\ py_int (replace_chr "," EmptyString t) = None.
Proof.
  induction selectors as [|s rest IH]; cbn [_get_n_ratings_loop].
  - split; [intros _ s [] | reflexivity].
  - destruct (_css_select product s) as [t|] eqn:S.
    + destruct (py_int (replace_chr "," EmptyString t)) as [n|] eqn:P.
      * split; [discriminate|]. intros H.
        destruct (H s (or_introl eq_refl)) as (t' & S' & P').
        rewrite S in S'. injection S' as <-. congruence.
      * rewrite IH. split.
        -- intros H s' [<-|Hs']; [now exists t | now apply H].
        -- intros H s' Hs'. apply H. now right.
    + split; [discriminate|]. intros H.
      destruct (H s (or_introl eq_refl)) as (t' & S' & _). congruence.
Qed.

(** X13.  [_get_n_ratings] gives [float('nan')] exactly when each of its
    three selectors finds an element and none of the three texts, commas
    removed, reads as an integer; and an integer it returns is the text
    of the first element of one of its selectors, commas removed. *)
Theorem review_count_unknown_iff (product : Tag) :
  (_get_n_ratings product = Ok NaN <->
   forall selector, In selector n_ratings_selectors ->
     exists t, _css_select product selector = Some t
               /\ py_int (replace_chr "," EmptyString t) = None)
  /\ (forall n, _get_n_ratings product = Ok (Number n) ->
        exists selector t,
          In selector n_ratings_selectors
          /\ _css_select product selector = Some t
          /\ py_int (replace_chr "," EmptyString t) = Some n).
Proof.
  split; [apply _get_n_ratings_loop_nan|].
  intros n. unfold _get_n_ratings.
  induction n_ratings_selectors as [|s rest IH]; cbn [_get_n_ratings_loop].
  - discriminate.
  - destruct (_css_select product s) as [t|] eqn:S; [|discriminate].
    destruct (py_int (replace_chr "," EmptyString t)) as [m|] eqn:P.
    + intros [= <-]. exists s, t. split; [now left | auto].
    + intros H. destruct (IH H) as (s' & t' & Hs' & R).
      exists s', t'. split; [now right | exact R].
Qed.

Lemma last_cons_nonempty {A} (x : A) (l : list A) (d : A) :
  l <> [] -> last (x :: l) d = last l d.
Proof. destruct l; [now intros N | reflexivity]. Qed.

(** The last piece of a split at slashes: what follows the last slash. *)
Lemma split_slash_last (s : string) :
  forall cur, contains "/" cur = false ->
  exists pre a,
    last (split_go "/" 0 cur s) EmptyString = a
    /\ (cur ++ s)%string = (pre ++ a)%string
    /\ contains "/" a = false
    /\ (pre = EmptyString \/ exists p, pre = (p ++ "/")%string).
Proof.
  induction s as [|c s IH]; intros cur C.
  - exists EmptyString, cur. cbn [split_go last append].
    rewrite append_nil_r. auto.
  - cbn [split_go startswith]. rewrite andb_true_r.
    destruct (chr_eqb "/" c) eqn:K.
    + apply chr_eqb_eq in K. subst c.
      cbn [String.length Nat.sub].
      rewrite last_cons_nonempty by apply split_go_nonempty.
      destruct (IH EmptyString eq_refl) as (pre & a & L & E & Ca & Hp).
      cbn [append] in E.
      exists (cur ++ "/" ++ pre)%string, a.
      split; [exact L|]. split; [|split; [exact Ca|]].
      * rewrite !append_assoc. cbn [append]. now rewrite E.
      * right. destruct Hp as [->|(p & ->)].
        -- exists cur. now rewrite append_nil_r.
        -- exists (cur ++ "/" ++ p)%string. now rewrite !append_assoc.
    + destruct (IH (cur ++ String c EmptyString)%string) as (pre & a & L & E & Ca & Hp).
      * clear -C K. induction cur as [|x cur IHc].
        -- cbn [append contains startswith]. rewrite K. reflexivity.
        -- apply contains_cons_false in C as (S & C').
           cbn [append contains]. rewrite (IHc C').
           cbn [startswith] in S |- *. rewrite andb_true_r in S.
           rewrite S. reflexivity.
      * exists pre, a. split; [exact L|]. split; [|auto].
        rewrite <- E, append_assoc. reflexivity.
Qed.

(** X14.  The identifier is what follows the last slash of the listing
    URL [_get_url] gives: it holds no slash, the URL is the identifier
    itself or ends with a slash and the identifier, and an empty URL
    gives an empty identifier.  When [_get_url] raises, [_get_asin]
    raises the same exception. *)
Theorem asin_is_last_segment (base : option string) (product : Tag) :
  match _get_url base product with
  | Ok u =>
      exists pre a,
        _get_asin base product = Ok a
        /\ u = (pre ++ a)%string
        /\ contains "/" a = false
        /\ (pre = EmptyString \/ exists p, pre = (p ++ "/")%string)
        /\ (u = EmptyString -> a = EmptyString)
  | Raise e => _get_asin base product = Raise e
  end.
Proof.
  unfold _get_asin. destruct (_get_url base product) as [u|e]; [|reflexivity].
  cbn [rbind]. unfold split.
  destruct (split_slash_last u EmptyString eq_refl) as (pre & a & L & E & C & P).
  cbn [append] in E. exists pre, a. rewrite L.
  split; [reflexivity|]. split; [exact E|]. split; [exact C|].
  split; [exact P|]. intros ->. now destruct pre, a.
Qed.

Lemma lstrip_spec (space : ascii -> bool) (s : string) :
  exists pre,
    s = (pre ++ lstrip space s)%string
    /\ all_chars space pre = true
    /\ (forall c r, lstrip space s = String c r -> space c = false).
Proof.
  induction s as [|a s IH]; cbn [lstrip].
  - exists EmptyString. split; [reflexivity|]. split; [reflexivity|].
    discriminate.
  - destruct (space a) eqn:A.
    + destruct IH as (pre & E & P & H). exists (String a pre).
      cbn [append all_chars]. rewrite A, P, <- E.
      split; [reflexivity|]. split; [reflexivity | exact H].
    + exists EmptyString.
      split; [reflexivity|]. split; [reflexivity|].
      intros c r [= <- _]. exact A.
Qed.

Lemma rstrip_spec (space : ascii -> bool) (s : string) :
  exists post,
    s = (rstrip space s ++ post)%string /\ all_chars space post = true.
Proof.
  induction s as [|a s IH]; cbn [rstrip].
  - now exists EmptyString.
  - destruct IH as (post & E & P).
    destruct (rstrip space s) as [|b r].
    + cbn [append] in E. destruct (space a) eqn:A.
      * exists (String a post). cbn [append all_chars]. rewrite A, P, E.
        split; reflexivity.
      * exists post. cbn [append]. rewrite E. split; [reflexivity | exact P].
    + exists post. cbn [append] in E |- *. rewrite <- E.
      split; [reflexivity | exact P].
Qed.

Lemma rstrip_last (space : ascii -> bool) (s : string) :
  forall t c, rstrip space s = (t ++ String c EmptyString)%string ->
  space c = false.
Proof.
  induction s as [|a s IH]; cbn [rstrip]; intros t c.
  - destruct t; discriminate.
  - destruct (rstrip space s) as [|b r].
    + destruct (space a) eqn:A.
      * destruct t; discriminate.
      * destruct t as [|y t]; cbn [append].
        -- intros [= <-]. exact A.
        -- intros [= _ H]. destruct t; discriminate H.
    + destruct t as [|y t]; cbn [append].
      * discriminate.
      * intros [= _ H]. now apply (IH t c).
Qed.

(** X21.  [_css_select] gives [None] when the selector finds nothing, and
    else the text of the first element found without the white space at
    its two ends: the text is the result between two runs of white
    space, and the result neither begins nor ends with white space. *)
Theorem css_select_strips (soup : Tag) (selector : string) :
  match tag_select soup selector with
  | [] => _css_select soup selector = None
  | t :: _ =>
      exists pre x post,
        _css_select soup selector = Some x
        /\ tag_text t = (pre ++ x ++ post)%string
        /\ all_chars is_space pre = true
        /\ all_chars is_space post = true
        /\ (forall c r, x = String c r -> is_space c = false)
        /\ (forall r c, x = (r ++ String c EmptyString)%string ->
            is_space c = false)
  end.
Proof.
  unfold _css_select. destruct (tag_select soup selector) as [|t rest];
    [reflexivity|].
  destruct (lstrip_spec is_space (tag_text t)) as (pre & E & P & H).
  destruct (rstrip_spec is_space (lstrip is_space (tag_text t)))
    as (post & E' & P').
  exists pre, (strip (tag_text t)), post. unfold strip.
  split; [reflexivity|]. split; [now rewrite <- E', <- E|].
  split; [exact P|]. split; [exact P'|]. split.
  - intros c r X. rewrite X in E'. cbn [append] in E'. now apply (H c _ E').
  - intros r c X. now apply (rstrip_last _ _ _ _ X).
Qed.

End MoreFields.

Lemma css_select_strips_witness :
  @tag_select single_page_library widget_pro "a.s-access-detail-page > h2"
  = [leaf (String "160"%char " Widget Pro ")]
  /\ @_css_select single_page_library widget_pro "a.s-access-detail-page > h2"
     = Some "Widget Pro"
  /\ @_css_select single_page_library widget_pro "img[src]" = None
  /\ match @tag_select single_page_library widget_pro
             "a.s-access-detail-page > h2" with
     | [] => @_css_select single_page_library widget_pro
               "a.s-access-detail-page > h2" = None
     | t :: _ =>
         exists pre x post,
           @_css_select single_page_library widget_pro
             "a.s-access-detail-page > h2" = Some x
           /\ @tag_text single_page_library t = (pre ++ x ++ post)%string
           /\ all_chars is_space pre = true
           /\ all_chars is_space post = true
           /\ (forall c r, x = String c r -> is_space c = false)
           /\ (forall r c, x = (r ++ String c EmptyString)%string ->
               is_space c = false)
     end.
Proof.
  split; [reflexivity|]. split; [reflexivity|]. split; [reflexivity|].
  exact (@css_select_strips single_page_library widget_pro
           "a.s-access-detail-page > h2").
Defined.

Lemma title_falls_back_witness :
  title_selectors = [] ++ "h5 span" :: ["a.s-access-detail-page > h2";
                                         "div div.sg-row h5 > span"]
  /\ @_css_select single_page_library widget_pro "h5 span" = Some EmptyString
  /\ @_css_select single_page_library widget_pro "a.s-access-detail-page > h2"
     = Some "Widget Pro"
  /\ @_get_title single_page_library widget_pro = "Widget Pro".
Proof.
  split; [reflexivity|]. split; [reflexivity|]. split; [reflexivity|].
  apply (proj1 (@title_falls_back single_page_library widget_pro)
           ["h5 span"] "a.s-access-detail-page > h2"
           ["div div.sg-row h5 > span"] "Widget Pro" eq_refl).
  - intros s [<-|[]]. right. reflexivity.
  - reflexivity.
  - discriminate.
Defined.

Lemma review_count_unknown_iff_witness :
  @tag_text single_page_library
    (hd empty_tag
       (@tag_select single_page_library reviewed_widget
          "div.a-row.a-size-small span.a-size-base"))
  = ("1,234" ++ String "160"%char EmptyString)%string
  /\ @_get_n_ratings single_page_library reviewed_widget
     = Ok (Number 1234%Z)
  /\ exists selector t,
       In selector n_ratings_selectors
       /\ @_css_select single_page_library reviewed_widget selector = Some t
       /\ py_int (replace_chr "," EmptyString t) = Some 1234%Z.
Proof.
  split; [reflexivity|].
  assert (H : @_get_n_ratings single_page_library reviewed_widget
              = Ok (Number 1234%Z)) by (vm_compute; reflexivity).
  split; [exact H|].
  exact (proj2 (@review_count_unknown_iff single_page_library reviewed_widget)
           1234%Z H).
Defined.

Lemma asin_is_last_segment_witness :
  @_get_url single_page_library (Some _BASE_URL) linked_widget
  = Ok "https://www.amazon.com/dp/B07XYZ"
  /\ @_get_asin single_page_library (Some _BASE_URL) linked_widget
     = Ok "B07XYZ"
  /\ match @_get_url single_page_library (Some _BASE_URL) linked_widget with
     | Ok u =>
         exists pre a,
           @_get_asin single_page_library (Some _BASE_URL) linked_widget = Ok a
           /\ u = (pre ++ a)%string
           /\ contains "/" a = false
           /\ (pre = EmptyString \/ exists p, pre = (p ++ "/")%string)
           /\ (u = EmptyString -> a = EmptyString)
     | Raise e =>
         @_get_asin single_page_library (Some _BASE_URL) linked_widget = Raise e
     end.
Proof.
  split; [reflexivity|]. split; [reflexivity|].
  exact (@asin_is_last_segment single_page_library (Some _BASE_URL)
           linked_widget).
Defined.

(* ================================================================== *)
(** * Further properties of the price classifier *)

Lemma set_add_NoDup {A} (P : A -> Prop) (eqb : A -> A -> bool) :
  (forall a b, P a -> P b -> (eqb a b = true <-> a = b)) ->
  forall (x : A) (s : list A), P x -> Forall P s -> NoDup s ->
  NoDup (set_add eqb x s).
Proof.
  intros E x s Px. induction s as [|y s IH]; intros F N.
  - repeat constructor. intros [].
  - inversion F as [|? ? Py Fs]; subst. inversion N as [|? ? Ny Ns]; subst.
    cbn [set_add]. destruct (eqb x y) eqn:B; [exact N|].
    constructor; [|now apply IH].
    destruct (set_add_In P eqb E x s Px Fs) as (_ & I).
    rewrite I. intros [->|K]; [|contradiction].
    assert (T : eqb x x = true) by now apply E. congruence.
Qed.

Lemma all_chars_app (P : ascii -> bool) (a b : string) :
  all_chars P (a ++ b) = all_chars P a && all_chars P b.
Proof.
  induction a as [|c a IH]; cbn [append all_chars]; [reflexivity|].
  now rewrite IH, andb_assoc.
Qed.

Lemma digits_go_chars (k : nat) :
  forall (s : string) (acc : Z) (n : nat) (v : Z) (m : nat) (r : string),
  String.length s <= k ->
  digits_go acc n s = (v, m, r) ->
  exists t, s = (t ++ r)%string /\ all_chars float_char t = true.
Proof.
  induction k as [|k IH]; intros s acc n v m r L.
  - destruct s; [|simpl in L; lia]. cbn. intros [= _ _ <-].
    now exists EmptyString.
  - destruct s as [|c s']; cbn [digits_go].
    + intros [= _ _ <-]. now exists EmptyString.
    + simpl in L. destruct (is_digit c) eqn:D.
      * intros H. destruct (IH s' _ _ _ _ _ ltac:(lia) H) as (t & -> & T).
        exists (String c t). split; [reflexivity|].
        cbn [all_chars]. unfold float_char at 1. now rewrite D, T.
      * destruct (chr_eqb c "_") eqn:U.
        -- destruct s' as [|d s''].
           ++ intros [= _ _ <-]. now exists EmptyString.
           ++ destruct (is_digit d) eqn:D'.
              ** simpl in L. intros H.
                 destruct (IH s'' _ _ _ _ _ ltac:(lia) H) as (t & -> & T).
                 exists (String c (String d t)). split; [reflexivity|].
                 cbn [all_chars]. unfold float_char at 1 2.
                 now rewrite U, D', T, !orb_true_r.
              ** intros [= _ _ <-]. now exists EmptyString.
        -- intros [= _ _ <-]. now exists EmptyString.
Qed.

Lemma digitpart_chars (s : string) (v : Z) (n : nat) (r : string) :
  digitpart s = Some (v, n, r) ->
  exists t, s = (t ++ r)%string /\ all_chars float_char t = true.
Proof.
  unfold digitpart. destruct s as [|c s']; [discriminate|].
  destruct (is_digit c) eqn:D; [|discriminate]. intros [= H].
  destruct (digits_go_chars _ s' _ _ _ _ _ (le_n _) H) as (t & -> & T).
  exists (String c t). split; [reflexivity|].
  cbn [all_chars]. unfold float_char at 1. now rewrite D, T.
Qed.

Lemma sign_spec (s body : string) (sg : Z) :
  sign s = (sg, body) ->
  s = body \/ s = String "+" body \/ s = String "-" body.
Proof.
  destruct s as [|c s']; [intros [= _ <-]; now left|].
  destruct c as [[] [] [] [] [] [] [] []]; cbn; intros [= _ <-]; auto.
Qed.

Lemma exponent_chars (m q : Q) (s : string) :
  exponent m s = Some q -> all_chars float_char s = true.
Proof.
  unfold exponent. destruct s as [|c s']; [reflexivity|].
  destruct (chr_eqb c "e" || chr_eqb c "E") eqn:E; [|discriminate].
  destruct (sign s') as [sg body] eqn:S.
  destruct (digitpart body) as [[[e n] r]|] eqn:D; [|discriminate].
  destruct r; [|discriminate]. intros _.
  destruct (digitpart_chars _ _ _ _ D) as (t & -> & T).
  rewrite append_nil_r in S.
  assert (C : float_char c = true).
  { unfold float_char. apply orb_true_iff in E as [-> | ->];
      now rewrite !orb_true_r. }
  cbn [all_chars]. rewrite C.
  destruct (sign_spec _ _ _ S) as [-> | [-> | ->]]; cbn [all_chars andb];
    try exact T; now rewrite T.
Qed.

Lemma float_literal_chars (s : string) (q : Q) :
  float_literal s = Some q -> all_chars float_char s = true.
Proof.
  unfold float_literal.
  destruct (digitpart s) as [[[ip n] r]|] eqn:D; [|discriminate].
  destruct (digitpart_chars _ _ _ _ D) as (t & -> & T).
  rewrite all_chars_app, T. cbn [andb].
  assert (K : forall m r0, option_map Qred (exponent m r0) = Some q ->
                           all_chars float_char r0 = true).
  { intros m r0 H. destruct (exponent m r0) as [x|] eqn:X; [|discriminate].
    now apply exponent_chars in X. }
  destruct r as [|c r']; [reflexivity|].
  destruct c as [[] [] [] [] [] [] [] []]; try apply K.
  destruct (digitpart r') as [[[fp m] r'']|] eqn:D'.
  - intros H. apply K in H.
    destruct (digitpart_chars _ _ _ _ D') as (t' & -> & T').
    cbn [all_chars]. now rewrite all_chars_app, T', H.
  - intros H. apply K in H. cbn [all_chars]. now rewrite H.
Qed.

(** A literal [py_float] reads is made of the characters of a float. *)
Lemma py_float_chars (s : string) (q : Q) :
  py_float s = Some q -> all_chars float_char s = true.
Proof.
  unfold py_float. destruct (float_literal s) as [x|] eqn:L; [|discriminate].
  intros _. now apply float_literal_chars in L.
Qed.

Lemma float_chars_have_no_comma (s : string) :
  all_chars float_char s = true -> contains "," s = false.
Proof.
  induction s as [|c s IH]; [reflexivity|].
  cbn [all_chars contains startswith]. intros H.
  apply andb_true_iff in H as (C & H). rewrite (IH H), andb_true_r, orb_false_r.
  destruct (chr_eqb "," c) eqn:K; [|reflexivity].
  apply chr_eqb_eq in K. subst c. discriminate C.
Qed.

Section MorePrices.
Context {lib : HtmlLibrary}.

Definition sets_distinct (prices : price_sets) : Prop :=
  NoDup (set_prices_per_unit prices)
  /\ NoDup (set_units prices)
  /\ NoDup (set_prices_main prices).

Lemma prices_loop_distinct (fs : list NavigableString) :
  forall prices0 prices,
  sets_canonical prices0 -> sets_distinct prices0 ->
  _get_prices_loop prices0 fs = Ok prices ->
  sets_distinct prices.
Proof.
  induction fs as [|f fs IH]; intros prices0 prices C0 N0;
    cbn [_get_prices_loop].
  - now intros [= <-].
  - pose proof (step_classify prices0 f) as S.
    destruct C0 as (CP & CM). destruct N0 as (NP & NU & NM).
    destruct (classify f) as [[|q u|q]|].
    + rewrite S. cbn [rbind]. apply IH; split; auto.
    + destruct S as (Cq & ->). cbn [rbind]. apply IH.
      * split; cbn [set_prices_per_unit set_prices_main]; [|exact CM].
        now apply (set_add_In canonical Q_eqb Q_eqb_canonical).
      * split; [|split]; cbn [set_prices_per_unit set_units set_prices_main].
        -- now apply (set_add_NoDup canonical Q_eqb Q_eqb_canonical).
        -- apply (set_add_NoDup (fun _ => True) String.eqb
                    (fun a b _ _ => String.eqb_eq a b)); auto.
           apply Forall_forall. auto.
        -- exact NM.
    + destruct S as (Cq & ->). cbn [rbind]. apply IH.
      * split; cbn [set_prices_per_unit set_prices_main]; [exact CP|].
        now apply (set_add_In canonical Q_eqb Q_eqb_canonical).
      * split; [|split]; cbn [set_prices_per_unit set_units set_prices_main];
          auto.
        now apply (set_add_NoDup canonical Q_eqb Q_eqb_canonical).
    + destruct S as (e & ->). discriminate.
Qed.

Lemma prices_loop_classified (fs : list NavigableString) :
  forall prices0 prices,
  _get_prices_loop prices0 fs = Ok prices ->
  forall f, In f fs -> classify f <> None.
Proof.
  induction fs as [|f fs IH]; intros prices0 prices; cbn [_get_prices_loop].
  - intros _ f [].
  - pose proof (step_classify prices0 f) as S. intros H g [<-|Hg].
    + destruct (classify f); [discriminate|].
      destruct S as (e & S). rewrite S in H. discriminate H.
    + destruct (_get_prices_step prices0 f) as [p1|e]; [|discriminate H].
      cbn [rbind] in H. now apply (IH _ _ H).
Qed.

Lemma collapse_single {A} (l : list A) (a : A) :
  collapse l = Single a <-> l = [a].
Proof.
  destruct l as [|x [|y l]]; cbn; split; intros H; try discriminate H;
    now injection H as ->.
Qed.

(** X15.  The main prices are a set: its members are distinct, so that
    the field is a single amount exactly when the container has a main
    price fragment and all its main price fragments show that amount,
    however many they are; and it is [float('nan')] exactly when the
    container has no main price fragment. *)
Theorem main_price_is_collapsed (product : Tag)
  (per_unit main : collapsed Q) (units : collapsed string) :
  _get_prices product = Ok (per_unit, units, main) ->
  (main = Unknown <->
   ~ exists f q, In f (find_all_prices product) /\ classify f = Some (Main q))
  /\ (forall a, main = Single a <->
        (exists f, In f (find_all_prices product)
                   /\ classify f = Some (Main a))
        /\ (forall f q, In f (find_all_prices product) ->
              classify f = Some (Main q) -> q = a))
  /\ (forall l, main = Joined l -> NoDup l /\ 2 <= List.length l).
Proof.
  unfold _get_prices.
  destruct (_get_prices_sets product) as [prices|e] eqn:S; [|discriminate].
  cbn [rbind]. intros [= _ _ <-].
  assert (C0 : sets_canonical empty_price_sets) by (split; constructor).
  assert (N0 : sets_distinct empty_price_sets) by (repeat split; constructor).
  destruct (prices_loop_spec _ _ _ C0 S) as (_ & M & _ & _).
  destruct (prices_loop_distinct _ _ _ C0 N0 S) as (_ & _ & NM).
  cbn [empty_price_sets set_prices_main In] in M.
  assert (M' : forall q, In q (set_prices_main prices) <->
                 exists f, In f (find_all_prices product)
                           /\ classify f = Some (Main q)).
  { intros q. rewrite M. intuition. }
  clear M. split; [|split].
  - destruct (set_prices_main prices) as [|x [|y l]] eqn:E; cbn [collapse].
    + split; [|reflexivity]. intros _ (f & q & Hf & Cf).
      apply (proj2 (M' q)). now exists f.
    + split; [discriminate|]. intros N. destruct N.
      destruct (proj1 (M' x) (or_introl eq_refl)) as (f & Hf & Cf).
      now exists f, x.
    + split; [discriminate|]. intros N. destruct N.
      destruct (proj1 (M' x) (or_introl eq_refl)) as (f & Hf & Cf).
      now exists f, x.
  - intros a. rewrite collapse_single. split.
    + intros E. rewrite E in M'. split.
      * apply M'. now left.
      * intros f q Hf Cf.
        assert (I : In q [a]) by (apply M'; now exists f).
        destruct I as [<-|[]]. reflexivity.
    + intros ((f & Hf & Cf) & U).
      assert (Ia : In a (set_prices_main prices)) by (apply M'; now exists f).
      assert (All : forall q, In q (set_prices_main prices) -> q = a).
      { intros q Hq. apply M' in Hq as (g & Hg & Cg). now apply (U g). }
      destruct (set_prices_main prices) as [|x [|y l]].
      * destruct Ia.
      * now rewrite (All x (or_introl eq_refl)).
      * inversion NM as [|? ? Nx _]; subst. destruct Nx.
        rewrite (All x (or_introl eq_refl)),
                (All y (or_intror (or_introl eq_refl))). now left.
  - intros l. destruct (set_prices_main prices) as [|x [|y l']];
      cbn [collapse]; try discriminate.
    intros [= <-]. split; [exact NM | simpl; lia].
Qed.

(** X20.  The unit labels are a set of texts: its members are distinct,
    so that the [units] field is a single label exactly when the
    container has a per-unit price fragment and all its per-unit price
    fragments name that unit, however many they are; it is
    [float('nan')] exactly when the container has no per-unit price
    fragment, which is also exactly when [prices_per_unit] is
    [float('nan')]. *)
Theorem units_are_collapsed (product : Tag)
  (per_unit main : collapsed Q) (units : collapsed string) :
  _get_prices product = Ok (per_unit, units, main) ->
  (units = Unknown <->
   ~ exists f q u, In f (find_all_prices product)
                   /\ classify f = Some (PerUnit q u))
  /\ (forall u, units = Single u <->
        (exists f q, In f (find_all_prices product)
                     /\ classify f = Some (PerUnit q u))
        /\ (forall f q v, In f (find_all_prices product) ->
              classify f = Some (PerUnit q v) -> v = u))
  /\ (forall l, units = Joined l -> NoDup l /\ 2 <= List.length l)
  /\ (per_unit = Unknown <-> units = Unknown).
Proof.
  unfold _get_prices.
  destruct (_get_prices_sets product) as [prices|e] eqn:S; [|discriminate].
  cbn [rbind]. intros [= <- <- _].
  assert (C0 : sets_canonical empty_price_sets) by (split; constructor).
  assert (N0 : sets_distinct empty_price_sets) by (repeat split; constructor).
  destruct (prices_loop_spec _ _ _ C0 S) as (_ & _ & P & M).
  destruct (prices_loop_distinct _ _ _ C0 N0 S) as (_ & NU & _).
  cbn [empty_price_sets set_units set_prices_per_unit In] in M, P.
  assert (M' : forall u, In u (set_units prices) <->
                 exists f q, In f (find_all_prices product)
                             /\ classify f = Some (PerUnit q u)).
  { intros u. rewrite M. intuition. }
  assert (P' : forall q, In q (set_prices_per_unit prices) <->
                 exists f u, In f (find_all_prices product)
                             /\ classify f = Some (PerUnit q u)).
  { intros q. rewrite P. intuition. }
  clear M P. split; [|split; [|split]].
  - destruct (set_units prices) as [|x [|y l]] eqn:E; cbn [collapse].
    + split; [|reflexivity]. intros _ (f & q & u & Hf & Cf).
      apply (proj2 (M' u)). now exists f, q.
    + split; [discriminate|]. intros N. destruct N.
      destruct (proj1 (M' x) (or_introl eq_refl)) as (f & q & Hf & Cf).
      now exists f, q, x.
    + split; [discriminate|]. intros N. destruct N.
      destruct (proj1 (M' x) (or_introl eq_refl)) as (f & q & Hf & Cf).
      now exists f, q, x.
  - intros a. rewrite collapse_single. split.
    + intros E. rewrite E in M'. split.
      * apply M'. now left.
      * intros f q v Hf Cf.
        assert (I : In v [a]) by (apply M'; now exists f, q).
        destruct I as [<-|[]]. reflexivity.
    + intros ((f & q & Hf & Cf) & U).
      assert (Ia : In a (set_units prices)) by (apply M'; now exists f, q).
      assert (All : forall v, In v (set_units prices) -> v = a).
      { intros v Hv. apply M' in Hv as (g & q' & Hg & Cg). now apply (U g q'). }
      destruct (set_units prices) as [|x [|y l]].
      * destruct Ia.
      * now rewrite (All x (or_introl eq_refl)).
      * inversion NU as [|? ? Nx _]; subst. destruct Nx.
        rewrite (All x (or_introl eq_refl)),
                (All y (or_intror (or_introl eq_refl))). now left.
  - intros l. destruct (set_units prices) as [|x [|y l']];
      cbn [collapse]; try discriminate.
    intros [= <-]. split; [exact NU | simpl; lia].
  - split; intros K.
    + destruct (set_units prices) as [|x l] eqn:E; [reflexivity|].
      destruct (proj1 (M' x) (or_introl eq_refl)) as (f & q & Hf & Cf).
      assert (I : In q (set_prices_per_unit prices))
        by (apply P'; now exists f, x).
      destruct (set_prices_per_unit prices) as [|z [|z' l']];
        [destruct I | discriminate K | discriminate K].
    + destruct (set_prices_per_unit prices) as [|x l] eqn:E; [reflexivity|].
      destruct (proj1 (P' x) (or_introl eq_refl)) as (f & u & Hf & Cf).
      assert (I : In u (set_units prices)) by (apply M'; now exists f, x).
      destruct (set_units prices) as [|z [|z' l']];
        [destruct I | discriminate K | discriminate K].
Qed.

(** X16.  A price figure with a comma in it (a thousands separator)
    makes [_get_prices] raise: the pattern takes the comma and [float]
    refuses it, for a struck-through figure as for any other. *)
Theorem thousands_separator_raises (product : Tag) (f : NavigableString)
  (figure : string) :
  In f (find_all_prices product) ->
  search_price (ns_text f) = Some figure ->
  contains "," figure = true ->
  exists e, _get_prices product = Raise e.
Proof.
  intros Hf Sf Cf.
  assert (N : classify f = None).
  { unfold classify. rewrite Sf.
    destruct (py_float figure) as [q|] eqn:F; [|reflexivity].
    apply py_float_chars, float_chars_have_no_comma in F. congruence. }
  unfold _get_prices.
  destruct (_get_prices_sets product) as [prices|e] eqn:S.
  - now destruct (prices_loop_classified _ _ _ S f Hf).
  - now exists e.
Qed.

End MorePrices.

Lemma main_price_is_collapsed_witness :
  map (fun f => search_price (ns_text f))
    (@find_all_prices single_page_library rounded_prices)
  = [Some "12345678901234567.00"; Some "12345678901234568.00"]
  /\ @_get_prices single_page_library rounded_prices
     = Ok (Unknown, Unknown, Single 12345678901234568%Q)
  /\ @_get_prices single_page_library twice_priced
     = Ok (Unknown, Unknown, Single 5%Q)
  /\ (exists f, In f (@find_all_prices single_page_library rounded_prices)
                /\ classify f = Some (Main 12345678901234568%Q))
  /\ (forall f q, In f (@find_all_prices single_page_library rounded_prices) ->
        classify f = Some (Main q) -> q = 12345678901234568%Q).
Proof.
  assert (H : @_get_prices single_page_library rounded_prices
              = Ok (Unknown, Unknown, Single 12345678901234568%Q))
    by (vm_compute; reflexivity).
  split; [vm_compute; reflexivity|]. split; [exact H|].
  split; [vm_compute; reflexivity|].
  exact (proj1 (proj1 (proj2 (@main_price_is_collapsed single_page_library
                                rounded_prices _ _ _ H))
                  12345678901234568%Q) eq_refl).
Defined.

Lemma units_are_collapsed_witness :
  @_get_prices single_page_library bulk_pack
  = Ok (Single 4%Q, Single "oz", Single 19.99%Q)
  /\ map classify (@find_all_prices single_page_library bulk_pack)
     = [Some (Main 19.99%Q); Some (PerUnit 4%Q "oz");
        Some (PerUnit 4%Q "oz")]
  /\ (exists f q, In f (@find_all_prices single_page_library bulk_pack)
                  /\ classify f = Some (PerUnit q "oz"))
  /\ (forall f q v, In f (@find_all_prices single_page_library bulk_pack) ->
        classify f = Some (PerUnit q v) -> v = "oz").
Proof.
  assert (H : @_get_prices single_page_library bulk_pack
              = Ok (Single 4%Q, Single "oz", Single 19.99%Q))
    by (vm_compute; reflexivity).
  split; [exact H|]. split; [vm_compute; reflexivity|].
  exact (proj1 (proj1 (proj2 (@units_are_collapsed single_page_library
                                bulk_pack _ _ _ H)) "oz") eq_refl).
Defined.

Lemma thousands_separator_raises_witness :
  In (plain "$1,299.00") (@find_all_prices single_page_library laptop_price)
  /\ search_price (ns_text (plain "$1,299.00")) = Some "1,299.00"
  /\ contains "," "1,299.00" = true
  /\ @_get_prices single_page_library laptop_price = Raise ValueError
  /\ exists e, @_get_prices single_page_library laptop_price = Raise e.
Proof.
  assert (H1 : In (plain "$1,299.00")
                 (@find_all_prices single_page_library laptop_price))
    by (left; reflexivity).
  split; [exact H1|]. split; [reflexivity|]. split; [reflexivity|].
  split; [reflexivity|].
  exact (@thousands_separator_raises single_page_library laptop_price
           (plain "$1,299.00") "1,299.00" H1 eq_refl eq_refl).
Defined.

(* ================================================================== *)
(** * The high-resolution image URL *)

Lemma length_append (a b : string) :
  String.length (a ++ b) = String.length a + String.length b.
Proof. induction a as [|c a IH]; simpl; [reflexivity | now rewrite IH]. Qed.

(** Characters still to be passed over are dropped. *)
Lemma sub_ac_jpg_skip (t : string) :
  forall k, String.length t <= k -> sub_ac_jpg k t = EmptyString.
Proof.
  induction t as [|c t IH]; intros k L; [reflexivity|].
  simpl in L. destruct k as [|k]; [lia|]. cbn [sub_ac_jpg]. apply IH. lia.
Qed.

Lemma sub_ac_jpg_absent (s : string) :
  contains "._AC_" s = false -> sub_ac_jpg 0 s = s.
Proof.
  induction s as [|c s IH]; intros H; [reflexivity|].
  apply contains_cons_false in H as (S & C).
  cbn [sub_ac_jpg]. rewrite S. now rewrite (IH C).
Qed.

(** Before the modifier nothing is rewritten, when no dot of the stem
    is followed by an underscore. *)
Lemma sub_ac_jpg_stem (stem : string) :
  forall x, contains "._" stem = false ->
  sub_ac_jpg 0 (stem ++ String "." x)
  = (stem ++ sub_ac_jpg 0 (String "." x))%string.
Proof.
  induction stem as [|c stem IH]; intros x H; [reflexivity|].
  apply contains_cons_false in H as (S & C).
  change (String c stem ++ String "." x)%string
    with (String c (stem ++ String "." x))%string.
  assert (N : startswith "._AC_" (String c (stem ++ String "." x)) = false).
  { cbn [startswith] in S |- *. destruct (chr_eqb "." c); [|reflexivity].
    cbn [andb] in S |- *. destruct stem as [|d stem]; [reflexivity|].
    cbn [append startswith] in S |- *. rewrite andb_true_r in S.
    now rewrite S. }
  cbn [sub_ac_jpg]. rewrite N. cbn [append]. now rewrite (IH x C).
Qed.

(** The lazy dot-star stops at the first [.jpg]: over a modifier with no
    dot and no line feed, at the one that closes it. *)
Lemma lazy_jpg_modifier (m rest : string) :
  contains "." m = false ->
  all_chars re_dot m = true ->
  lazy_jpg (m ++ ".jpg" ++ rest) = Some (String.length m).
Proof.
  induction m as [|c m IH]; intros H D.
  - reflexivity.
  - apply contains_cons_false in H as (S & C).
    cbn [all_chars] in D. apply andb_true_iff in D as (Dc & D).
    cbn [startswith] in S. rewrite andb_true_r in S.
    change (String c m ++ ".jpg" ++ rest)%string
      with (String c (m ++ ".jpg" ++ rest))%string.
    cbn [lazy_jpg startswith]. rewrite S. cbn [andb].
    rewrite Dc, (IH C D). reflexivity.
Qed.

(** X17.  [_get_high_res_img_url] returns a URL in which [._AC_] does
    not occur as it is; and from a URL made of a stem, [._AC_], a
    modifier and [.jpg], where no dot of the stem is followed by an
    underscore and the modifier holds no dot and no line feed, it
    removes modifier and marker and leaves the stem and [.jpg]. *)
Theorem high_res_strips_the_modifier (stem modifier : string) :
  (forall url, contains "._AC_" url = false ->
     _get_high_res_img_url url = url)
  /\ (contains "._" stem = false ->
      contains "." modifier = false ->
      all_chars re_dot modifier = true ->
      _get_high_res_img_url (stem ++ "._AC_" ++ modifier ++ ".jpg")
      = (stem ++ ".jpg")%string).
Proof.
  unfold _get_high_res_img_url. split; [apply sub_ac_jpg_absent|].
  intros Hs Hm Hd.
  change (stem ++ "._AC_" ++ modifier ++ ".jpg")%string
    with (stem ++ String "." ("_AC_" ++ modifier ++ ".jpg"))%string.
  rewrite (sub_ac_jpg_stem stem _ Hs). f_equal.
  cbn [sub_ac_jpg startswith chr_eqb Ascii.eqb Bool.eqb andb append drop].
  pose proof (lazy_jpg_modifier modifier EmptyString Hm Hd) as L.
  cbn [append] in L. rewrite L.
  replace (String.length modifier + 8)
    with (S (S (S (S (String.length modifier + 4))))) by lia.
  cbn iota. rewrite sub_ac_jpg_skip; [reflexivity|].
  rewrite length_append. simpl. lia.
Qed.

Lemma high_res_strips_the_modifier_witness :
  contains "._" "https://m.media-amazon.com/images/I/71abc" = false
  /\ contains "." "UL320_" = false
  /\ all_chars re_dot "UL320_" = true
  /\ _get_high_res_img_url
       "https://m.media-amazon.com/images/I/71abc._AC_UL320_.jpg"
     = "https://m.media-amazon.com/images/I/71abc.jpg".
Proof.
  split; [reflexivity|]. split; [reflexivity|]. split; [reflexivity|].
  exact (proj2 (high_res_strips_the_modifier
                  "https://m.media-amazon.com/images/I/71abc" "UL320_")
           eq_refl eq_refl eq_refl).
Defined.

(* ================================================================== *)
(** * A walk that never ends *)

Section Endless.
Context {lib : HtmlLibrary} {net : Network}.

(** X18.  Nothing but the count of records ends the walk.  When every
    request is answered with the same valid page, on which no schema
    finds a container and which has a next-page link, a client short of
    its target fetches page after page for ever: no number of turns of
    the loop of [_get_products] reaches its end. *)
Theorem empty_pages_walk_forever (page next : string) (max_product_nb : Z) :
  (forall k, network k = ok_page page) ->
  _check_page page = true ->
  page_products page = [] ->
  forall (fuel : nat) (url : string) (self : AmazonClient),
  _get_next_page_url (base_url self) (BeautifulSoup page) = Ok (Some next) ->
  (len (product_dict_list self) < max_product_nb)%Z ->
  _get_products_loop fuel (Some url) max_product_nb self = None.
Proof.
  intros N V P. induction fuel as [|f IH]; intros url self X L;
    cbn [_get_products_loop];
    replace (len (product_dict_list self) <? max_product_nb)%Z with true
      by (symmetry; now apply Z.ltb_lt).
  - reflexivity.
  - unfold _get_page_html. change _MAX_TRIAL_REQUESTS with 5.
    rewrite (loop_valid_page 4 url page self (N _) V).
    unfold _extract_page. fold (page_products page). rewrite P.
    cbn [extract_products append_page record_event base_url]. rewrite X.
    apply IH; [exact X | exact L].
Qed.

End Endless.

Lemma empty_pages_walk_forever_witness :
  (forall k, @network empty_page_network k = ok_page "<html>no results</html>")
  /\ _check_page "<html>no results</html>" = true
  /\ @page_products empty_page_library "<html>no results</html>" = []
  /\ @_get_next_page_url empty_page_library (base_url laptop_client)
       (@BeautifulSoup empty_page_library "<html>no results</html>")
     = Ok (Some "https://www.amazon.com/s?k=laptop&page=2")
  /\ (len (product_dict_list laptop_client) < 10)%Z
  /\ forall fuel,
       @_get_products_loop empty_page_library empty_page_network
         fuel (Some laptop_url) 10 laptop_client = None.
Proof.
  assert (N : forall k, @network empty_page_network k
                        = ok_page "<html>no results</html>")
    by (intros k; reflexivity).
  split; [exact N|]. split; [reflexivity|]. split; [reflexivity|].
  split; [reflexivity|]. split; [reflexivity|].
  intros fuel.
  exact (@empty_pages_walk_forever empty_page_library empty_page_network
           "<html>no results</html>" "https://www.amazon.com/s?k=laptop&page=2"
           10 N eq_refl eq_refl fuel laptop_url laptop_client
           eq_refl eq_refl).
Defined.
